(** * userchroot: the authorization and privilege-transition pipeline

    A shallow embedding of [userchroot.c] and [fundamental_devices.c]
    together with the properties of the natural-language specification
    that concern them.

    The program is a sequence of system calls, each followed by a test
    that prints a diagnostic and calls [exit].  It is embedded in a
    state-and-exit monad: the state carries what the process can change
    (credentials, environment, the position in the configuration stream)
    and the ordered log of the calls it made; the host (file system,
    user database, kernel answers) is a read-only record.

    What the embedding takes from outside the two files:
    - the kernel's credential calls follow setuid(2), seteuid(2),
      setgid(2) and setegid(2) with saved ids; which processes count as
      privileged is left to the host;
    - path lookups ([lstat], [stat]) answer from one snapshot of the file
      system, while the descriptor returned by [fopen] carries its own
      [fstat] answer and its own bytes, so that a file replaced after
      [fopen] can be described;
    - the environment is stored as the C libraries with an in-place
      [unsetenv] store it (glibc, musl): at entry [environ] points to the
      array of strings that [main] receives as [envp]; [clearenv] sets
      [environ] to NULL and leaves that array as it is; [unsetenv]
      removes the entries [name=...] from the array [environ] points to
      by moving the later ones down, so that [envp] sees the removal; an
      entry that holds no [=] is no variable and is never removed;
    - [malloc] and [realloc] do not fail, so the branches that print
      [Failed to allocate memory] are not part of the embedding;
    - the strings of [argv], of the user database and of the build are C
      strings, that is, they hold no NUL byte; only the buffer filled by
      [fgets] may hold one. *)

From Stdlib Require Import String Ascii ZArith List Bool Lia Arith.
Import ListNotations.

Local Open Scope string_scope.
Local Open Scope Z_scope.

Set Implicit Arguments.

(* ===================================================================== *)
(** ** C strings *)
(* ===================================================================== *)

(** A C string is modelled by [string]: the bytes before the terminating
    NUL.  A buffer filled by [fgets] may hold NUL bytes that were read
    from the file; the functions below stop at the first NUL, as the C
    library does, so that they can be applied to such a buffer. *)
Module CStr.

Definition NUL : ascii := "000"%char.
Definition NL : ascii := "010"%char.
Definition SLASH : ascii := "/"%char.

(** The C string held in a buffer: the bytes before the first NUL. *)
Fixpoint cstr (s : string) : string :=
  match s with
  | EmptyString => EmptyString
  | String c s' => if Ascii.eqb c NUL then EmptyString else String c (cstr s')
  end.

Definition strlen (s : string) : nat := String.length (cstr s).

(** [strchr(s, c) != NULL] for a character [c] other than NUL. *)
Fixpoint strchr (s : string) (c : ascii) : bool :=
  match s with
  | EmptyString => false
  | String a s' =>
      if Ascii.eqb a NUL then false
      else if Ascii.eqb a c then true
      else strchr s' c
  end.

(** [strrchr(s, c)]: the index of the last occurrence of [c]. *)
Fixpoint strrchr (s : string) (c : ascii) : option nat :=
  match s with
  | EmptyString => None
  | String a s' =>
      match strrchr s' c with
      | Some i => Some (S i)
      | None => if Ascii.eqb a c then Some O else None
      end
  end.

(** [s[i] = 0]: the string cut before index [i]. *)
Fixpoint truncate (i : nat) (s : string) : string :=
  match i, s with
  | O, _ => EmptyString
  | S _, EmptyString => EmptyString
  | S i', String a s' => String a (truncate i' s')
  end.

(** [s + i]: the string from index [i] on. *)
Fixpoint advance (i : nat) (s : string) : string :=
  match i, s with
  | O, _ => s
  | S _, EmptyString => EmptyString
  | S i', String _ s' => advance i' s'
  end.

(** [strncmp(a, b, n) == 0]. *)
Fixpoint strncmp_eq (a b : string) (n : nat) : bool :=
  match n with
  | O => true
  | S n' =>
      match a, b with
      | EmptyString, EmptyString => true
      | EmptyString, String y _ => Ascii.eqb y NUL
      | String x _, EmptyString => Ascii.eqb x NUL
      | String x a', String y b' =>
          if Ascii.eqb x y
          then (if Ascii.eqb x NUL then true else strncmp_eq a' b' n')
          else false
      end
  end.

(** [strcspn(s, "=")]. *)
Fixpoint strcspn_eq (s : string) : nat :=
  match s with
  | EmptyString => O
  | String a s' =>
      if Ascii.eqb a NUL then O
      else if Ascii.eqb a "="%char then O
      else S (strcspn_eq s')
  end.

(** [s[i]], the terminating NUL at the end of [s]. *)
Fixpoint byte_at (i : nat) (s : string) : ascii :=
  match s, i with
  | EmptyString, _ => NUL
  | String a _, O => a
  | String _ s', S i' => byte_at i' s'
  end.

(** The byte is absent from the string. *)
Fixpoint lacks (c : ascii) (s : string) : Prop :=
  match s with
  | EmptyString => True
  | String a s' => a <> c /\ lacks c s'
  end.

End CStr.
Import CStr.

(* ===================================================================== *)
(** ** Build-time constants and the host *)
(* ===================================================================== *)

(** What the build fixes.  [CFG] is the string of [-DCONFIGFILE] and the
    three switches are the [#ifdef]s of the two files; they are
    parameters of everything below.
    Modelled from the spec: [ERR_EXIT_CODE] is declared in
    [userchroot.h], which is not among the sources; the specification
    calls it a single fixed nonzero error code, and the field after it
    records that it is not 0. *)
Record Build := {
  CFG : string;
  ERR_EXIT_CODE : Z;
  ERR_EXIT_CODE_nonzero : ERR_EXIT_CODE <> 0;
  HAVE_CLEARENV : bool;
  USE_MOUNT_LOFS_INSTEAD_OF_MKNOD : bool;
  LINUX : bool
}.

(** [struct stat], the fields the program reads. *)
Record stat := {
  st_mode : Z;
  st_uid : Z;
  st_dev : Z;
  st_ino : Z;
  st_rdev : Z
}.

Definition S_IFMT : Z := 61440.   (* 0170000 *)
Definition S_IFDIR : Z := 16384.  (* 0040000 *)
Definition S_IFREG : Z := 32768.  (* 0100000 *)
Definition S_ISVTX : Z := 512.    (* 0001000 *)

Definition S_ISDIR (m : Z) : bool := Z.land m S_IFMT =? S_IFDIR.
Definition S_ISREG (m : Z) : bool := Z.land m S_IFMT =? S_IFREG.

(** [mode & 00022]: group-write or other-write. *)
Definition loose (m : Z) : bool := negb (Z.land m 18 =? 0).

(** Process credentials: real, effective and saved ids. *)
Record Cred := {
  ruid : Z; euid : Z; suid : Z;
  rgid : Z; egid : Z; sgid : Z
}.

(** An opened stream: what [fstat] reports for the descriptor and the
    bytes that can be read from it. *)
Record OpenFile := {
  of_fstat : option stat;
  of_bytes : string
}.

(** The host as the process finds it.  Path lookups are a snapshot; the
    opened descriptor has its own identity, which need not be the one
    the path resolves to. *)
Record World := {
  w_argv : list string;
  w_envp : list string;
  w_cred : Cred;
  (** whether the kernel treats a process with these credentials as
      privileged for the set*id calls *)
  w_privileged : Cred -> bool;
  w_lstat : string -> option stat;
  w_stat : string -> option stat;
  w_fopen : string -> option OpenFile;
  w_fclose : Z;
  w_getpwuid : Z -> option string;
  w_chdir : string -> Z;
  w_chroot : string -> Z;
  w_execve : string -> bool;
  (** return codes of the calls of the device provisioner *)
  w_mknod : string -> Z;
  w_mkdir : string -> Z;
  w_mount : string -> Z;
  w_umount : string -> Z;
  w_rmdir : string -> Z;
  w_unlink : string -> Z;
  w_chown : string -> Z;
  w_chmod : string -> Z;
  w_umask : Z
}.


(* ===================================================================== *)
(** ** Diagnostics, calls and the process state *)
(* ===================================================================== *)

(** One constructor per diagnostic line of the two source files, with the
    strings that the format substitutes. *)
Inductive Diag : Type :=
| D_usage                               (* USAGESTR *)
| D_whitelist (str : string)            (* Path %s contains non-whitelisted characters. *)
| D_walk_not_absolute                   (* Paths should be always absolute. *)
| D_walk_stat (p : string)              (* Failed to stat directory %s. *)
| D_not_dir (p : string)                (* %s is not a directory. *)
| D_dir_owner (p : string)              (* Directory %s should be owned by root. *)
| D_dir_perms (p : string)              (* Directory %s has non-restrictive permissions. *)
| D_cfg_stat                            (* Failed to stat config file %s. *)
| D_cfg_not_regular                     (* Configuration file %s is not a regular file. *)
| D_cfg_owner                           (* Configuration file %s should be owned by root. *)
| D_cfg_perms                           (* Configuration file %s has non-restrictive permissions. *)
| D_cfg_fstat                           (* Failed to fstat. *)
| D_cfg_moved                           (* Config file moved after opening. *)
| D_clearenv                            (* Failed to clear environment. *)
| D_corrupted_env                       (* Corrupted environment. *)
| D_unsetenv                            (* Failed to clear envionment. *)
| D_not_setuid_root                     (* Should be run with root privileges. *)
| D_setgid_root                         (* userchroot should not be setgid root. *)
| D_run_as_root                         (* Should not be run as root. *)
| D_cfg_open                            (* Failed to open configuration file %s. *)
| D_stat (p : string)                   (* Failed to stat %s. *)
| D_not_absolute (p : string)           (* Path %s should be absolute. *)
| D_last_component (p : string)         (* Failed to identify last component of the path %s. *)
| D_no_target                           (* This is not a possible target for userchroot. *)
| D_trailing_slash                      (* Trailing slashes are not allowed in the path. *)
| D_dot_dotdot                          (* . and .. are not allowed as part of the chroot path. *)
| D_same_owner (base leaf : string)     (* %s and %s/%s must have the same owner. *)
| D_getpwuid                            (* Failed to getpwuid. *)
| D_assemble_line                       (* Failed to assemble configuration line test. *)
| D_assemble_path                       (* Failed to assemble path. *)
| D_close                               (* Failed to close configuration file. *)
| D_permission_denied                   (* Permission Denied. *)
| D_owner_only                          (* install or uninstall devices can only be called by the owner of the chroot. *)
| D_chdir_chroot                        (* Failed to chdir to the chroot directory. *)
| D_chroot                              (* Failed to chroot. *)
| D_give_up                             (* Failed to give up privileges. *)
| D_chdir_root                          (* Failed to chdir to the root directory. *)
| D_exec (prog : string)                (* Failed to exec %s: %s *)
| D_dev_exists (p : string)             (* %s already exists. *)
| D_dev_stat (p : string)               (* Failed to stat %s.  /  Could not stat %s. *)
| D_dev_mkdir (p : string)              (* Failed to mkdir %s to mount. *)
| D_dev_lofs (p : string)               (* Failed to lofs mount %s. *)
| D_dev_mknod (p : string)              (* Failed to create the device for %s. *)
| D_dev_umount (p : string)             (* Failed to umount %s.  /  Could not unmount %s (%s). *)
| D_dev_rmdir (p : string)              (* Failed to rmdir %s.  /  Could not rmdir %s (%s). *)
| D_dev_unlink (p : string)             (* Failed to unlink %s. *)
| D_dev_chown (p : string)              (* Could not chown %s to root. *)
| D_dev_chmod (p : string)              (* Could not chmod %s to 777+sticky. *)
| D_dev_not_dir (p : string)            (* %s not a directory. *)
| D_dev_perms (p : string)              (* Wrong perms on %s. *)
| D_dev_mount (p : string).             (* Could not mount %s. *)

(** The calls the process makes, in the order it makes them, with the
    return code where the program looks at it. *)
Inductive Event : Type :=
| E_stderr (d : Diag)
| E_clearenv
| E_unsetenv (name : string) (rc : Z)
| E_fopen (p : string)
| E_lstat (p : string)
| E_fstat
| E_fgets (chunk : string)
| E_fclose (rc : Z)
| E_getpwuid (uid : Z)
| E_chdir (p : string) (rc : Z)
| E_chroot (p : string) (rc : Z)
| E_setuid (u rc : Z)
| E_seteuid (u rc : Z)
| E_setgid (g rc : Z)
| E_setegid (g rc : Z)
| E_execve (prog : string) (argv envp : list string)
| E_stat (p : string)
| E_umask (m : Z)
| E_mknod (p : string) (mode rdev rc : Z)
| E_mkdir (p : string) (mode rc : Z)
| E_mount (src tgt fstype : string) (rc : Z)
| E_umount (p : string) (rc : Z)
| E_umount2 (p : string) (rc : Z)
| E_rmdir (p : string) (rc : Z)
| E_unlink (p : string) (rc : Z)
| E_chown (p : string) (rc : Z)
| E_chmod (p : string) (mode rc : Z).

(** A [char **] of this program: the array of strings that the kernel
    handed to [main], or NULL. *)
Inductive EnvPtr : Type :=
| ENTRY
| NULLPTR.

(** What the process can change.  At entry [environ] and the [envp] of
    [main] point to one array of strings.  [s_environ] holds the strings
    that [environ] points to (none when it is NULL).  [s_entry] is [None]
    as long as [environ] points to the array that [main] received, whose
    strings are then those of [s_environ]; once [environ] has been set
    to NULL it holds the strings of that array, which nothing reaches
    through [environ] any more. *)
Record State := {
  s_cred : Cred;
  s_environ : list string;
  s_entry : option (list string);
  s_cfg : string;        (* bytes of the configuration stream not yet read *)
  s_eof : bool;          (* its end-of-file indicator *)
  s_log : list Event
}.

(** How a run ends: [exit(rc)], or the image replaced by [execve]; the
    third case is a loop that does not end.  The loops over a path and
    over the configuration stream always end; the loop of
    [portable_clearenv] repeats one pass for ever when it comes to an
    entry of the environment that holds no [=]. *)
Inductive Outcome : Type :=
| Exit (rc : Z)
| Replaced (prog : string) (argv envp : list string)
| OutOfFuel.

Inductive Res (A : Type) : Type :=
| Ok (a : A) (s : State)
| Halt (o : Outcome) (s : State).
Arguments Halt {A} o s.

Definition M (A : Type) : Type := State -> Res A.

Definition ret {A} (a : A) : M A := fun s => Ok a s.

Definition bind {A B} (m : M A) (k : A -> M B) : M B :=
  fun s => match m s with
           | Ok a s' => k a s'
           | Halt o s' => Halt o s'
           end.

Declare Scope prog_scope.
Delimit Scope prog_scope with prog.
Notation "x <- m ;; k" := (bind m (fun x => k))
  (at level 61, m at next level, right associativity) : prog_scope.
Notation "m ;; k" := (bind m (fun _ => k))
  (at level 61, right associativity) : prog_scope.
Local Open Scope prog_scope.

Definition state_of {A} (r : Res A) : State :=
  match r with Ok _ s => s | Halt _ s => s end.

Definition outcome_of {A} (r : Res A) : option Outcome :=
  match r with Ok _ _ => None | Halt o _ => Some o end.

(** The strings of the array that [main] received as [envp], as they
    are now. *)
Definition entry_strings (s : State) : list string :=
  match s_entry s with
  | Some block => block
  | None => s_environ s
  end.

(** The strings that a [char **] points to. *)
Definition strings_at (p : EnvPtr) (s : State) : list string :=
  match p with
  | ENTRY => entry_strings s
  | NULLPTR => []
  end.

Definition with_cred (c : Cred) (s : State) : State :=
  {| s_cred := c; s_environ := s_environ s; s_entry := s_entry s;
     s_cfg := s_cfg s; s_eof := s_eof s; s_log := s_log s |}.

(** The array that [environ] points to is rewritten in place; when it
    is the array that [main] received, [envp] points to the new
    strings. *)
Definition with_environ (e : list string) (s : State) : State :=
  {| s_cred := s_cred s; s_environ := e; s_entry := s_entry s;
     s_cfg := s_cfg s; s_eof := s_eof s; s_log := s_log s |}.

(** [environ = NULL]: the array it pointed to stays as it is. *)
Definition with_environ_null (s : State) : State :=
  {| s_cred := s_cred s; s_environ := [];
     s_entry := Some (entry_strings s);
     s_cfg := s_cfg s; s_eof := s_eof s; s_log := s_log s |}.

Definition with_stream (bytes : string) (eof : bool) (s : State) : State :=
  {| s_cred := s_cred s; s_environ := s_environ s; s_entry := s_entry s;
     s_cfg := bytes; s_eof := eof; s_log := s_log s |}.

Definition log (e : Event) (s : State) : State :=
  {| s_cred := s_cred s; s_environ := s_environ s; s_entry := s_entry s;
     s_cfg := s_cfg s; s_eof := s_eof s; s_log := (s_log s ++ [e])%list |}.

Definition emit (e : Event) : M unit := fun s => Ok tt (log e s).

Definition exit {A} (rc : Z) : M A := fun s => Halt (Exit rc) s.

Definition out_of_fuel {A} : M A := fun s => Halt OutOfFuel s.

(** [if (c) { ... }] with no [else]. *)
Definition when (c : bool) (m : M unit) : M unit :=
  if c then m else ret tt.

(* ===================================================================== *)
(** ** The kernel's credential calls *)
(* ===================================================================== *)

(** setuid(2), seteuid(2), setgid(2), setegid(2) with saved ids: a
    privileged caller of [setuid]/[setgid] sets the real, effective and
    saved id; an unprivileged caller may only make the effective id one
    of the ids it already has.  Each returns the code and the new
    credentials; a failing call changes nothing. *)
Module Kernel.

Definition setuid (priv : Cred -> bool) (u : Z) (c : Cred) : Z * Cred :=
  if priv c then
    (0, {| ruid := u; euid := u; suid := u;
           rgid := rgid c; egid := egid c; sgid := sgid c |})
  else if (u =? ruid c) || (u =? suid c) then
    (0, {| ruid := ruid c; euid := u; suid := suid c;
           rgid := rgid c; egid := egid c; sgid := sgid c |})
  else (-1, c).

Definition seteuid (priv : Cred -> bool) (u : Z) (c : Cred) : Z * Cred :=
  if priv c || (u =? ruid c) || (u =? euid c) || (u =? suid c) then
    (0, {| ruid := ruid c; euid := u; suid := suid c;
           rgid := rgid c; egid := egid c; sgid := sgid c |})
  else (-1, c).

Definition setgid (priv : Cred -> bool) (g : Z) (c : Cred) : Z * Cred :=
  if priv c then
    (0, {| ruid := ruid c; euid := euid c; suid := suid c;
           rgid := g; egid := g; sgid := g |})
  else if (g =? rgid c) || (g =? sgid c) then
    (0, {| ruid := ruid c; euid := euid c; suid := suid c;
           rgid := rgid c; egid := g; sgid := sgid c |})
  else (-1, c).

Definition setegid (priv : Cred -> bool) (g : Z) (c : Cred) : Z * Cred :=
  if priv c || (g =? rgid c) || (g =? egid c) || (g =? sgid c) then
    (0, {| ruid := ruid c; euid := euid c; suid := suid c;
           rgid := rgid c; egid := g; sgid := sgid c |})
  else (-1, c).

(** The classical rule: privileged means effective uid 0. *)
Definition classic (c : Cred) : bool := euid c =? 0.

End Kernel.

(* ===================================================================== *)
(** ** The C library over the host *)
(* ===================================================================== *)

(** What [fgets] takes from the stream when the buffer has room for [k]
    bytes: the chunk, the bytes left, and whether end-of-file was met.
    Reading stops after a newline, which is kept. *)
Fixpoint fgets_chars (k : nat) (input : string) : string * string * bool :=
  match k with
  | O => (EmptyString, input, false)
  | S k' =>
      match input with
      | EmptyString => (EmptyString, EmptyString, true)
      | String c rest =>
          if Ascii.eqb c NL then (String c EmptyString, rest, false)
          else
            let '(chunk, rest', e) := fgets_chars k' rest in
            (String c chunk, rest', e)
      end
  end.

(** The name of an environment entry: the text before its first [=]. *)
Definition env_name (entry : string) : string :=
  truncate (strcspn_eq entry) entry.

(** The test by which [unsetenv(name)] finds the entries to remove:
    [strncmp(entry, name, len) == 0 && entry[len] == '='] with
    [len = strlen(name)]. *)
Definition is_variable (name entry : string) : bool :=
  strncmp_eq entry name (strlen name) &&
  Ascii.eqb (byte_at (strlen name) entry) "="%char.

Section Program.

Variable b : Build.
Variable w : World.

(** [fprintf(stderr, ...)]. *)
Definition eprint (d : Diag) : M unit := emit (E_stderr d).

(** [fprintf(stderr, ...); exit(ERR_EXIT_CODE);] *)
Definition fatal {A} (d : Diag) : M A :=
  eprint d ;; exit (ERR_EXIT_CODE b).

(** The [USAGE()] macro. *)
Definition USAGE {A} : M A := fatal D_usage.

(** [fprintf(stderr, ...); USAGE();] *)
Definition fatal_usage {A} (d : Diag) : M A :=
  eprint d ;; USAGE.

Definition getuid : M Z := fun s => Ok (ruid (s_cred s)) s.
Definition geteuid : M Z := fun s => Ok (euid (s_cred s)) s.
Definition getgid : M Z := fun s => Ok (rgid (s_cred s)) s.
Definition getegid : M Z := fun s => Ok (egid (s_cred s)) s.

Definition setuid (u : Z) : M Z := fun s =>
  let '(rc, c) := Kernel.setuid (w_privileged w) u (s_cred s) in
  Ok rc (log (E_setuid u rc) (with_cred c s)).

Definition seteuid (u : Z) : M Z := fun s =>
  let '(rc, c) := Kernel.seteuid (w_privileged w) u (s_cred s) in
  Ok rc (log (E_seteuid u rc) (with_cred c s)).

Definition setgid (g : Z) : M Z := fun s =>
  let '(rc, c) := Kernel.setgid (w_privileged w) g (s_cred s) in
  Ok rc (log (E_setgid g rc) (with_cred c s)).

Definition setegid (g : Z) : M Z := fun s =>
  let '(rc, c) := Kernel.setegid (w_privileged w) g (s_cred s) in
  Ok rc (log (E_setegid g rc) (with_cred c s)).

Definition lstat (p : string) : M (option stat) :=
  emit (E_lstat p) ;; ret (w_lstat w p).

Definition sys_stat (p : string) : M (option stat) :=
  emit (E_stat p) ;; ret (w_stat w p).

(** [fopen(p, "r")]: the stream starts at the first byte with the
    end-of-file indicator clear. *)
Definition fopen (p : string) : M (option OpenFile) := fun s =>
  match w_fopen w p with
  | None => Ok None (log (E_fopen p) s)
  | Some f => Ok (Some f) (log (E_fopen p) (with_stream (of_bytes f) false s))
  end.

Definition fstat (f : OpenFile) : M (option stat) :=
  emit E_fstat ;; ret (of_fstat f).

Definition feof : M bool := fun s => Ok (s_eof s) s.

(** [fgets(buf, n, config)]: [None] is the NULL return, which leaves the
    buffer as it was. *)
Definition fgets (n : nat) : M (option string) := fun s =>
  let '(chunk, rest, e) := fgets_chars (n - 1) (s_cfg s) in
  let s' := log (E_fgets chunk) (with_stream rest (s_eof s || e) s) in
  match chunk with
  | EmptyString => Ok None s'
  | _ => Ok (Some chunk) s'
  end.

Definition fclose : M Z := emit (E_fclose (w_fclose w)) ;; ret (w_fclose w).

Definition getpwuid (uid : Z) : M (option string) :=
  emit (E_getpwuid uid) ;; ret (w_getpwuid w uid).

Definition chdir (p : string) : M Z :=
  emit (E_chdir p (w_chdir w p)) ;; ret (w_chdir w p).

Definition chroot (p : string) : M Z :=
  emit (E_chroot p (w_chroot w p)) ;; ret (w_chroot w p).

(** [execve(prog, argv, envp)] hands the kernel the strings that [envp]
    points to at the call; it returns only when it fails. *)
Definition execve (prog : string) (argv : list string) (envp : EnvPtr)
  : M Z := fun s =>
  let block := strings_at envp s in
  (emit (E_execve prog argv block) ;;
   if w_execve w prog then (fun s' => Halt (Replaced prog argv block) s')
   else ret (-1)) s.

(** [clearenv()]: [environ] becomes NULL, so that the process has no
    variable left; the array is not written to. *)
Definition clearenv : M Z := fun s =>
  Ok 0 (log E_clearenv (with_environ_null s)).

(** [unsetenv(name)]: EINVAL for an empty name or one holding [=];
    otherwise every entry [name=...] is removed from the array that
    [environ] points to, the entries after it moving down.  An entry
    that is [name] alone, with no [=], stays. *)
Definition unsetenv (name : string) : M Z := fun s =>
  if (String.length name =? 0)%nat || strchr name "="%char then
    Ok (-1) (log (E_unsetenv name (-1)) s)
  else
    Ok 0 (log (E_unsetenv name 0)
            (with_environ
               (filter (fun e => negb (is_variable name e)) (s_environ s))
               s)).

Definition environ : M (list string) := fun s => Ok (s_environ s) s.

(* ===================================================================== *)
(** ** userchroot.c *)
(* ===================================================================== *)

(** The test of the loop body of [whitelist_char_check]. *)
Definition whitelisted (allow_slashes : bool) (c : ascii) : bool :=
  let n := N_of_ascii c in
  ((65 <=? n) && (n <=? 90))%N ||      (* A-Z *)
  ((97 <=? n) && (n <=? 122))%N ||     (* a-z *)
  ((48 <=? n) && (n <=? 57))%N ||      (* 0-9 *)
  ((n =? 46) || (n =? 95) || (n =? 43) || (n =? 44) || (n =? 45))%N ||
  (allow_slashes && Ascii.eqb c SLASH).

Fixpoint all_whitelisted (allow_slashes : bool) (str : string) : bool :=
  match str with
  | EmptyString => true
  | String c rest =>
      if whitelisted allow_slashes c then all_whitelisted allow_slashes rest
      else false
  end.

(** [whitelist_char_check], lines 60-83. *)
Definition whitelist_char_check (str : string) (allow_slashes : bool) : M unit :=
  if all_whitelisted allow_slashes str then ret tt
  else fatal (D_whitelist str).

(** The [while (!interrupt)] loop of [check_base_path], lines 98-130.
    [tosplit] is the working copy; [slash[0] = 0] cuts it at the last
    slash unless that slash is its first byte. *)
Fixpoint check_base_path_loop (fuel : nat) (tosplit : string) : M unit :=
  match fuel with
  | O => out_of_fuel
  | S fuel' =>
      match strrchr tosplit SLASH with
      | None => fatal D_walk_not_absolute
      | Some i =>
          let interrupt := (i =? 0)%nat in
          let tosplit := if interrupt then tosplit else truncate i tosplit in
          r <- lstat tosplit ;;
          match r with
          | None => fatal (D_walk_stat tosplit)
          | Some pstat =>
              when (negb (S_ISDIR (st_mode pstat))) (fatal (D_not_dir tosplit)) ;;
              when (negb (st_uid pstat =? 0)) (fatal (D_dir_owner tosplit)) ;;
              when (loose (st_mode pstat)) (fatal (D_dir_perms tosplit)) ;;
              if interrupt then ret tt
              else check_base_path_loop fuel' tosplit
          end
      end
  end.

(** [check_base_path], lines 85-132.  Every pass but the last shortens
    the copy, so its length bounds the number of passes. *)
Definition check_base_path (path : string) : M unit :=
  check_base_path_loop (S (String.length path)) path.

(** [check_config_file], lines 134-169. *)
Definition check_config_file (config : OpenFile) : M unit :=
  check_base_path (CFG b) ;;
  r <- lstat (CFG b) ;;
  match r with
  | None => fatal D_cfg_stat
  | Some configfilestat =>
      when (negb (S_ISREG (st_mode configfilestat))) (eprint D_cfg_not_regular) ;;
      when (negb (st_uid configfilestat =? 0)) (fatal D_cfg_owner) ;;
      when (loose (st_mode configfilestat)) (fatal D_cfg_perms) ;;
      let device := st_dev configfilestat in
      let inode := st_ino configfilestat in
      r <- fstat config ;;
      match r with
      | None => fatal D_cfg_fstat
      | Some configfilestat =>
          when (negb (st_dev configfilestat =? device) ||
                negb (st_ino configfilestat =? inode))
               (eprint D_cfg_moved)
      end
  end.

(** The [#else] loop of [portable_clearenv], lines 187-207. *)
Fixpoint unsetenv_loop (fuel : nat) : M unit :=
  match fuel with
  | O => out_of_fuel
  | S fuel' =>
      env <- environ ;;
      match env with
      | [] => ret tt
      | first :: _ =>
          let len := strcspn_eq first in
          if (len =? 0)%nat then fatal D_corrupted_env
          else
            let namebuf := truncate len first in
            rc <- unsetenv namebuf ;;
            if rc =? -1 then fatal D_unsetenv
            else unsetenv_loop fuel'
      end
  end.

(** [portable_clearenv], lines 173-209.  A pass of the loop whose first
    entry is a name followed by [=] removes that entry; a pass whose
    first entry is a name with no [=] removes nothing and leaves the
    process as it was, so that the loop repeats it for ever: the bound,
    one more than the number of entries, is reached in that case and in
    no other. *)
Definition portable_clearenv : M unit :=
  if HAVE_CLEARENV b then
    rc <- clearenv ;;
    when (negb (rc =? 0)) (fatal D_clearenv)
  else
    fun s => unsetenv_loop (S (List.length (s_environ s))) s.

(** [a || b] on calls: [b] is not made when [a] holds. *)
Definition orM (a c : M bool) : M bool :=
  x <- a ;; if x then ret true else c.

(** [call == 0]. *)
Definition succeeds (call : M Z) : M bool :=
  rc <- call ;; ret (rc =? 0).

(** [main], lines 215-230: the identity the helper must start with.
    Returns [target_user]. *)
Definition check_privileges : M Z :=
  e <- geteuid ;;
  when (negb (e =? 0)) (fatal D_not_setuid_root) ;;
  g <- getgid ;;
  eg <- getegid ;;
  when ((g =? 0) || (eg =? 0)) (fatal D_setgid_root) ;;
  target_user <- getuid ;;
  when (target_user =? 0) (fatal D_run_as_root) ;;
  ret target_user.

(** [main], lines 235-239. *)
Definition open_config : M OpenFile :=
  config <- fopen (CFG b) ;;
  match config with
  | None => fatal D_cfg_open
  | Some f => ret f
  end.

(** [main], lines 243-248; [argc] is the length of [argv]. *)
Definition positional_path (argv : list string) : M string :=
  if (List.length argv <? 3)%nat then USAGE
  else ret (nth 1 argv EmptyString).

(** [main], lines 250-267.  Returns [final_dir_owner]. *)
Definition stat_target (path : string) : M Z :=
  whitelist_char_check path true ;;
  r <- lstat path ;;
  match r with
  | None => fatal_usage (D_stat path)
  | Some dirstat =>
      when (negb (S_ISDIR (st_mode dirstat))) (fatal_usage (D_not_dir path)) ;;
      when (loose (st_mode dirstat)) (fatal (D_dir_perms path)) ;;
      ret (st_uid dirstat)
  end.

(** [main], lines 270-303: [path] is cut in place at its last slash.
    Returns [(base_path, relative_path)]. *)
Definition split_target (path : string) : M (string * string) :=
  if negb (Ascii.eqb (byte_at 0 path) SLASH) then
    fatal_usage (D_not_absolute path)
  else
    match strrchr path SLASH with
    | None => fatal_usage (D_last_component path)
    | Some i =>
        let base_path := truncate i path in
        let relative_path := advance (S i) path in
        when (Ascii.eqb (byte_at 0 base_path) NUL) (fatal_usage D_no_target) ;;
        when (Ascii.eqb (byte_at 0 relative_path) NUL)
             (fatal_usage D_trailing_slash) ;;
        when (Ascii.eqb (byte_at 0 relative_path) "."%char &&
              (Ascii.eqb (byte_at 1 relative_path) NUL ||
               (Ascii.eqb (byte_at 1 relative_path) "."%char &&
                Ascii.eqb (byte_at 2 relative_path) NUL)))
             (fatal D_dot_dotdot) ;;
        ret (base_path, relative_path)
    end.

(** [main], lines 304-326.  After the cut, [path] and [base_path] are the
    same string, so line 315 prints the base.  Returns [statbase_path]. *)
Definition stat_base (base_path relative_path : string) (final_dir_owner : Z)
  : M stat :=
  whitelist_char_check base_path true ;;
  whitelist_char_check relative_path false ;;
  r <- lstat base_path ;;
  match r with
  | None => fatal_usage (D_stat base_path)
  | Some statbase_path =>
      when (negb (S_ISDIR (st_mode statbase_path)))
           (fatal_usage (D_not_dir base_path)) ;;
      when (loose (st_mode statbase_path)) (fatal (D_dir_perms base_path)) ;;
      when (negb (st_uid statbase_path =? final_dir_owner))
           (fatal (D_same_owner base_path relative_path)) ;;
      ret statbase_path
  end.

(** [main], lines 327-332.  Returns [pwent->pw_name]. *)
Definition owner_name (statbase_path : stat) : M string :=
  pwent <- getpwuid (st_uid statbase_path) ;;
  match pwent with
  | None => fatal D_getpwuid
  | Some pw_name => ret pw_name
  end.

(** The inner [while (strchr(rline, '\n') == NULL)], lines 369-376.
    Returns [(rline, ignore)]. *)
Fixpoint skip_long_line_loop (fuel linelen : nat) (rline : string)
  (ignore : bool) : M (string * bool) :=
  match fuel with
  | O => out_of_fuel
  | S fuel' =>
      if strchr rline NL then ret (rline, ignore)
      else
        e <- feof ;;
        if e then ret (rline, true)
        else
          r <- fgets linelen ;;
          match r with
          | None => ret (rline, true)
          | Some rline' => skip_long_line_loop fuel' linelen rline' true
          end
  end.

(** Each pass that does not leave the loop reads at least one byte. *)
Definition skip_long_line (linelen : nat) (rline : string)
  : M (string * bool) :=
  fun s => skip_long_line_loop (S (String.length (s_cfg s))) linelen rline
             false s.

(** The outer [while], lines 366-381.  Returns [found]. *)
Fixpoint scan_config_loop (fuel : nat) (line : string) (linelen : nat)
  : M bool :=
  match fuel with
  | O => out_of_fuel
  | S fuel' =>
      e <- feof ;;
      if e then ret false
      else
        r <- fgets linelen ;;
        match r with
        | None => ret false
        | Some rline =>
            x <- skip_long_line linelen rline ;;
            let '(rline, ignore) := x in
            if negb ignore && strncmp_eq line rline linelen then ret true
            else scan_config_loop fuel' line linelen
        end
  end.

Definition scan_config (line : string) (linelen : nat) : M bool :=
  fun s => scan_config_loop (S (String.length (s_cfg s))) line linelen s.

(** The line that [snprintf(line, linelen, "%s:%s\n", ...)] assembles:
    [%s] copies its argument up to the terminating NUL. *)
Definition config_line (pw_name base_path : string) : string :=
  cstr pw_name ++ ":" ++ cstr base_path ++ String NL EmptyString.

(** [main], lines 340-389: the authorization scan.  [rc] of [snprintf] is
    the length of the assembled line, which fits the buffer. *)
Definition authorize (pw_name base_path : string) : M unit :=
  let linelen := (strlen base_path + strlen pw_name + 3)%nat in
  let line := config_line pw_name base_path in
  let rc := Z.of_nat (String.length line) in
  when (rc <=? 0) (fatal D_assemble_line) ;;
  found <- scan_config line linelen ;;
  rc <- fclose ;;
  when (negb (rc =? 0)) (fatal D_close) ;;
  when (negb found) (fatal D_permission_denied).

(** [main], lines 449-458: the regain tests and the re-read ids. *)
Definition verify_dropped : M unit :=
  regained <- orM (succeeds (setuid 0))
             (orM (succeeds (seteuid 0))
             (orM (succeeds (setgid 0))
                  (succeeds (setegid 0)))) ;;
  when regained (fatal D_give_up) ;;
  u <- getuid ;;
  eu <- geteuid ;;
  g <- getgid ;;
  eg <- getegid ;;
  when ((u =? 0) || (eu =? 0) || (g =? 0) || (eg =? 0)) (fatal D_give_up).

(* ===================================================================== *)
(** ** fundamental_devices.c *)
(* ===================================================================== *)

Definition sys_umask (m : Z) : M Z := emit (E_umask m) ;; ret (w_umask w).

Definition mknod (p : string) (mode rdev : Z) : M Z :=
  emit (E_mknod p mode rdev (w_mknod w p)) ;; ret (w_mknod w p).

Definition mkdir (p : string) (mode : Z) : M Z :=
  emit (E_mkdir p mode (w_mkdir w p)) ;; ret (w_mkdir w p).

Definition mount (src tgt fstype : string) : M Z :=
  emit (E_mount src tgt fstype (w_mount w tgt)) ;; ret (w_mount w tgt).

Definition umount (p : string) : M Z :=
  emit (E_umount p (w_umount w p)) ;; ret (w_umount w p).

Definition umount2 (p : string) : M Z :=
  emit (E_umount2 p (w_umount w p)) ;; ret (w_umount w p).

Definition rmdir (p : string) : M Z :=
  emit (E_rmdir p (w_rmdir w p)) ;; ret (w_rmdir w p).

Definition unlink (p : string) : M Z :=
  emit (E_unlink p (w_unlink w p)) ;; ret (w_unlink w p).

Definition chown (p : string) : M Z :=
  emit (E_chown p (w_chown w p)) ;; ret (w_chown w p).

Definition chmod (p : string) (mode : Z) : M Z :=
  emit (E_chmod p mode (w_chmod w p)) ;; ret (w_chmod w p).

(** [create_fundamental_device], lines 22-71. *)
Definition create_fundamental_device (chroot_path device_path : string)
  : M unit :=
  let final_path := chroot_path ++ device_path in
  chrtdev <- sys_stat final_path ;;
  match chrtdev with
  | Some _ => fatal (D_dev_exists final_path)
  | None =>
      realdev <- sys_stat device_path ;;
      match realdev with
      | None => fatal (D_dev_stat device_path)
      | Some realdev =>
          if USE_MOUNT_LOFS_INSTEAD_OF_MKNOD b then
            rc <- mkdir final_path 493 ;;
            when (negb (rc =? 0)) (eprint (D_dev_mkdir final_path)) ;;
            rc <- mount device_path final_path "lofs" ;;
            when (negb (rc =? 0)) (fatal (D_dev_lofs final_path))
          else
            rc <- mknod final_path (st_mode realdev) (st_rdev realdev) ;;
            when (negb (rc =? 0)) (fatal (D_dev_mknod final_path))
      end
  end.

(** [unlink_fundamental_device], lines 73-107. *)
Definition unlink_fundamental_device (chroot_path device_path : string)
  : M unit :=
  let final_path := chroot_path ++ device_path in
  if USE_MOUNT_LOFS_INSTEAD_OF_MKNOD b then
    rc <- umount final_path ;;
    when (negb (rc =? 0)) (fatal (D_dev_umount final_path)) ;;
    rc <- rmdir final_path ;;
    when (negb (rc =? 0)) (fatal (D_dev_rmdir final_path)) ;;
    _ <- rmdir final_path ;;
    ret tt
  else
    rc <- unlink final_path ;;
    when (negb (rc =? 0)) (fatal (D_dev_unlink final_path)).

(** [create_fundamental_devices], lines 109-168. *)
Definition create_fundamental_devices (chroot_path : string) : M Z :=
  original_mask <- sys_umask 56 ;;
  create_fundamental_device chroot_path "/dev/null" ;;
  create_fundamental_device chroot_path "/dev/zero" ;;
  create_fundamental_device chroot_path "/dev/random" ;;
  create_fundamental_device chroot_path "/dev/urandom" ;;
  (if LINUX b then
     let fullpath := chroot_path ++ "/dev/shm" in
     let perms := Z.lor 511 S_ISVTX in
     _ <- umount2 fullpath ;;
     _ <- rmdir fullpath ;;
     _ <- mkdir fullpath perms ;;
     rc <- chown fullpath ;;
     when (rc <? 0) (fatal (D_dev_chown fullpath)) ;;
     rc <- chmod fullpath perms ;;
     when (rc <? 0) (fatal (D_dev_chmod fullpath)) ;;
     statbuf <- sys_stat fullpath ;;
     match statbuf with
     | None => fatal (D_dev_stat fullpath)
     | Some statbuf =>
         when (negb (S_ISDIR (st_mode statbuf))) (fatal (D_dev_not_dir fullpath)) ;;
         when (negb (Z.land (st_mode statbuf) perms =? perms))
              (fatal (D_dev_perms fullpath)) ;;
         rc <- mount "tmpfs" fullpath "tmpfs" ;;
         when (rc <? 0) (fatal (D_dev_mount fullpath))
     end
   else ret tt) ;;
  _ <- sys_umask original_mask ;;
  ret 0.

(** [unlink_fundamental_devices], lines 170-195. *)
Definition unlink_fundamental_devices (chroot_path : string) : M Z :=
  unlink_fundamental_device chroot_path "/dev/null" ;;
  unlink_fundamental_device chroot_path "/dev/zero" ;;
  unlink_fundamental_device chroot_path "/dev/random" ;;
  unlink_fundamental_device chroot_path "/dev/urandom" ;;
  (if LINUX b then
     let fullpath := chroot_path ++ "/dev/shm" in
     rc <- umount2 fullpath ;;
     when (rc <? 0) (fatal (D_dev_umount fullpath)) ;;
     rc <- rmdir fullpath ;;
     when (rc <? 0) (fatal (D_dev_rmdir fullpath))
   else ret tt) ;;
  ret 0.

(* ===================================================================== *)
(** ** main *)
(* ===================================================================== *)

(** [main], lines 409-424: [argv[2]] begins with [-]. *)
Definition device_mode (target_user : Z) (statbase_path : stat)
  (final_path arg2 : string) : M Z :=
  when (negb (target_user =? st_uid statbase_path)) (fatal D_owner_only) ;;
  if strncmp_eq "--install-devices" arg2 17 then
    rc <- create_fundamental_devices final_path ;;
    exit rc
  else if strncmp_eq "--uninstall-devices" arg2 19 then
    rc <- unlink_fundamental_devices final_path ;;
    exit rc
  else USAGE.

(** [main], lines 427-474; [argv++; argv++;] is [skipn 2]. *)
Definition exec_mode (target_user : Z) (final_path : string)
  (argv : list string) (envp : EnvPtr) : M Z :=
  rc <- chdir final_path ;;
  when (negb (rc =? 0)) (fatal D_chdir_chroot) ;;
  rc <- chroot final_path ;;
  when (negb (rc =? 0)) (fatal D_chroot) ;;
  rc <- setuid target_user ;;
  when (negb (rc =? 0)) (fatal D_give_up) ;;
  verify_dropped ;;
  rc <- chdir "/" ;;
  when (negb (rc =? 0)) (fatal D_chdir_root) ;;
  let argv := skipn 2 argv in
  let prog := nth 0 argv EmptyString in
  whitelist_char_check prog true ;;
  _ <- execve prog argv envp ;;
  fatal (D_exec prog).

(** [main], lines 211-477. *)
Definition main (argv : list string) (envp : EnvPtr) : M Z :=
  portable_clearenv ;;
  target_user <- check_privileges ;;
  config <- open_config ;;
  check_config_file config ;;
  path <- positional_path argv ;;
  final_dir_owner <- stat_target path ;;
  x <- split_target path ;;
  let '(base_path, relative_path) := x in
  statbase_path <- stat_base base_path relative_path final_dir_owner ;;
  pw_name <- owner_name statbase_path ;;
  check_base_path base_path ;;
  authorize pw_name base_path ;;
  let final_path := cstr base_path ++ "/" ++ cstr relative_path in
  let rc := Z.of_nat (String.length final_path) in
  when (rc <=? 0) (fatal D_assemble_path) ;;
  let arg2 := nth 2 argv EmptyString in
  if (3 <=? List.length argv)%nat && Ascii.eqb (byte_at 0 arg2) "-"%char
  then device_mode target_user statbase_path final_path arg2
  else exec_mode target_user final_path argv envp.

(** The process as the kernel starts it: [environ] points to the array
    that holds the caller's environment, nothing is open, nothing has
    been called. *)
Definition initial : State :=
  {| s_cred := w_cred w; s_environ := w_envp w; s_entry := None;
     s_cfg := EmptyString; s_eof := false; s_log := [] |}.

(** A run: the kernel calls [main] with the caller's argument vector and
    with [envp] pointing to that same array. *)
Definition run : Res Z := main (w_argv w) ENTRY initial.

End Program.

(* ===================================================================== *)
(** ** Vocabulary of the properties *)
(* ===================================================================== *)

(** The specification's words: the configuration is a sequence of lines,
    each ended by a newline; [lines_from cur s] lists them (with their
    newline) when [cur] has already been read of the current line.  Bytes
    after the last newline are not a line. *)
Fixpoint lines_from (cur s : string) : list string :=
  match s with
  | EmptyString => []
  | String c r =>
      if Ascii.eqb c NL then (cur ++ String c "") :: lines_from "" r
      else lines_from (cur ++ String c "") r
  end.

Definition config_lines (s : string) : list string := lines_from "" s.

(** The specification's words: the scan ends at the first line that is
    the target; what follows that line is left unread. *)
Fixpoint after_first_from (target cur s : string) : option string :=
  match s with
  | EmptyString => None
  | String c r =>
      if Ascii.eqb c NL then
        if String.eqb (cur ++ String c "") target then Some r
        else after_first_from target "" r
      else after_first_from target (cur ++ String c "") r
  end.

Definition after_first_match (target s : string) : option string :=
  after_first_from target "" s.

Definition is_some {A} (o : option A) : bool :=
  match o with Some _ => true | None => false end.

(** The string ends with a newline. *)
Definition ends_NL (c : string) : Prop := exists l, c = l ++ String NL "".

(** The end-of-file indicator is set only when nothing is left. *)
Definition stream_ok (s : State) : Prop :=
  s_eof s = true -> s_cfg s = "".

(** Calls that neither change an identity, nor touch a device node, nor
    start a program. *)
Definition benign (e : Event) : bool :=
  match e with
  | E_stderr _ | E_clearenv | E_unsetenv _ _ | E_fopen _ | E_lstat _
  | E_fstat | E_fgets _ | E_fclose _ | E_getpwuid _ => true
  | _ => false
  end.

(** [s'] comes after [s] by benign calls: same credentials, same
    environment, a longer log. *)
Definition extends (s s' : State) : Prop :=
  s_cred s' = s_cred s /\
  s_environ s' = s_environ s /\
  exists t, s_log s' = (s_log s ++ t)%list /\ forallb benign t = true.

(** A block that leaves credentials, environment and stream as they are,
    makes only benign calls, and can stop only by
    [exit(ERR_EXIT_CODE)]. *)
Definition frame (b : Build) {A} (m : M A) : Prop :=
  forall s,
    extends s (state_of (m s)) /\
    s_cfg (state_of (m s)) = s_cfg s /\
    s_eof (state_of (m s)) = s_eof s /\
    (forall o, outcome_of (m s) = Some o -> o = Exit (ERR_EXIT_CODE b)).

(** The loop of [portable_clearenv] does not end on this environment:
    the build has no [clearenv] and some entry holds no [=]. *)
Definition never_cleared (b : Build) (env : list string) : Prop :=
  HAVE_CLEARENV b = false /\ Exists (fun e => strchr e "=" = false) env.

(** The environment can be emptied: the build has [clearenv], or every
    entry holds an [=]. *)
Definition clearable (b : Build) (env : list string) : Prop :=
  HAVE_CLEARENV b = true \/ Forall (fun e => strchr e "=" = true) env.

(** What [portable_clearenv] leaves: the same process but for its
    environment, which is empty when the function returns; it exits on
    an entry with an empty name, and does not end when it comes to an
    entry that holds no [=]. *)
Definition cleared (b : Build) (s s1 : State) (r : Res unit) : Prop :=
  s_cred s1 = s_cred s /\ s_cfg s1 = s_cfg s /\ s_eof s1 = s_eof s /\
  (exists t, s_log s1 = (s_log s ++ t)%list /\ forallb benign t = true) /\
  ((r = Ok tt s1 /\ s_environ s1 = []) \/
   r = Halt (Exit (ERR_EXIT_CODE b)) s1 \/
   (r = Halt OutOfFuel s1 /\ never_cleared b (s_environ s))).

(** The strings that [envp] points to once [portable_clearenv] has
    returned: [clearenv] has not written to the array, the loop of
    [unsetenv] has removed every entry from it. *)
Definition block_after_clearing (b : Build) (w : World) : list string :=
  if HAVE_CLEARENV b then w_envp w else [].

(** The state of the environment after [portable_clearenv]: the process
    has no variable, and [envp] points to [block_after_clearing]. *)
Definition environment_cleared (b : Build) (w : World) (s : State) : Prop :=
  s_environ s = [] /\ entry_strings s = block_after_clearing b w.

(** How a run stops before the mode dispatch: by [exit] with the error
    code, or never, in the loop of [portable_clearenv]. *)
Definition stopped (b : Build) (w : World) (o : Outcome) : Prop :=
  o = Exit (ERR_EXIT_CODE b) \/
  (o = OutOfFuel /\ never_cleared b (w_envp w)).

(** Calls of the device provisioner that create, remove, mount or
    re-mode something. *)
Definition is_device (e : Event) : bool :=
  match e with
  | E_umask _ | E_mknod _ _ _ _ | E_mkdir _ _ _ | E_mount _ _ _ _
  | E_umount _ _ | E_umount2 _ _ | E_rmdir _ _ | E_unlink _ _
  | E_chown _ _ | E_chmod _ _ _ => true
  | _ => false
  end.

Definition is_execve (e : Event) : bool :=
  match e with E_execve _ _ _ => true | _ => false end.

(** No device call and no [execve] in the log. *)
Definition no_device (t : list Event) : Prop :=
  forallb (fun e => negb (is_device e)) t = true.

Definition no_execve (t : list Event) : Prop :=
  forallb (fun e => negb (is_execve e)) t = true.

(** The process still has the credentials it was started with and has
    made only benign calls. *)
Definition quiet (w : World) (s : State) : Prop :=
  s_cred s = w_cred w /\ forallb benign (s_log s) = true.

(** The string that lines 392-402 assemble. *)
Definition final_path_of (path : string) (i : nat) : string :=
  cstr (truncate i path) ++ "/" ++ cstr (advance (S i) path).

(** The run got as far as the mode dispatch of line 405: every check of
    lines 211-402 passed. *)
Definition reached_dispatch (b : Build) (w : World) (r : Res Z) : Prop :=
  exists s0 i sb name f,
    let path := nth 1 (w_argv w) "" in
    let arg2 := nth 2 (w_argv w) "" in
    quiet w s0 /\ environment_cleared b w s0 /\
    euid (w_cred w) = 0 /\ ruid (w_cred w) <> 0 /\
    rgid (w_cred w) <> 0 /\ egid (w_cred w) <> 0 /\
    (3 <= List.length (w_argv w))%nat /\
    strrchr path SLASH = Some i /\
    all_whitelisted true (truncate i path) = true /\
    w_lstat w (truncate i path) = Some sb /\
    w_getpwuid w (st_uid sb) = Some name /\
    w_fopen w (CFG b) = Some f /\
    In (config_line name (truncate i path)) (config_lines (of_bytes f)) /\
    r = if Ascii.eqb (byte_at 0 arg2) "-"
        then device_mode b w (ruid (w_cred w)) sb (final_path_of path i) arg2 s0
        else exec_mode b w (ruid (w_cred w)) (final_path_of path i)
               (w_argv w) ENTRY s0.

(** How [exec_mode] can end, with the calls it made; [envp] stands for
    the strings that its last argument points to. *)
Definition exec_ending (b : Build) (w : World) (tu : Z) (fp : string)
  (args envp : list string) (s0 : State) (r : Res Z) : Prop :=
  let argv := skipn 2 args in
  let prog := nth 0 argv "" in
  let priv := w_privileged w in
  s_environ (state_of r) = s_environ s0 /\
  exists t,
    s_log (state_of r) = (s_log s0 ++ t)%list /\ no_device t /\
    ((outcome_of r = Some (Exit (ERR_EXIT_CODE b)) /\ no_execve t) \/
     (exists c1 tail,
        Kernel.setuid priv tu (s_cred s0) = (0, c1) /\
        Kernel.setuid priv 0 c1 = (-1, c1) /\
        Kernel.seteuid priv 0 c1 = (-1, c1) /\
        Kernel.setgid priv 0 c1 = (-1, c1) /\
        Kernel.setegid priv 0 c1 = (-1, c1) /\
        s_cred (state_of r) = c1 /\
        ruid c1 <> 0 /\ euid c1 <> 0 /\ rgid c1 <> 0 /\ egid c1 <> 0 /\
        all_whitelisted true prog = true /\
        t = ([E_chdir fp 0; E_chroot fp 0; E_setuid tu 0;
              E_setuid 0 (-1); E_seteuid 0 (-1);
              E_setgid 0 (-1); E_setegid 0 (-1);
              E_chdir "/" 0; E_execve prog argv envp] ++ tail)%list /\
        ((outcome_of r = Some (Replaced prog argv envp) /\ tail = []) \/
         (outcome_of r = Some (Exit (ERR_EXIT_CODE b)) /\
          tail = [E_stderr (D_exec prog)])))).

(** An absolute path whose first component is not empty: [/] followed by
    a byte that is not [/]. *)
Definition below_root (p : string) : Prop :=
  exists c rest, p = String SLASH (String c rest) /\ c <> SLASH.

(** A block that can stop only by [exit]. *)
Definition exits_only {A} (m : M A) : Prop :=
  forall s o, outcome_of (m s) = Some o -> exists rc, o = Exit rc.

(** *** Calls, checks and authorized runs *)

(** The bytes that lines 66-73 let through, written out. *)
Definition SAFE_BYTES : string :=
  "ABCDEFGHIJKLMNOPQRSTUVWXYZabcdefghijklmnopqrstuvwxyz0123456789._+,-".

(** The byte occurs in the string. *)
Fixpoint occurs (c : ascii) (s : string) : bool :=
  match s with
  | EmptyString => false
  | String a r => Ascii.eqb a c || occurs c r
  end.

(** A byte that a path may hold. *)
Definition allowed (allow_slashes : bool) (c : ascii) : Prop :=
  occurs c SAFE_BYTES = true \/ (allow_slashes = true /\ c = SLASH).

(** A directory that only root can change, as link-level stat reports
    it. *)
Definition trusted_dir (w : World) (p : string) : Prop :=
  exists st,
    w_lstat w p = Some st /\ S_ISDIR (st_mode st) = true /\
    st_uid st = 0 /\ loose (st_mode st) = false.

(** What the ancestor walk asks of an absolute path: every prefix that
    ends just before a slash other than the first byte is a trusted
    directory; a path with no such slash is asked to be one itself. *)
Definition trusted_chain (w : World) (path : string) : Prop :=
  (forall i, (0 < i)%nat -> byte_at i path = SLASH ->
             trusted_dir w (truncate i path)) /\
  ((forall i, (0 < i)%nat -> byte_at i path <> SLASH) -> trusted_dir w path).

(** Every call the block adds to the log satisfies [P]. *)
Definition emits (P : Event -> Prop) {A} (m : M A) : Prop :=
  forall s, exists t,
    s_log (state_of (m s)) = (s_log s ++ t)%list /\ Forall P t.

(** The block leaves credentials and environment as they are. *)
Definition steady {A} (m : M A) : Prop :=
  forall s, s_cred (state_of (m s)) = s_cred s /\
            s_environ (state_of (m s)) = s_environ s.

(** The block neither moves [environ] away from the array of [main] nor
    back to it. *)
Definition keeps_entry {A} (m : M A) : Prop :=
  forall s, s_entry (state_of (m s)) = s_entry s.

(** The block can stop only by [exit(ERR_EXIT_CODE)]. *)
Definition errs (b : Build) {A} (m : M A) : Prop :=
  forall s o, outcome_of (m s) = Some o -> o = Exit (ERR_EXIT_CODE b).

(** The device paths of [fundamental_devices.c], lines 115-118 and
    171-174, and the shared-memory directory of lines 124 and 179. *)
Definition DEVICES : list string :=
  ["/dev/null"; "/dev/zero"; "/dev/random"; "/dev/urandom"].

Definition SHM : string := "/dev/shm".

(** The path that a call creates, removes, mounts on or re-modes. *)
Definition target_of (e : Event) : option string :=
  match e with
  | E_mknod p _ _ _ | E_mkdir p _ _ | E_mount _ p _ _ | E_umount p _
  | E_umount2 p _ | E_rmdir p _ | E_unlink p _ | E_chown p _
  | E_chmod p _ _ => Some p
  | _ => None
  end.

(** A call of the provisioner: a diagnostic, a [stat], a [umask], or a
    change at one of the five paths below the chroot. *)
Definition provisioner_call (chroot_path : string) (e : Event) : Prop :=
  match e with
  | E_stderr _ | E_stat _ | E_umask _ => True
  | _ => exists d, In d (DEVICES ++ [SHM])%list /\
                   target_of e = Some (chroot_path ++ d)
  end.

(** What [create_fundamental_devices] knows when it makes a call. *)
Definition install_call (w : World) (chroot_path : string) (e : Event)
  : Prop :=
  provisioner_call chroot_path e /\
  match e with
  | E_umask m => m = 56 \/ m = w_umask w
  | E_mknod p mode rdev _ =>
      w_stat w p = None /\
      exists d st, In d DEVICES /\ p = chroot_path ++ d /\
                   w_stat w d = Some st /\
                   mode = st_mode st /\ rdev = st_rdev st
  | E_mkdir p mode _ =>
      (mode = 493 /\ w_stat w p = None) \/
      (mode = 1023 /\ p = chroot_path ++ SHM)
  | E_mount src tgt fstype _ =>
      (fstype = "lofs" /\ In src DEVICES /\ tgt = chroot_path ++ src /\
       w_stat w tgt = None /\ w_stat w src <> None) \/
      (fstype = "tmpfs" /\ src = "tmpfs" /\ tgt = chroot_path ++ SHM /\
       0 <= w_chown w tgt /\ 0 <= w_chmod w tgt /\
       exists st, w_stat w tgt = Some st /\ S_ISDIR (st_mode st) = true /\
                  Z.land (st_mode st) 1023 = 1023)
  | E_chmod _ mode _ => mode = 1023
  | _ => True
  end.

(** The entry has a name: its first byte is neither [=] nor the end. *)
Definition namedb (entry : string) : bool := negb (strcspn_eq entry =? 0)%nat.

(** The entry is a variable: a name that is not empty, then [=]. *)
Definition variableb (entry : string) : bool :=
  namedb entry && strchr entry "="%char.

(** The entry at which the loop of [portable_clearenv] stops removing:
    the first one that is no variable. *)
Fixpoint first_other (env : list string) : option string :=
  match env with
  | [] => None
  | e :: rest => if variableb e then first_other rest else Some e
  end.

(** The calls that empty the environment. *)
Definition env_call (e : Event) : Prop :=
  e = E_clearenv \/ exists name, e = E_unsetenv name 0.

(** What the run has established about the configuration file. *)
Definition config_vetted (b : Build) (w : World) : Prop :=
  exists f cs,
    w_fopen w (CFG b) = Some f /\ of_fstat f <> None /\
    byte_at 0 (CFG b) = SLASH /\ trusted_chain w (CFG b) /\
    w_lstat w (CFG b) = Some cs /\
    st_uid cs = 0 /\ loose (st_mode cs) = false.

(** What the run has established about the target [argv[1]], its base
    and its leaf. *)
Definition target_vetted (w : World) : Prop :=
  let path := nth 1 (w_argv w) "" in
  exists i st sb,
    (3 <= List.length (w_argv w))%nat /\
    all_whitelisted true path = true /\
    w_lstat w path = Some st /\
    S_ISDIR (st_mode st) = true /\ loose (st_mode st) = false /\
    byte_at 0 path = SLASH /\
    strrchr path SLASH = Some i /\ (0 < i)%nat /\
    all_whitelisted false (advance (S i) path) = true /\
    w_lstat w (truncate i path) = Some sb /\
    S_ISDIR (st_mode sb) = true /\ loose (st_mode sb) = false /\
    st_uid sb = st_uid st /\
    w_getpwuid w (st_uid sb) <> None /\
    trusted_chain w (truncate i path).

(** What [check_config_file] asks for: the walk over the ancestors of
    the configuration path returns, the path is owned by root and closed
    to group and others, and [fstat] of the opened stream succeeds. *)
Definition config_accepted (b : Build) (w : World) (config : OpenFile)
  (s : State) : Prop :=
  (exists s0, check_base_path b w (CFG b) s = Ok tt s0) /\
  (exists cs, w_lstat w (CFG b) = Some cs /\ st_uid cs = 0 /\
              loose (st_mode cs) = false) /\
  of_fstat config <> None.

(** A call that the privilege transition of lines 427-474 can make when
    it is entered with the chroot path [final_path] and the argument
    vector [args]. *)
Definition transition_call (final_path : string) (args : list string)
  (e : Event) : Prop :=
  match e with
  | E_stderr _ | E_setuid _ _ | E_seteuid _ _ | E_setgid _ _
  | E_setegid _ _ => True
  | E_chdir p _ => p = final_path \/ p = "/"
  | E_chroot p _ => p = final_path
  | E_execve prog argv _ =>
      prog = nth 2 args "" /\ argv = skipn 2 args /\
      all_whitelisted true prog = true
  | _ => False
  end.

(** The diagnostic that lines 216-230 print for these credentials. *)
Definition identity_refused (c : Cred) (d : Diag) : Prop :=
  (euid c <> 0 /\ d = D_not_setuid_root) \/
  (euid c = 0 /\ (rgid c = 0 \/ egid c = 0) /\ d = D_setgid_root) \/
  (euid c = 0 /\ rgid c <> 0 /\ egid c <> 0 /\ ruid c = 0 /\
   d = D_run_as_root).

(** The credentials that lines 216-230 let through. *)
Definition identity_accepted (c : Cred) : Prop :=
  euid c = 0 /\ rgid c <> 0 /\ egid c <> 0 /\ ruid c <> 0.

(** The credentials after [setuid(u)] by a privileged process. *)
Definition dropped (u : Z) (c : Cred) : Cred :=
  {| ruid := u; euid := u; suid := u;
     rgid := rgid c; egid := egid c; sgid := sgid c |}.

(** What the host must answer for [create_fundamental_devices] to go
    through: nothing exists yet at the four paths below the chroot, the
    host has the four devices, each creation succeeds, and on Linux the
    shared-memory directory ends up as a sticky world-writable directory
    on which [tmpfs] mounts. *)
Definition installable (b : Build) (w : World) (chroot_path : string) : Prop :=
  (forall d, In d DEVICES ->
     w_stat w (chroot_path ++ d) = None /\ w_stat w d <> None /\
     if USE_MOUNT_LOFS_INSTEAD_OF_MKNOD b
     then w_mount w (chroot_path ++ d) = 0
     else w_mknod w (chroot_path ++ d) = 0) /\
  (LINUX b = true ->
   0 <= w_chown w (chroot_path ++ SHM) /\
   0 <= w_chmod w (chroot_path ++ SHM) /\
   (exists st, w_stat w (chroot_path ++ SHM) = Some st /\
               S_ISDIR (st_mode st) = true /\
               Z.land (st_mode st) 1023 = 1023) /\
   0 <= w_mount w (chroot_path ++ SHM)).

(** What the host must answer for [unlink_fundamental_devices] to go
    through. *)
Definition removable (b : Build) (w : World) (chroot_path : string) : Prop :=
  (forall d, In d DEVICES ->
     if USE_MOUNT_LOFS_INSTEAD_OF_MKNOD b
     then w_umount w (chroot_path ++ d) = 0 /\ w_rmdir w (chroot_path ++ d) = 0
     else w_unlink w (chroot_path ++ d) = 0) /\
  (LINUX b = true ->
   0 <= w_umount w (chroot_path ++ SHM) /\
   0 <= w_rmdir w (chroot_path ++ SHM)).

(** What lets a run through to the mode dispatch: the environment can be
    emptied (the build has [clearenv], or every entry is a variable:
    a name, then [=]), the identity is the expected one, the
    configuration file
    and the target pass their checks, the leaf is a name, and the
    configuration, which is text, holds the line of the owner of the
    base. *)
Definition authorized (b : Build) (w : World) : Prop :=
  let path := nth 1 (w_argv w) "" in
  (HAVE_CLEARENV b = true \/ forallb variableb (w_envp w) = true) /\
  identity_accepted (w_cred w) /\
  config_vetted b w /\ target_vetted w /\
  w_fclose w = 0 /\
  exists f i sb name,
    w_fopen w (CFG b) = Some f /\ lacks NUL (of_bytes f) /\
    strrchr path SLASH = Some i /\
    advance (S i) path <> "" /\ advance (S i) path <> "." /\
    advance (S i) path <> ".." /\
    w_lstat w (truncate i path) = Some sb /\
    w_getpwuid w (st_uid sb) = Some name /\
    In (config_line name (truncate i path)) (config_lines (of_bytes f)).

(* ===================================================================== *)
(** ** Hosts used in the examples *)
(* ===================================================================== *)

Module Hosts.

Definition build : Build :=
  {| CFG := "/etc/userchroot.conf"; ERR_EXIT_CODE := 1;
     ERR_EXIT_CODE_nonzero := Z.neq_succ_diag_l 0;
     HAVE_CLEARENV := true; USE_MOUNT_LOFS_INSTEAD_OF_MKNOD := false;
     LINUX := true |}.

Definition dir (uid perms : Z) : stat :=
  {| st_mode := Z.lor S_IFDIR perms; st_uid := uid; st_dev := 8;
     st_ino := 2; st_rdev := 0 |}.

Definition conf_stat : stat :=
  {| st_mode := Z.lor S_IFREG 420; st_uid := 0; st_dev := 8;
     st_ino := 77; st_rdev := 0 |}.

(** Scenario 1 of the specification: [alice] (uid 1001) owns
    [/srv/jails] and [/srv/jails/work] with mode 0750; [/], [/etc] and
    [/srv] belong to root with mode 0755; the configuration holds
    [alice:/srv/jails]. *)
Definition alice_lstat (p : string) : option stat :=
  if String.eqb p "/" then Some (dir 0 493)
  else if String.eqb p "/etc" then Some (dir 0 493)
  else if String.eqb p "/srv" then Some (dir 0 493)
  else if String.eqb p "/etc/userchroot.conf" then Some conf_stat
  else if String.eqb p "/srv/jails" then Some (dir 1001 488)
  else if String.eqb p "/srv/jails/work" then Some (dir 1001 488)
  else None.

Definition conf_bytes : string :=
  "bob:/srv/jails" ++ String NL "alice:/srv/jails" ++ String NL "".

Definition alice : Cred :=
  {| ruid := 1001; euid := 0; suid := 0; rgid := 100; egid := 100; sgid := 100 |}.


Definition conf : OpenFile :=
  {| of_fstat := Some conf_stat; of_bytes := conf_bytes |}.

(** Host device nodes exist; nothing exists yet under the chroot but the
    shared-memory directory that the provisioner makes. *)
Definition dev_stat (p : string) : option stat :=
  if String.eqb p "/dev/null" || String.eqb p "/dev/zero" ||
     String.eqb p "/dev/random" || String.eqb p "/dev/urandom"
  then Some {| st_mode := 8630; st_uid := 0; st_dev := 5; st_ino := 9;
               st_rdev := 259 |}
  else if String.eqb p "/srv/jails/work/dev/shm" then Some (dir 0 1023)
  else None.

(** A host on which every call that can fail succeeds. *)
Definition host (argv : list string) (cred : Cred)
  (lstat : string -> option stat) (config : OpenFile) : World :=
  {| w_argv := argv;
     w_envp := ["HOME=/home/alice"; "PATH=/usr/bin"];
     w_cred := cred;
     w_privileged := Kernel.classic;
     w_lstat := lstat;
     w_stat := dev_stat;
     w_fopen := fun p =>
       if String.eqb p "/etc/userchroot.conf" then Some config else None;
     w_fclose := 0;
     w_getpwuid := fun u => if u =? 1001 then Some "alice" else None;
     w_chdir := fun _ => 0;
     w_chroot := fun _ => 0;
     w_execve := fun _ => true;
     w_mknod := fun _ => 0; w_mkdir := fun _ => 0; w_mount := fun _ => 0;
     w_umount := fun _ => 0; w_rmdir := fun _ => 0; w_unlink := fun _ => 0;
     w_chown := fun _ => 0; w_chmod := fun _ => 0; w_umask := 18 |}.

Definition sh : list string := ["userchroot"; "/srv/jails/work"; "/bin/sh"].

Definition happy : World := host sh alice alice_lstat conf.

(** Scenario 5: the configuration is replaced between [fopen] and the
    path-based stat, so the descriptor is another inode than the one the
    path now names. *)
Definition swapped : World :=
  host sh alice alice_lstat
    {| of_fstat := Some {| st_mode := Z.lor S_IFREG 420; st_uid := 1001;
                           st_dev := 8; st_ino := 4242; st_rdev := 0 |};
       of_bytes := conf_bytes |}.

(** The configuration path names a FIFO (mode 010644) owned by root. *)
Definition fifo_stat : stat :=
  {| st_mode := Z.lor 4096 420; st_uid := 0; st_dev := 8; st_ino := 77;
     st_rdev := 0 |}.

Definition fifo : World :=
  host sh alice
    (fun p => if String.eqb p "/etc/userchroot.conf" then Some fifo_stat
              else alice_lstat p)
    {| of_fstat := Some fifo_stat; of_bytes := conf_bytes |}.

(** The root directory belongs to uid 1001 and is world-writable. *)
Definition loose_root : World :=
  host sh alice
    (fun p => if String.eqb p "/" then Some (dir 1001 511) else alice_lstat p)
    conf.

(** The owner passes a flag that merely begins like a recognized one. *)
Definition long_flag : World :=
  host ["userchroot"; "/srv/jails/work"; "--install-devices-later"]
    alice alice_lstat conf.


(** A kernel that keeps the process privileged after [setuid]: the
    regain attempt [setuid(0)] succeeds. *)
Definition keeps_privilege : World :=
  {| w_argv := sh;
     w_envp := w_envp happy;
     w_cred := alice;
     w_privileged := fun _ => true;
     w_lstat := alice_lstat;
     w_stat := dev_stat;
     w_fopen := w_fopen happy;
     w_fclose := 0;
     w_getpwuid := w_getpwuid happy;
     w_chdir := fun _ => 0;
     w_chroot := fun _ => 0;
     w_execve := fun _ => true;
     w_mknod := fun _ => 0; w_mkdir := fun _ => 0; w_mount := fun _ => 0;
     w_umount := fun _ => 0; w_rmdir := fun _ => 0; w_unlink := fun _ => 0;
     w_chown := fun _ => 0; w_chmod := fun _ => 0; w_umask := 18 |}.

(** The helper was started with saved gid 0: [setgid(0)] succeeds after
    the drop. *)
Definition saved_gid_root : World :=
  host sh
    {| ruid := 1001; euid := 0; suid := 0; rgid := 100; egid := 100; sgid := 0 |}
    alice_lstat conf.

(** A configuration in which a line holding a NUL byte precedes the
    line of [alice]. *)
Definition nul_bytes : string :=
  String "x" (String NUL (String NL ("alice:/srv/jails" ++ String NL ""))).

Definition nul_conf : World :=
  host sh alice alice_lstat
    {| of_fstat := Some conf_stat; of_bytes := nul_bytes |}.

(** [alice] asks for the devices of her own chroot, and for their
    removal. *)
Definition alice_installs : World :=
  host ["userchroot"; "/srv/jails/work"; "--install-devices"]
    alice alice_lstat conf.

Definition alice_removes : World :=
  host ["userchroot"; "/srv/jails/work"; "--uninstall-devices"]
    alice alice_lstat conf.

(** The helper was installed without the setuid bit. *)
Definition not_setuid : World :=
  host sh
    {| ruid := 1001; euid := 1001; suid := 1001;
       rgid := 100; egid := 100; sgid := 100 |}
    alice_lstat conf.

(** No command is given. *)
Definition two_args : World :=
  host ["userchroot"; "/srv/jails/work"] alice alice_lstat conf.

(** A build for a C library without [clearenv]. *)
Definition build_unsetenv : Build :=
  {| CFG := "/etc/userchroot.conf"; ERR_EXIT_CODE := 1;
     ERR_EXIT_CODE_nonzero := Z.neq_succ_diag_l 0;
     HAVE_CLEARENV := false; USE_MOUNT_LOFS_INSTEAD_OF_MKNOD := false;
     LINUX := true |}.

(** The configuration file cannot be opened. *)
Definition no_config : World :=
  {| w_argv := sh;
     w_envp := w_envp happy;
     w_cred := alice;
     w_privileged := Kernel.classic;
     w_lstat := alice_lstat;
     w_stat := dev_stat;
     w_fopen := fun _ => None;
     w_fclose := 0;
     w_getpwuid := w_getpwuid happy;
     w_chdir := fun _ => 0;
     w_chroot := fun _ => 0;
     w_execve := fun _ => true;
     w_mknod := fun _ => 0; w_mkdir := fun _ => 0; w_mount := fun _ => 0;
     w_umount := fun _ => 0; w_rmdir := fun _ => 0; w_unlink := fun _ => 0;
     w_chown := fun _ => 0; w_chmod := fun _ => 0; w_umask := 18 |}.

(** The configuration stream cannot be closed. *)
Definition failing_close : World :=
  {| w_argv := sh;
     w_envp := w_envp happy;
     w_cred := alice;
     w_privileged := Kernel.classic;
     w_lstat := alice_lstat;
     w_stat := dev_stat;
     w_fopen := w_fopen happy;
     w_fclose := -1;
     w_getpwuid := w_getpwuid happy;
     w_chdir := fun _ => 0;
     w_chroot := fun _ => 0;
     w_execve := fun _ => true;
     w_mknod := fun _ => 0; w_mkdir := fun _ => 0; w_mount := fun _ => 0;
     w_umount := fun _ => 0; w_rmdir := fun _ => 0; w_unlink := fun _ => 0;
     w_chown := fun _ => 0; w_chmod := fun _ => 0; w_umask := 18 |}.

(** Scenario 1 with an environment whose first entry is a bare word,
    with no [=]. *)
Definition stray_entry : World :=
  {| w_argv := sh;
     w_envp := ["TERM"; "HOME=/home/alice"];
     w_cred := alice;
     w_privileged := Kernel.classic;
     w_lstat := alice_lstat;
     w_stat := dev_stat;
     w_fopen := w_fopen happy;
     w_fclose := 0;
     w_getpwuid := w_getpwuid happy;
     w_chdir := fun _ => 0;
     w_chroot := fun _ => 0;
     w_execve := fun _ => true;
     w_mknod := fun _ => 0; w_mkdir := fun _ => 0; w_mount := fun _ => 0;
     w_umount := fun _ => 0; w_rmdir := fun _ => 0; w_unlink := fun _ => 0;
     w_chown := fun _ => 0; w_chmod := fun _ => 0; w_umask := 18 |}.

End Hosts.

(* ===================================================================== *)
(** ** Facts about C strings *)
(* ===================================================================== *)

Lemma append_empty_r (s : string) : s ++ "" = s.
Proof. induction s as [|a s IH]; simpl; [reflexivity | now rewrite IH]. Qed.

Lemma append_assoc (s t u : string) : (s ++ t) ++ u = s ++ (t ++ u).
Proof. induction s as [|a s IH]; simpl; [reflexivity | now rewrite IH]. Qed.

Lemma length_append (s t : string) :
  String.length (s ++ t) = (String.length s + String.length t)%nat.
Proof. induction s as [|a s IH]; simpl; [reflexivity | now rewrite IH]. Qed.

Lemma lacks_append (c : ascii) (s t : string) :
  lacks c (s ++ t) <-> lacks c s /\ lacks c t.
Proof. induction s as [|a s IH]; simpl; tauto. Qed.

Lemma lacks_advance (c : ascii) (i : nat) (s : string) :
  lacks c s -> lacks c (advance i s).
Proof.
  revert s; induction i as [|i IH]; intros [|a s]; simpl; auto.
  intros [_ H]; auto.
Qed.

Lemma lacks_truncate (c : ascii) (i : nat) (s : string) :
  lacks c s -> lacks c (truncate i s).
Proof.
  revert s; induction i as [|i IH]; intros [|a s]; simpl; auto.
  intros [H1 H2]; auto.
Qed.

Lemma truncate_advance (i : nat) (s : string) :
  truncate i s ++ advance i s = s.
Proof.
  revert s; induction i as [|i IH]; intros [|a s]; simpl; auto.
  now rewrite IH.
Qed.

Lemma strrchr_none (s : string) (c : ascii) :
  strrchr s c = None -> lacks c s.
Proof.
  induction s as [|a s IH]; simpl; [trivial|].
  destruct (strrchr s c); [discriminate|].
  destruct (Ascii.eqb_spec a c); [discriminate|]. auto.
Qed.

(** [strrchr] finds a slash, and no slash follows it. *)
Lemma strrchr_some (s : string) (c : ascii) (i : nat) :
  strrchr s c = Some i ->
  s = truncate i s ++ String c (advance (S i) s) /\
  lacks c (advance (S i) s).
Proof.
  revert i; induction s as [|a s IH]; simpl; [discriminate|].
  intros i. destruct (strrchr s c) as [j|] eqn:E.
  - intros [= <-]. destruct (IH j eq_refl) as [H1 H2].
    split; [simpl; f_equal; exact H1 | exact H2].
  - destruct (Ascii.eqb_spec a c) as [->|]; [|discriminate].
    intros [= <-]. simpl. split; [reflexivity|].
    now apply strrchr_none.
Qed.

Lemma strrchr_first (s : string) (c : ascii) :
  byte_at 0 s = c -> c <> NUL -> strrchr s c <> None.
Proof.
  destruct s as [|a s]; simpl; [congruence|].
  intros <- _. destruct (strrchr s a); [discriminate|].
  now rewrite Ascii.eqb_refl.
Qed.

(** On a string without NUL, [s[0] == 0] tells the empty string. *)
Lemma byte_at_0_nul (s : string) :
  lacks NUL s -> (Ascii.eqb (byte_at 0 s) NUL = true <-> s = "").
Proof.
  destruct s as [|a s]; simpl.
  - intros _. now split.
  - intros [H _]. destruct (Ascii.eqb_spec a NUL); [contradiction|].
    split; discriminate.
Qed.

(** The test of lines 297-300 tells [.] and [..]. *)
Lemma dot_test (s : string) :
  lacks NUL s ->
  (Ascii.eqb (byte_at 0 s) "."%char &&
   (Ascii.eqb (byte_at 1 s) NUL ||
    (Ascii.eqb (byte_at 1 s) "."%char && Ascii.eqb (byte_at 2 s) NUL)) = true
   <-> s = "." \/ s = "..").
Proof.
  intros H.
  destruct s as [|a [|a' [|a'' s]]]; simpl in H |- *;
    repeat match goal with
      | |- context [Ascii.eqb ?x ?y] => destruct (Ascii.eqb_spec x y); subst
      end; simpl; split; intros G; try discriminate; auto;
    try (destruct G as [G|G]; try discriminate; injection G; intros; subst;
         congruence);
    try (exfalso; intuition congruence).
Qed.

(* ===================================================================== *)
(** ** The split of the target (lines 270-303) *)
(* ===================================================================== *)

(** C8.  A target that begins with [/] is cut at its last slash into
    [base] and [leaf] (so the leaf holds no slash); the block exits with
    the nonzero error code exactly when [base] is empty, [leaf] is empty,
    or [leaf] is [.] or [..]; otherwise it hands both halves, unchanged
    state, to the checks that follow. *)
Theorem split_target_rejects_exactly (b : Build) (path : string) (s : State) :
  lacks NUL path ->
  byte_at 0 path = SLASH ->
  exists base leaf,
    path = base ++ "/" ++ leaf /\
    lacks SLASH leaf /\
    ((base = "" \/ leaf = "" \/ leaf = "." \/ leaf = "..") <->
     outcome_of (split_target b path s) = Some (Exit (ERR_EXIT_CODE b))) /\
    (~ (base = "" \/ leaf = "" \/ leaf = "." \/ leaf = "..") ->
     split_target b path s = Ok (base, leaf) s) /\
    ERR_EXIT_CODE b <> 0.
Proof.
  intros Hnul Hslash.
  unfold split_target. rewrite Hslash, Ascii.eqb_refl. simpl negb. cbv iota.
  destruct (strrchr path SLASH) as [i|] eqn:E.
  2:{ exfalso. revert E. apply strrchr_first; [exact Hslash | discriminate]. }
  destruct (@strrchr_some _ _ _ E) as [Hsplit Hleaf].
  exists (truncate i path), (advance (S i) path).
  pose proof (@byte_at_0_nul _ (@lacks_truncate NUL i path Hnul)) as Hb.
  pose proof (@byte_at_0_nul _ (@lacks_advance NUL (S i) path Hnul)) as Hl.
  pose proof (@dot_test _ (@lacks_advance NUL (S i) path Hnul)) as Hd.
  set (base := truncate i path) in *.
  set (leaf := advance (S i) path) in *.
  split; [exact Hsplit|]. split; [exact Hleaf|].
  clearbody base leaf. clear Hsplit Hleaf E.
  unfold bind, when, fatal_usage, USAGE, fatal, eprint, emit, exit, ret, bind.
  set (c1 := Ascii.eqb (byte_at 0 base) NUL) in *.
  set (c2 := Ascii.eqb (byte_at 0 leaf) NUL) in *.
  match type of Hd with (?c = true <-> _) => set (c3 := c) in * end.
  clearbody c1 c2 c3.
  split; [|split; [|apply ERR_EXIT_CODE_nonzero]].
  - destruct c1, c2, c3; simpl; intuition (try discriminate; try congruence).
  - destruct c1, c2, c3; simpl; intuition (try discriminate; try congruence).
Qed.

(** The hypotheses of C8 hold of [/srv/jails/work], which is cut into
    [/srv/jails] and [work] and accepted. *)
Lemma split_target_rejects_exactly_witness :
  lacks NUL "/srv/jails/work" /\
  byte_at 0 "/srv/jails/work" = SLASH /\
  exists base leaf,
    "/srv/jails/work" = base ++ "/" ++ leaf /\
    lacks SLASH leaf /\
    ((base = "" \/ leaf = "" \/ leaf = "." \/ leaf = "..") <->
     outcome_of (split_target Hosts.build "/srv/jails/work"
                   (initial Hosts.happy))
     = Some (Exit (ERR_EXIT_CODE Hosts.build))) /\
    (~ (base = "" \/ leaf = "" \/ leaf = "." \/ leaf = "..") ->
     split_target Hosts.build "/srv/jails/work" (initial Hosts.happy)
     = Ok (base, leaf) (initial Hosts.happy)) /\
    ERR_EXIT_CODE Hosts.build <> 0.
Proof.
  assert (Hnul : lacks NUL "/srv/jails/work")
    by (simpl; repeat split; discriminate).
  split; [exact Hnul|]. split; [reflexivity|].
  exact (@split_target_rejects_exactly Hosts.build "/srv/jails/work"
           (initial Hosts.happy) Hnul eq_refl).
Defined.

(* ===================================================================== *)
(** ** The configuration scan (lines 340-389) *)
(* ===================================================================== *)


Lemma lacks_strchr (c : ascii) (s : string) :
  lacks c s -> strchr s c = false.
Proof.
  induction s as [|a s IH]; simpl; [reflexivity|].
  intros [H1 H2]. destruct (Ascii.eqb a NUL); [reflexivity|].
  destruct (Ascii.eqb_spec a c); [contradiction | auto].
Qed.

Lemma strchr_line (l : string) :
  lacks NUL l -> strchr (l ++ String NL "") NL = true.
Proof.
  induction l as [|a l IH]; simpl; [reflexivity|].
  intros [H1 H2]. destruct (Ascii.eqb_spec a NUL); [contradiction|].
  destruct (Ascii.eqb a NL); auto.
Qed.

(** [strchr] finds the closing newline only if no NUL precedes it. *)
Lemma strchr_line_inv (l : string) :
  lacks NL l -> strchr (l ++ String NL "") NL = true -> lacks NUL l.
Proof.
  induction l as [|a l IH]; simpl; [trivial|].
  intros [H1 H2]. destruct (Ascii.eqb_spec a NUL); [discriminate|].
  destruct (Ascii.eqb_spec a NL); [contradiction|]. auto.
Qed.

Lemma lacks_cstr (s : string) : lacks NUL (cstr s).
Proof.
  induction s as [|a s IH]; simpl; [trivial|].
  destruct (Ascii.eqb_spec a NUL); simpl; auto.
Qed.

Lemma cstr_id (s : string) : lacks NUL s -> cstr s = s.
Proof.
  induction s as [|a s IH]; simpl; [reflexivity|].
  intros [H1 H2]. destruct (Ascii.eqb_spec a NUL); [contradiction|].
  now rewrite IH.
Qed.

Lemma strncmp_eq_refl (a : string) (n : nat) : strncmp_eq a a n = true.
Proof.
  revert a; induction n as [|n IH]; intros [|x a]; simpl; try reflexivity.
  rewrite Ascii.eqb_refl. destruct (Ascii.eqb x NUL); auto.
Qed.

(** On strings without NUL, of which the first is shorter than the
    bound, [strncmp(a, b, n) == 0] is equality. *)
Lemma strncmp_eq_sound (a c : string) (n : nat) :
  lacks NUL a -> lacks NUL c -> (String.length a < n)%nat ->
  strncmp_eq a c n = true -> a = c.
Proof.
  revert a c; induction n as [|n IH]; intros a c Ha Hc Hn; [lia|].
  destruct a as [|x a], c as [|y c]; simpl in *; try reflexivity.
  - destruct Hc as [Hy _]. destruct (Ascii.eqb_spec y NUL); [contradiction|].
    discriminate.
  - destruct Ha as [Hx _]. destruct (Ascii.eqb_spec x NUL); [contradiction|].
    discriminate.
  - destruct Ha as [Hx Ha], Hc as [Hy Hc].
    destruct (Ascii.eqb_spec x y) as [->|]; [|discriminate].
    destruct (Ascii.eqb_spec y NUL); [contradiction|].
    intros H. f_equal. apply IH; auto. lia.
Qed.

Lemma config_line_lacks_NUL (name base : string) :
  lacks NUL (config_line name base).
Proof.
  unfold config_line. rewrite !lacks_append. simpl.
  repeat split; try apply lacks_cstr; discriminate.
Qed.

Lemma config_line_length (name base : string) :
  String.length (config_line name base) = (strlen base + strlen name + 2)%nat.
Proof.
  unfold config_line, strlen. rewrite !length_append. simpl. lia.
Qed.

(** *** What [fgets] reads *)

Lemma fgets_chars_app (k : nat) (input chunk rest : string) (e : bool) :
  fgets_chars k input = (chunk, rest, e) -> input = chunk ++ rest.
Proof.
  revert input chunk rest e; induction k as [|k IH]; intros input chunk rest e;
    simpl.
  - intros [= <- <- <-]. reflexivity.
  - destruct input as [|c r]; [intros [= <- <- <-]; reflexivity|].
    destruct (Ascii.eqb c NL); [intros [= <- <- <-]; reflexivity|].
    destruct (fgets_chars k r) as [[ch rs] e'] eqn:E.
    intros [= <- <- <-]. simpl. f_equal. eapply IH; eauto.
Qed.

Lemma fgets_chars_eof (k : nat) (input chunk rest : string) :
  fgets_chars k input = (chunk, rest, true) -> rest = "".
Proof.
  revert input chunk rest; induction k as [|k IH]; intros input chunk rest;
    simpl.
  - discriminate.
  - destruct input as [|c r]; [intros [= <- <-]; reflexivity|].
    destruct (Ascii.eqb c NL); [discriminate|].
    destruct (fgets_chars k r) as [[ch rs] e'] eqn:E.
    intros [= <- <- ->]. eapply IH; eauto.
Qed.

Lemma fgets_chars_none (k : nat) (input rest : string) (e : bool) :
  fgets_chars (S k) input = ("", rest, e) -> input = "" /\ rest = "".
Proof.
  simpl. destruct input as [|c r]; [intros [= <- <-]; auto|].
  destruct (Ascii.eqb c NL); [discriminate|].
  destruct (fgets_chars k r) as [[ch rs] e']. discriminate.
Qed.

(** A chunk holds at most one newline, its last byte. *)
Lemma fgets_chars_shape (k : nat) (input chunk rest : string) (e : bool) :
  fgets_chars k input = (chunk, rest, e) ->
  (exists l, chunk = l ++ String NL "" /\ lacks NL l) \/ lacks NL chunk.
Proof.
  revert input chunk rest e; induction k as [|k IH]; intros input chunk rest e;
    simpl.
  - intros [= <- <- <-]. right. exact I.
  - destruct input as [|c r]; [intros [= <- <- <-]; right; exact I|].
    destruct (Ascii.eqb_spec c NL) as [->|N].
    + intros [= <- <- <-]. left. exists "". split; [reflexivity | exact I].
    + destruct (fgets_chars k r) as [[ch rs] e'] eqn:E.
      intros [= <- <- <-].
      destruct (IH _ _ _ _ E) as [(l & -> & Hl)|Hl].
      * left. exists (String c l). split; [reflexivity | split; assumption].
      * right. split; assumption.
Qed.

(** A whole line that fits the buffer is read with its newline. *)
Lemma fgets_chars_line (k : nat) (l r : string) :
  lacks NL l -> (String.length l < k)%nat ->
  fgets_chars k (l ++ String NL r) = (l ++ String NL "", r, false).
Proof.
  revert l; induction k as [|k IH]; intros l Hl Hk; [lia|].
  destruct l as [|a l]; simpl.
  - reflexivity.
  - destruct Hl as [H1 H2]. destruct (Ascii.eqb_spec a NL); [contradiction|].
    rewrite IH; [reflexivity | assumption | simpl in Hk; lia].
Qed.

(** Of a longer line the buffer takes the first [k] bytes. *)
Lemma fgets_chars_long (k : nat) (l r : string) :
  lacks NL l -> (k <= String.length l)%nat ->
  fgets_chars k (l ++ r) = (truncate k l, advance k l ++ r, false).
Proof.
  revert l; induction k as [|k IH]; intros l Hl Hk; [reflexivity|].
  destruct l as [|a l]; simpl in *; [lia|].
  destruct Hl as [H1 H2]. destruct (Ascii.eqb_spec a NL); [contradiction|].
  rewrite IH; [reflexivity | assumption | lia].
Qed.

(** An unterminated tail that fits is read up to end-of-file. *)
Lemma fgets_chars_tail (k : nat) (l : string) :
  lacks NL l -> (String.length l < k)%nat ->
  fgets_chars k l = (l, "", true).
Proof.
  revert l; induction k as [|k IH]; intros l Hl Hk; [lia|].
  destruct l as [|a l]; simpl in *; [reflexivity|].
  destruct Hl as [H1 H2]. destruct (Ascii.eqb_spec a NL); [contradiction|].
  rewrite IH; [reflexivity | assumption | lia].
Qed.

Lemma length_truncate (k : nat) (l : string) :
  (k <= String.length l)%nat -> String.length (truncate k l) = k.
Proof.
  revert l; induction k as [|k IH]; intros [|a l]; simpl; intros H;
    try reflexivity; try lia.
  rewrite IH; lia.
Qed.

Lemma length_advance (k : nat) (l : string) :
  String.length (advance k l) = (String.length l - k)%nat.
Proof.
  revert l; induction k as [|k IH]; intros [|a l]; simpl; auto.
Qed.

(** *** The lines of a configuration *)

(** A string is an unterminated tail or starts with a line. *)
Lemma first_line (s : string) :
  lacks NL s \/ exists l r, s = l ++ String NL r /\ lacks NL l.
Proof.
  induction s as [|a s IH]; [left; exact I|].
  destruct (Ascii.eqb_spec a NL) as [->|N].
  - right. exists "", s. split; [reflexivity | exact I].
  - destruct IH as [H|(l & r & -> & Hl)].
    + left. split; assumption.
    + right. exists (String a l), r. split; [reflexivity | split; assumption].
Qed.

Lemma lines_from_tail (cur l : string) : lacks NL l -> lines_from cur l = [].
Proof.
  revert cur; induction l as [|a l IH]; intros cur; simpl; [reflexivity|].
  intros [H1 H2]. destruct (Ascii.eqb_spec a NL); [contradiction|]. auto.
Qed.

Lemma lines_from_line (cur l r : string) :
  lacks NL l ->
  lines_from cur (l ++ String NL r)
  = (cur ++ l ++ String NL "") :: lines_from "" r.
Proof.
  revert cur; induction l as [|a l IH]; intros cur; simpl.
  - intros _. reflexivity.
  - intros [H1 H2]. destruct (Ascii.eqb_spec a NL); [contradiction|].
    rewrite IH by assumption. now rewrite append_assoc.
Qed.

Lemma after_first_from_tail (target cur l : string) :
  lacks NL l -> after_first_from target cur l = None.
Proof.
  revert cur; induction l as [|a l IH]; intros cur; simpl; [reflexivity|].
  intros [H1 H2]. destruct (Ascii.eqb_spec a NL); [contradiction|]. auto.
Qed.

Lemma after_first_from_line (target cur l r : string) :
  lacks NL l ->
  after_first_from target cur (l ++ String NL r)
  = if String.eqb (cur ++ l ++ String NL "") target then Some r
    else after_first_from target "" r.
Proof.
  revert cur; induction l as [|a l IH]; intros cur; simpl.
  - intros _. reflexivity.
  - intros [H1 H2]. destruct (Ascii.eqb_spec a NL); [contradiction|].
    rewrite IH by assumption. now rewrite append_assoc.
Qed.

(** The two readings of the specification agree: a first matching line
    exists exactly when the target is among the lines. *)
Lemma after_first_match_In (target s : string) :
  is_some (after_first_match target s) = true <-> In target (config_lines s).
Proof.
  unfold after_first_match, config_lines.
  remember (String.length s) as n eqn:Hn.
  revert s Hn; induction n as [n IH] using lt_wf_ind; intros s Hn.
  destruct (first_line s) as [H|(l & r & -> & Hl)].
  - rewrite after_first_from_tail, lines_from_tail by assumption.
    simpl. split; [discriminate | contradiction].
  - rewrite after_first_from_line, lines_from_line by assumption. simpl.
    assert (Hr : (String.length r < n)%nat).
    { subst n. rewrite length_append. simpl. lia. }
    destruct (String.eqb_spec (l ++ String NL "") target) as [E|N].
    + simpl. split; auto.
    + rewrite (IH _ Hr r eq_refl). split; [auto | intros [?|?]; [contradiction | auto]].
Qed.

(** Lines that follow a newline are lines of the whole. *)
Lemma lines_after_boundary (c r cur t : string) :
  ends_NL c -> In t (lines_from "" r) -> In t (lines_from cur (c ++ r)).
Proof.
  intros [l ->]. revert cur. induction l as [|a l IH]; intros cur Ht; simpl.
  - right. exact Ht.
  - destruct (Ascii.eqb a NL); [right|]; apply IH; exact Ht.
Qed.

Lemma ends_NL_app (c d : string) : ends_NL d -> ends_NL (c ++ d).
Proof. intros [l ->]. exists (c ++ l). now rewrite append_assoc. Qed.

(* ===================================================================== *)
(** ** What a block leaves of the process *)
(* ===================================================================== *)


Lemma extends_refl (s : State) : extends s s.
Proof.
  repeat split. exists []. now rewrite app_nil_r.
Qed.

Lemma extends_trans (s1 s2 s3 : State) :
  extends s1 s2 -> extends s2 s3 -> extends s1 s3.
Proof.
  intros (C1 & E1 & t1 & L1 & B1) (C2 & E2 & t2 & L2 & B2).
  repeat split; try congruence.
  exists (t1 ++ t2)%list. rewrite L2, L1, <- app_assoc, forallb_app, B1, B2. auto.
Qed.

Lemma extends_log (e : Event) (s : State) :
  benign e = true -> extends s (log e s).
Proof.
  intros H. repeat split. exists [e]. simpl. now rewrite H.
Qed.

Lemma extends_with_stream (bytes : string) (eof : bool) (s : State) :
  extends s (with_stream bytes eof s).
Proof.
  repeat split. exists []. simpl. now rewrite app_nil_r.
Qed.

Create HintDb prog.
#[local] Hint Resolve extends_refl extends_log extends_with_stream : prog.

Section Scan.

Variable target : string.
Variable linelen : nat.
Hypothesis target_NUL : lacks NUL target.
Hypothesis target_len : linelen = S (String.length target).
Hypothesis target_pos : (1 <= String.length target)%nat.

(** One call of [fgets] on the configuration stream. *)
Lemma fgets_step (s : State) :
  exists chunk rest e s',
    fgets_chars (String.length target) (s_cfg s) = (chunk, rest, e) /\
    fgets linelen s = Ok (match chunk with "" => None | _ => Some chunk end) s' /\
    s_cfg s' = rest /\ s_eof s' = (s_eof s || e) /\ extends s s'.
Proof.
  unfold fgets. rewrite target_len. simpl Nat.sub. rewrite Nat.sub_0_r.
  destruct (fgets_chars (String.length target) (s_cfg s)) as [[chunk rest] e].
  exists chunk, rest, e. eexists. split; [reflexivity|].
  split; [destruct chunk; reflexivity|].
  split; [reflexivity|]. split; [reflexivity|].
  eapply extends_trans; [apply extends_with_stream | apply extends_log].
  reflexivity.
Qed.

(** The inner loop returns; if it made a pass it set [ignore] and
    stopped after a newline or at the end of the stream. *)
Lemma skip_long_line_loop_any (fuel : nat) :
  forall (rline : string) (ign : bool) (s : State),
    stream_ok s -> (String.length (s_cfg s) < fuel)%nat ->
    exists rl ign' s',
      skip_long_line_loop fuel linelen rline ign s = Ok (rl, ign') s' /\
      stream_ok s' /\ extends s s' /\
      ((strchr rline NL = true /\ rl = rline /\ ign' = ign /\
        s_cfg s' = s_cfg s /\ s_eof s' = s_eof s) \/
       (strchr rline NL = false /\ ign' = true /\
        (s_cfg s' = "" \/ exists c, s_cfg s = c ++ s_cfg s' /\ ends_NL c))).
Proof.
  induction fuel as [|fuel IH]; intros rline ign s Hok Hfuel; [lia|].
  simpl. destruct (strchr rline NL) eqn:Hchr.
  { exists rline, ign, s. split; [reflexivity|]. split; [assumption|].
    split; [apply extends_refl|]. left. repeat split. }
  unfold bind at 1, feof. destruct (s_eof s) eqn:Heof.
  { exists rline, true, s. split; [reflexivity|]. split; [assumption|].
    split; [apply extends_refl|]. right. repeat split. left. now apply Hok. }
  destruct (fgets_step s) as (chunk & rest & e & s1 & Hf & Hrun & Hcfg & He & Hext).
  unfold bind. rewrite Hrun.
  assert (Hok1 : stream_ok s1).
  { unfold stream_ok. rewrite He, Heof, Hcfg. simpl. intros ->.
    eapply fgets_chars_eof; eauto. }
  pose proof (fgets_chars_app _ _ Hf) as Happ.
  destruct chunk as [|c0 chunk].
  { exists rline, true, s1. split; [reflexivity|]. split; [assumption|].
    split; [assumption|]. right. repeat split. left.
    destruct (String.length target) eqn:El; [lia|].
    apply fgets_chars_none in Hf. rewrite Hcfg. tauto. }
  assert (Hlen : (String.length (s_cfg s1) < fuel)%nat).
  { rewrite Hcfg. rewrite Happ in Hfuel. rewrite length_append in Hfuel.
    simpl in Hfuel. lia. }
  destruct (IH (String c0 chunk) true s1 Hok1 Hlen)
    as (rl & ign' & s' & Hrun' & Hok' & Hext' & Hcase).
  exists rl, true, s'. split.
  { rewrite Hrun'. destruct Hcase as [(_ & _ & -> & _)|(_ & -> & _)];
      reflexivity. }
  split; [assumption|]. split; [eapply extends_trans; eauto|].
  right. repeat split.
  destruct Hcase as [(Hc & _ & _ & Hcfg' & _)|(_ & _ & [Hc|(c & Hc & Hend)])].
  - right. exists (String c0 chunk). rewrite Hcfg', Hcfg. split; [exact Happ|].
    destruct (fgets_chars_shape _ _ Hf) as [(l & -> & _)|Hl].
    + now exists l.
    + rewrite (lacks_strchr _ _ Hl) in Hc. discriminate.
  - now left.
  - right. exists (String c0 chunk ++ c). split.
    + rewrite Happ, <- Hcfg, Hc, append_assoc. reflexivity.
    + now apply ends_NL_app.
Qed.

(** On text, the inner loop entered inside a line reads up to the end of
    that line and no further. *)
Lemma skip_long_line_loop_text (fuel : nat) :
  forall (m r rline : string) (ign : bool) (s : State),
    lacks NL m -> lacks NUL m ->
    s_cfg s = m ++ String NL r -> s_eof s = false ->
    (String.length m + 1 < fuel)%nat ->
    strchr rline NL = false ->
    exists rl s',
      skip_long_line_loop fuel linelen rline ign s = Ok (rl, true) s' /\
      s_cfg s' = r /\ s_eof s' = false.
Proof.
  induction fuel as [|fuel IH]; intros m r rline ign s Hnl Hnul Hcfg Heof Hfuel Hchr;
    [lia|].
  simpl. rewrite Hchr. unfold bind at 1, feof. rewrite Heof.
  destruct (fgets_step s) as (chunk & rest & e & s1 & Hf & Hrun & Hcfg1 & He & _).
  unfold bind. rewrite Hrun. rewrite Hcfg in Hf. rewrite Heof in He.
  destruct (Nat.lt_ge_cases (String.length m) (String.length target)) as [Hfit|Hbig].
  - rewrite fgets_chars_line in Hf by assumption.
    injection Hf as <- <- <-.
    replace (match m ++ String NL "" with "" => None | _ => Some (m ++ String NL "") end)
      with (Some (m ++ String NL "")) by (destruct m; reflexivity).
    destruct fuel as [|fuel]; [lia|]. simpl.
    rewrite (strchr_line _ Hnul).
    exists (m ++ String NL ""), s1. auto.
  - change (m ++ String NL r) with (m ++ (String NL r)) in Hf.
    rewrite fgets_chars_long in Hf by assumption.
    injection Hf as <- <- <-.
    assert (Hne : truncate (String.length target) m <> "").
    { destruct (String.length target); [lia|]. destruct m; [simpl in Hbig; lia|].
      discriminate. }
    destruct (truncate (String.length target) m) as [|c0 chunk] eqn:Et;
      [contradiction|].
    apply (IH (advance (String.length target) m) r (String c0 chunk) true s1).
    + now apply lacks_advance.
    + now apply lacks_advance.
    + exact Hcfg1.
    + exact He.
    + rewrite length_advance. lia.
    + apply lacks_strchr. rewrite <- Et. now apply lacks_truncate.
Qed.

(** The outer loop returns for every byte sequence, and when it reports
    a match the target is a line of what it was given, read last. *)
Lemma scan_config_loop_any (fuel : nat) :
  forall s : State,
    stream_ok s -> (String.length (s_cfg s) < fuel)%nat ->
    exists found s',
      scan_config_loop fuel target linelen s = Ok found s' /\
      stream_ok s' /\ extends s s' /\
      (found = true ->
       In target (config_lines (s_cfg s)) /\
       exists pre, s_cfg s = pre ++ target ++ s_cfg s').
Proof.
  induction fuel as [|fuel IH]; intros s Hok Hfuel; [lia|].
  simpl. unfold bind at 1, feof. destruct (s_eof s) eqn:Heof.
  { exists false, s. split; [reflexivity|]. split; [assumption|].
    split; [apply extends_refl | discriminate]. }
  destruct (fgets_step s) as (chunk & rest & e & s1 & Hf & Hrun & Hcfg & He & Hext).
  unfold bind at 1. rewrite Hrun.
  assert (Hok1 : stream_ok s1).
  { unfold stream_ok. rewrite He, Heof, Hcfg. simpl. intros ->.
    eapply fgets_chars_eof; eauto. }
  pose proof (fgets_chars_app _ _ Hf) as Happ.
  destruct chunk as [|c0 chunk].
  { exists false, s1. split; [reflexivity|]. split; [assumption|].
    split; [assumption | discriminate]. }
  unfold bind at 1, skip_long_line.
  destruct (@skip_long_line_loop_any (S (String.length (s_cfg s1)))
              (String c0 chunk) false s1 Hok1 (Nat.lt_succ_diag_r _))
    as (rl & ign' & s2 & Hrun2 & Hok2 & Hext2 & Hcase).
  rewrite Hrun2.
  assert (Hbound : s_cfg s2 = "" \/
                   exists c, s_cfg s = c ++ s_cfg s2 /\ ends_NL c /\ c <> "").
  { destruct Hcase as [(Hc & _ & _ & Hcfg' & _)|(_ & _ & [Hc|(c & Hc & Hend)])].
    - right. exists (String c0 chunk). rewrite Hcfg', Hcfg. split; [exact Happ|].
      split; [|discriminate].
      destruct (fgets_chars_shape _ _ Hf) as [(l & -> & _)|Hl].
      + now exists l.
      + rewrite (lacks_strchr _ _ Hl) in Hc. discriminate.
    - now left.
    - right. exists (String c0 chunk ++ c). split; [|split; [|discriminate]].
      + rewrite Happ, <- Hcfg, Hc, append_assoc. reflexivity.
      + now apply ends_NL_app. }
  destruct (negb ign' && strncmp_eq target rl linelen) eqn:Hmatch.
  - apply andb_prop in Hmatch. destruct Hmatch as [Hign Hcmp].
    destruct ign'; [discriminate|].
    destruct Hcase as [(Hc & -> & _ & Hcfg' & _)|(_ & [=] & _)].
    destruct (fgets_chars_shape _ _ Hf) as [(l & El & Hl)|Hl];
      [|rewrite (lacks_strchr _ _ Hl) in Hc; discriminate].
    rewrite El in Hc, Hcmp, Happ.
    assert (Hlnul : lacks NUL (l ++ String NL "")).
    { apply lacks_append. split; [now apply strchr_line_inv|].
      simpl. split; [discriminate | exact I]. }
    assert (Ht : target = l ++ String NL "").
    { apply (@strncmp_eq_sound _ _ linelen); auto. lia. }
    exists true, s2. split; [reflexivity|]. split; [assumption|].
    split; [eapply extends_trans; eauto|]. intros _. split.
    + unfold config_lines. rewrite Happ, append_assoc. simpl.
      rewrite lines_from_line by assumption. left. now rewrite Ht.
    + exists "". simpl. rewrite Hcfg', Hcfg, Ht. exact Happ.
  - assert (Hlen : (String.length (s_cfg s2) < fuel)%nat).
    { destruct Hbound as [->|(c & Hc & _ & Hne)]; simpl.
      - rewrite Happ, length_append in Hfuel. simpl in Hfuel. lia.
      - rewrite Hc, length_append in Hfuel. destruct c; [contradiction|].
        simpl in Hfuel. lia. }
    destruct (IH s2 Hok2 Hlen) as (found & s' & Hrun' & Hok' & Hext' & Hfound).
    exists found, s'. split; [exact Hrun'|]. split; [assumption|].
    split; [eapply extends_trans; [|eassumption]; eapply extends_trans; eauto|].
    intros Hf'. destruct (Hfound Hf') as [Hin (pre & Hpre)].
    destruct Hbound as [Hemp|(c & Hc & Hend & _)].
    + rewrite Hemp in Hin. contradiction.
    + split.
      * rewrite Hc. now apply lines_after_boundary.
      * exists (c ++ pre). now rewrite Hc, Hpre, append_assoc.
Qed.

(** On text, the outer loop computes the first matching line: it reports
    whether there is one and leaves unread what follows it. *)
Lemma scan_config_loop_text (fuel : nat) :
  forall s : State,
    lacks NUL (s_cfg s) -> s_eof s = false ->
    (String.length (s_cfg s) < fuel)%nat ->
    exists s',
      scan_config_loop fuel target linelen s
      = Ok (is_some (after_first_match target (s_cfg s))) s' /\
      (forall r, after_first_match target (s_cfg s) = Some r -> s_cfg s' = r).
Proof.
  induction fuel as [|fuel IH]; intros s Hnul Heof Hfuel; [lia|].
  assert (Hok : stream_ok s) by (unfold stream_ok; congruence).
  destruct (first_line (s_cfg s)) as [Htail|(l & r & Hcfg & Hl)].
  { destruct (scan_config_loop_any Hok Hfuel) as (found & s' & Hrun & _ & _ & Hf).
    unfold after_first_match. rewrite after_first_from_tail by assumption.
    exists s'. split; [|discriminate]. rewrite Hrun. f_equal.
    destruct found; [|reflexivity].
    destruct (Hf eq_refl) as [Hin _]. unfold config_lines in Hin.
    rewrite lines_from_tail in Hin by assumption. contradiction. }
  unfold after_first_match. rewrite Hcfg, after_first_from_line by assumption.
  simpl append.
  rewrite Hcfg in Hnul, Hfuel. apply lacks_append in Hnul.
  destruct Hnul as [Hlnul [_ Hrnul]]. rewrite length_append in Hfuel.
  simpl in Hfuel.
  simpl scan_config_loop. unfold bind at 1, feof. rewrite Heof.
  destruct (fgets_step s) as (chunk & rest & e & s1 & Hf & Hrun & Hcfg1 & He & _).
  unfold bind at 1. rewrite Hrun. rewrite Hcfg in Hf. rewrite Heof in He.
  destruct (Nat.lt_ge_cases (String.length l) (String.length target)) as [Hfit|Hbig].
  - rewrite fgets_chars_line in Hf by assumption.
    injection Hf as <- <- <-.
    replace (match l ++ String NL "" with "" => None | _ => Some (l ++ String NL "") end)
      with (Some (l ++ String NL "")) by (destruct l; reflexivity).
    unfold bind at 1, skip_long_line. simpl skip_long_line_loop.
    rewrite (strchr_line _ Hlnul). unfold ret at 1. simpl negb. simpl andb.
    destruct (String.eqb_spec (l ++ String NL "") target) as [Heq|Hneq].
    + rewrite Heq, strncmp_eq_refl. exists s1. split; [reflexivity|].
      intros r' [= <-]. exact Hcfg1.
    + destruct (strncmp_eq target (l ++ String NL "") linelen) eqn:Hcmp.
      { exfalso. apply Hneq. symmetry.
        apply (@strncmp_eq_sound _ _ linelen); auto; [|lia].
        apply lacks_append. split; [assumption|].
        simpl. split; [discriminate | exact I]. }
      destruct (IH s1) as (s' & Hr & Hrest);
        [rewrite Hcfg1; assumption | exact He | rewrite Hcfg1; lia|].
      unfold after_first_match in Hr, Hrest. rewrite Hcfg1 in Hr, Hrest.
      exists s'. split; [exact Hr | exact Hrest].
  - change (l ++ String NL r) with (l ++ (String NL r)) in Hf.
    rewrite fgets_chars_long in Hf by assumption.
    injection Hf as <- <- <-.
    assert (Hne : truncate (String.length target) l <> "").
    { destruct (String.length target); [lia|]. destruct l; [simpl in Hbig; lia|].
      discriminate. }
    destruct (truncate (String.length target) l) as [|c0 chunk] eqn:Et;
      [contradiction|].
    unfold bind at 1, skip_long_line.
    destruct (@skip_long_line_loop_text (S (String.length (s_cfg s1)))
                (advance (String.length target) l) r (String c0 chunk) false s1)
      as (rl & s2 & Hrun2 & Hcfg2 & Heof2).
    + now apply lacks_advance.
    + now apply lacks_advance.
    + exact Hcfg1.
    + exact He.
    + rewrite Hcfg1, length_append. simpl. lia.
    + apply lacks_strchr. rewrite <- Et. now apply lacks_truncate.
    + rewrite Hrun2. simpl negb. simpl andb.
      destruct (String.eqb_spec (l ++ String NL "") target) as [Heq|Hneq].
      { exfalso. rewrite <- Heq, length_append in Hbig. simpl in Hbig. lia. }
      destruct (IH s2) as (s' & Hr & Hrest);
        [rewrite Hcfg2; assumption | exact Heof2 | rewrite Hcfg2; lia|].
      unfold after_first_match in Hr, Hrest. rewrite Hcfg2 in Hr, Hrest.
      exists s'. split; [exact Hr | exact Hrest].
Qed.

End Scan.

Lemma config_line_linelen (name base : string) :
  (strlen base + strlen name + 3)%nat
  = S (String.length (config_line name base)).
Proof. rewrite config_line_length. lia. Qed.

Lemma config_line_pos (name base : string) :
  (1 <= String.length (config_line name base))%nat.
Proof. rewrite config_line_length. lia. Qed.

(** The scan returns from any state of the stream. *)
Lemma scan_config_any (name base : string) (s : State) :
  exists found s',
    scan_config (config_line name base) (strlen base + strlen name + 3) s
    = Ok found s' /\
    extends s s' /\
    (found = true ->
     In (config_line name base) (config_lines (s_cfg s)) /\
     exists pre, s_cfg s = pre ++ config_line name base ++ s_cfg s').
Proof.
  unfold scan_config. destruct (s_eof s) eqn:Heof.
  - exists false, s. simpl. unfold bind, feof. rewrite Heof.
    split; [reflexivity|]. split; [apply extends_refl | discriminate].
  - destruct (@scan_config_loop_any (config_line name base)
                (strlen base + strlen name + 3)
                (config_line_lacks_NUL name base)
                (config_line_linelen name base)
                (config_line_pos name base)
                (S (String.length (s_cfg s))) s)
      as (found & s' & Hrun & _ & Hext & Hf).
    + unfold stream_ok. congruence.
    + lia.
    + exists found, s'. auto.
Qed.

(** C5, on text.  The scan of lines 365-381 returns for every
    configuration.  When it sets the match flag, the target
    [<owner_name>:<base>] followed by a newline (of length
    [len(owner_name) + len(base) + 2]) is a line of the configuration and
    is the last thing read.  For a configuration that holds no NUL byte
    the converse holds too: the flag is set exactly when some line is the
    target, the scan stops after the first such line, and a line of any
    other length is never the match.  With the flag unset the
    authorization block exits with the nonzero error code, after
    [Permission Denied] when the stream closed. *)
Theorem scan_config_finds_exact_line (b : Build) (w : World)
  (name base : string) (s : State) :
  exists found s',
    scan_config (config_line name base) (strlen base + strlen name + 3) s
    = Ok found s' /\
    String.length (config_line name base)
    = (strlen name + strlen base + 2)%nat /\
    (found = true ->
     In (config_line name base) (config_lines (s_cfg s)) /\
     exists pre, s_cfg s = pre ++ config_line name base ++ s_cfg s') /\
    (lacks NUL (s_cfg s) -> s_eof s = false ->
     (found = true <-> In (config_line name base) (config_lines (s_cfg s))) /\
     found = is_some (after_first_match (config_line name base) (s_cfg s)) /\
     (forall r, after_first_match (config_line name base) (s_cfg s) = Some r ->
                s_cfg s' = r)) /\
    (found = false ->
     exists s'',
       authorize b w name base s = Halt (Exit (ERR_EXIT_CODE b)) s'' /\
       (w_fclose w = 0 ->
        s_log s'' = (s_log s' ++ [E_fclose 0; E_stderr D_permission_denied])%list)) /\
    ERR_EXIT_CODE b <> 0.
Proof.
  destruct (scan_config_any name base s) as (found & s' & Hrun & _ & Hsound).
  exists found, s'. split; [exact Hrun|].
  split; [rewrite config_line_length; lia|].
  split; [exact Hsound|].
  split; [|split; [|apply ERR_EXIT_CODE_nonzero]].
  - intros Hnul Heof.
    destruct (@scan_config_loop_text (config_line name base)
                (strlen base + strlen name + 3)
                (config_line_lacks_NUL name base)
                (config_line_linelen name base)
                (config_line_pos name base)
                (S (String.length (s_cfg s))) s Hnul Heof (Nat.lt_succ_diag_r _))
      as (s1 & Hrun1 & Hrest).
    unfold scan_config in Hrun. rewrite Hrun1 in Hrun.
    injection Hrun as <- <-.
    split; [apply after_first_match_In|]. split; [reflexivity | exact Hrest].
  - intros ->. unfold authorize.
    assert (Hpos : (Z.of_nat (String.length (config_line name base)) <=? 0) = false).
    { apply Z.leb_gt. pose proof (config_line_pos name base). lia. }
    rewrite Hpos. unfold when at 1. unfold bind at 1, ret at 1.
    unfold bind at 1. rewrite Hrun.
    unfold bind at 1, fclose, bind at 1, emit, ret at 1.
    destruct (w_fclose w =? 0) eqn:Hc.
    + apply Z.eqb_eq in Hc. rewrite Hc. simpl.
      unfold bind, fatal, bind, eprint, emit, exit. simpl.
      eexists. split; [reflexivity|]. intros _. simpl.
      now rewrite <- app_assoc.
    + simpl. unfold bind, fatal, bind, eprint, emit, exit. simpl.
      eexists. split; [reflexivity|]. intros E. rewrite E in Hc. discriminate.
Qed.

(* ===================================================================== *)
(** ** Blocks that only look *)
(* ===================================================================== *)

Section Frames.

Variable b : Build.
Variable w : World.


Lemma frame_ret {A} (a : A) : frame b (ret a).
Proof.
  intros s. simpl. split; [apply extends_refl|]. repeat split. discriminate.
Qed.

Lemma frame_bind {A B} (m : M A) (k : A -> M B) :
  frame b m -> (forall a, frame b (k a)) -> frame b (bind m k).
Proof.
  intros Hm Hk s. unfold bind. specialize (Hm s).
  destruct (m s) as [a s1|o s1]; simpl in Hm.
  - destruct Hm as (E1 & C1 & F1 & _). destruct (Hk a s1) as (E2 & C2 & F2 & O2).
    split; [eapply extends_trans; eauto|]. repeat split; congruence || auto.
  - exact Hm.
Qed.

Lemma frame_emit (e : Event) : benign e = true -> frame b (emit e).
Proof.
  intros H s. simpl. split; [now apply extends_log|]. repeat split. discriminate.
Qed.

Lemma frame_exit {A} : frame b (@exit A (ERR_EXIT_CODE b)).
Proof.
  intros s. simpl. split; [apply extends_refl|]. repeat split.
  now intros o [= <-].
Qed.

Lemma frame_fatal {A} (d : Diag) : frame b (@fatal b A d).
Proof.
  apply frame_bind; [now apply frame_emit | intros _; apply frame_exit].
Qed.

Lemma frame_fatal_usage {A} (d : Diag) : frame b (@fatal_usage b A d).
Proof.
  apply frame_bind; [now apply frame_emit | intros _; apply frame_fatal].
Qed.

Lemma frame_when (c : bool) (m : M unit) : frame b m -> frame b (when c m).
Proof. destruct c; simpl; [auto | intros _; apply frame_ret]. Qed.

Lemma frame_get (f : State -> Z) : frame b (fun s => Ok (f s) s).
Proof.
  intros s. simpl. split; [apply extends_refl|]. repeat split. discriminate.
Qed.

Lemma frame_lstat (p : string) : frame b (lstat w p).
Proof.
  apply frame_bind; [now apply frame_emit | intros _; apply frame_ret].
Qed.

Lemma frame_fstat (f : OpenFile) : frame b (fstat f).
Proof.
  apply frame_bind; [now apply frame_emit | intros _; apply frame_ret].
Qed.

Lemma frame_getpwuid (u : Z) : frame b (getpwuid w u).
Proof.
  apply frame_bind; [now apply frame_emit | intros _; apply frame_ret].
Qed.

Lemma frame_whitelist_char_check (str : string) (allow : bool) :
  frame b (whitelist_char_check b str allow).
Proof.
  unfold whitelist_char_check.
  destruct (all_whitelisted allow str); [apply frame_ret | apply frame_fatal].
Qed.

Lemma frame_eprint (d : Diag) : frame b (eprint d).
Proof. now apply frame_emit. Qed.

Lemma frame_USAGE {A} : frame b (@USAGE b A).
Proof. apply frame_fatal. Qed.

Lemma frame_getuid : frame b getuid.
Proof. apply frame_get. Qed.

Lemma frame_geteuid : frame b geteuid.
Proof. apply frame_get. Qed.

Lemma frame_getgid : frame b getgid.
Proof. apply frame_get. Qed.

Lemma frame_getegid : frame b getegid.
Proof. apply frame_get. Qed.

#[local] Hint Resolve frame_ret frame_exit frame_fatal frame_eprint
  frame_USAGE frame_fatal_usage frame_when frame_lstat frame_fstat
  frame_getpwuid frame_whitelist_char_check frame_getuid frame_geteuid
  frame_getgid frame_getegid : prog.

(** Composite blocks are taken apart bind by bind. *)
Ltac frame_tac :=
  repeat first
    [ solve [auto with prog]
    | match goal with
      | |- frame b (match ?x with _ => _ end) => destruct x
      end
    | simple apply frame_bind; [|intros ?] ].

Lemma strrchr_lt (s : string) (c : ascii) (i : nat) :
  strrchr s c = Some i -> (i < String.length s)%nat.
Proof.
  revert i; induction s as [|a s IH]; simpl; [discriminate|].
  intros i. destruct (strrchr s c) as [j|].
  - intros [= <-]. specialize (IH j eq_refl). lia.
  - destruct (Ascii.eqb a c); [|discriminate]. intros [= <-]. lia.
Qed.

(** The ancestor walk ends within its bound. *)
Lemma frame_check_base_path_loop (fuel : nat) :
  forall tosplit,
    (String.length tosplit < fuel)%nat ->
    frame b (check_base_path_loop b w fuel tosplit).
Proof.
  induction fuel as [|fuel IH]; intros tosplit Hlen; [lia|].
  simpl. destruct (strrchr tosplit SLASH) as [i|] eqn:E; [|auto with prog].
  apply strrchr_lt in E.
  destruct i as [|i]; cbn [Nat.eqb]; cbv zeta; frame_tac.
  apply IH. rewrite length_truncate; lia.
Qed.

Lemma frame_check_base_path (path : string) : frame b (check_base_path b w path).
Proof. apply frame_check_base_path_loop. lia. Qed.

#[local] Hint Resolve frame_check_base_path : prog.

Lemma frame_check_config_file (config : OpenFile) :
  frame b (check_config_file b w config).
Proof. unfold check_config_file. frame_tac. Qed.

Lemma frame_check_privileges : frame b (check_privileges b).
Proof. unfold check_privileges. frame_tac. Qed.

Lemma frame_positional_path (argv : list string) :
  frame b (positional_path b argv).
Proof.
  unfold positional_path, USAGE.
  destruct (List.length argv <? 3)%nat; auto with prog.
Qed.

Lemma frame_stat_target (path : string) : frame b (stat_target b w path).
Proof. unfold stat_target. frame_tac. Qed.

Lemma frame_split_target (path : string) : frame b (split_target b path).
Proof.
  unfold split_target.
  destruct (negb (Ascii.eqb (byte_at 0 path) SLASH)); [auto with prog|].
  destruct (strrchr path SLASH); frame_tac.
Qed.

Lemma frame_stat_base (base leaf : string) (owner : Z) :
  frame b (stat_base b w base leaf owner).
Proof. unfold stat_base. frame_tac. Qed.

Lemma frame_owner_name (sb : stat) : frame b (owner_name b w sb).
Proof. unfold owner_name. frame_tac. Qed.

End Frames.

(* ===================================================================== *)
(** ** What a block that returns has established *)
(* ===================================================================== *)

Section Blocks.

Variable b : Build.
Variable w : World.

(** Unfolds the monad in a hypothesis about a run and splits on the
    tests it meets, dropping the branches that exit. *)
Ltac run_in H :=
  cbv beta iota delta [bind when ret fatal fatal_usage USAGE eprint emit exit
    lstat getpwuid fstat getuid geteuid getgid getegid] in H;
  repeat match type of H with
    | context [if ?c then _ else _] =>
        let E := fresh "E" in destruct c eqn:E; try discriminate H
    | context [match ?x with Some _ => _ | None => _ end] =>
        let E := fresh "E" in destruct x eqn:E; try discriminate H
    end.

Lemma check_privileges_ok (s s1 : State) (tu : Z) :
  check_privileges b s = Ok tu s1 ->
  tu = ruid (s_cred s) /\ euid (s_cred s) = 0 /\ ruid (s_cred s) <> 0 /\
  rgid (s_cred s) <> 0 /\ egid (s_cred s) <> 0.
Proof.
  intros H. unfold check_privileges in H. run_in H.
  injection H as <- <-.
  apply negb_false_iff, Z.eqb_eq in E.
  apply orb_false_iff in E0. destruct E0 as [G1 G2].
  apply Z.eqb_neq in G1, G2, E1. auto.
Qed.

Lemma open_config_cases (s : State) :
  (exists f s1,
     open_config b w s = Ok f s1 /\ w_fopen w (CFG b) = Some f /\
     s_cfg s1 = of_bytes f /\ s_eof s1 = false /\ extends s s1) \/
  (exists s1,
     open_config b w s = Halt (Exit (ERR_EXIT_CODE b)) s1 /\ extends s s1).
Proof.
  unfold open_config, bind, fopen.
  destruct (w_fopen w (CFG b)) as [f|].
  - left. exists f. eexists. split; [reflexivity|]. split; [reflexivity|].
    split; [reflexivity|]. split; [reflexivity|].
    eapply extends_trans; [apply extends_with_stream | now apply extends_log].
  - right. eexists. split; [reflexivity|].
    eapply extends_trans; now apply extends_log.
Qed.

Lemma positional_path_ok (argv : list string) (s s1 : State) (path : string) :
  positional_path b argv s = Ok path s1 ->
  (3 <= List.length argv)%nat /\ path = nth 1 argv "".
Proof.
  unfold positional_path.
  destruct (Nat.ltb_spec (List.length argv) 3); [discriminate|].
  intros [= <- <-]. auto.
Qed.

Lemma stat_target_ok (path : string) (s s1 : State) (owner : Z) :
  stat_target b w path s = Ok owner s1 ->
  all_whitelisted true path = true /\
  exists st, w_lstat w path = Some st /\ owner = st_uid st /\
             S_ISDIR (st_mode st) = true /\ loose (st_mode st) = false.
Proof.
  intros H. unfold stat_target, whitelist_char_check in H. run_in H.
  injection H as <- <-. split; [reflexivity|]. eexists. split; [reflexivity|].
  apply negb_false_iff in E1. auto.
Qed.

Lemma split_target_ok (path base leaf : string) (s s1 : State) :
  split_target b path s = Ok (base, leaf) s1 ->
  exists i, strrchr path SLASH = Some i /\
            base = truncate i path /\ leaf = advance (S i) path.
Proof.
  intros H. unfold split_target in H.
  destruct (negb (Ascii.eqb (byte_at 0 path) SLASH)); [discriminate|].
  destruct (strrchr path SLASH) as [i|]; [|discriminate].
  exists i. split; [reflexivity|]. run_in H. now injection H as <- <- <-.
Qed.

Lemma stat_base_ok (base leaf : string) (owner : Z) (s s1 : State) (sb : stat) :
  stat_base b w base leaf owner s = Ok sb s1 ->
  w_lstat w base = Some sb /\ st_uid sb = owner /\
  all_whitelisted true base = true /\ all_whitelisted false leaf = true.
Proof.
  intros H. unfold stat_base, whitelist_char_check in H. run_in H.
  injection H as <- <-. apply negb_false_iff, Z.eqb_eq in E4. auto.
Qed.

Lemma owner_name_ok (sb : stat) (s s1 : State) (name : string) :
  owner_name b w sb s = Ok name s1 ->
  w_getpwuid w (st_uid sb) = Some name.
Proof.
  intros H. unfold owner_name in H. run_in H. now injection H as <- <-.
Qed.

(** The authorization block: it returns only after a match, and
    otherwise exits with the error code. *)
Lemma authorize_cases (name base : string) (s : State) :
  (exists s1,
     authorize b w name base s = Ok tt s1 /\ extends s s1 /\
     In (config_line name base) (config_lines (s_cfg s))) \/
  (exists s1,
     authorize b w name base s = Halt (Exit (ERR_EXIT_CODE b)) s1 /\
     extends s s1).
Proof.
  destruct (scan_config_any name base s) as (found & s' & Hrun & Hext & Hsound).
  unfold authorize.
  assert (Hpos : (Z.of_nat (String.length (config_line name base)) <=? 0) = false).
  { apply Z.leb_gt. pose proof (config_line_pos name base). lia. }
  rewrite Hpos.
  cbv beta iota delta [bind when ret fclose emit fatal eprint exit].
  rewrite Hrun. cbv beta iota.
  assert (Hext1 : extends s (log (E_fclose (w_fclose w)) s')).
  { eapply extends_trans; [exact Hext | now apply extends_log]. }
  destruct (w_fclose w =? 0) eqn:Hc; simpl.
  - destruct found; simpl.
    + left. eexists. split; [reflexivity|]. split; [exact Hext1|].
      now apply Hsound.
    + right. eexists. split; [reflexivity|].
      eapply extends_trans; [exact Hext1 | now apply extends_log].
  - right. eexists. split; [reflexivity|].
    eapply extends_trans; [exact Hext1 | now apply extends_log].
Qed.

End Blocks.

(* ===================================================================== *)
(** ** Clearing the environment (lines 173-209) *)
(* ===================================================================== *)

Lemma strcspn_eq_le (e : string) : (strcspn_eq e <= String.length e)%nat.
Proof.
  induction e as [|a e IH]; simpl; [lia|].
  destruct (Ascii.eqb a NUL); [lia|]. destruct (Ascii.eqb a "="); lia.
Qed.

Lemma env_name_no_equals (e : string) : strchr (env_name e) "=" = false.
Proof.
  unfold env_name. induction e as [|a e IH]; simpl; [reflexivity|].
  destruct (Ascii.eqb a NUL) eqn:E1; [reflexivity|].
  destruct (Ascii.eqb a "=") eqn:E2; [reflexivity|].
  simpl. now rewrite E1, E2.
Qed.

Lemma strlen_env_name (e : string) : strlen (env_name e) = strcspn_eq e.
Proof.
  unfold strlen, env_name. induction e as [|a e IH]; simpl; [reflexivity|].
  destruct (Ascii.eqb a NUL) eqn:E1; [reflexivity|].
  destruct (Ascii.eqb a "=") eqn:E2; [reflexivity|].
  simpl. rewrite E1. simpl. now rewrite IH.
Qed.

Lemma strncmp_env_name (e : string) :
  strncmp_eq e (env_name e) (strcspn_eq e) = true.
Proof.
  unfold env_name. induction e as [|a e IH]; simpl; [reflexivity|].
  destruct (Ascii.eqb a NUL) eqn:E1; [reflexivity|].
  destruct (Ascii.eqb a "=") eqn:E2; [reflexivity|].
  simpl. rewrite Ascii.eqb_refl. exact IH.
Qed.

Lemma byte_after_env_name (e : string) :
  Ascii.eqb (byte_at (strcspn_eq e) e) "=" = strchr e "=".
Proof.
  induction e as [|a e IH]; simpl; [reflexivity|].
  destruct (Ascii.eqb a NUL) eqn:E1.
  { apply Ascii.eqb_eq in E1. subst a. reflexivity. }
  destruct (Ascii.eqb a "=") eqn:E2; [exact E2 | exact IH].
Qed.

(** [unsetenv] of the name of an entry removes that entry exactly when
    the entry holds an [=]. *)
Lemma is_variable_env_name (e : string) :
  is_variable (env_name e) e = strchr e "=".
Proof.
  unfold is_variable.
  now rewrite strlen_env_name, strncmp_env_name, byte_after_env_name.
Qed.

Lemma Exists_filter {A} (P : A -> Prop) (f : A -> bool) (l : list A) :
  Exists P (filter f l) -> Exists P l.
Proof.
  intros H. apply Exists_exists in H. destruct H as (x & Hin & Hx).
  apply filter_In in Hin. apply Exists_exists. exists x. tauto.
Qed.

Section Clearenv.

Variable b : Build.

(** One pass of the loop on an entry that has a name. *)
Lemma unsetenv_loop_step (fuel : nat) (s : State) (first : string)
  (rest : list string) :
  s_environ s = first :: rest ->
  (strcspn_eq first =? 0)%nat = false ->
  unsetenv_loop b (S fuel) s
  = unsetenv_loop b fuel
      (log (E_unsetenv (env_name first) 0)
         (with_environ
            (filter (fun e => negb (is_variable (env_name first) e))
               (first :: rest)) s)).
Proof.
  intros Henv Hz. simpl. unfold bind at 1, environ. rewrite Henv, Hz.
  unfold bind at 1, unsetenv. fold (env_name first).
  assert (Hn : (String.length (env_name first) =? 0)%nat = false).
  { apply Nat.eqb_neq. apply Nat.eqb_neq in Hz. unfold env_name.
    rewrite length_truncate; [assumption | apply strcspn_eq_le]. }
  rewrite Hn, env_name_no_equals, Henv. reflexivity.
Qed.

(** On a first entry that has a name and no [=] every pass leaves the
    environment as it was: no bound lets the loop return. *)
Lemma unsetenv_loop_spins (fuel : nat) :
  forall (s : State) (first : string) (rest : list string),
    s_environ s = first :: rest ->
    (strcspn_eq first =? 0)%nat = false ->
    strchr first "=" = false ->
    exists rest',
      unsetenv_loop b fuel s
      = Halt OutOfFuel
          {| s_cred := s_cred s; s_environ := first :: rest';
             s_entry := s_entry s; s_cfg := s_cfg s; s_eof := s_eof s;
             s_log := (s_log s ++
                       repeat (E_unsetenv (env_name first) 0) fuel)%list |}.
Proof.
  induction fuel as [|fuel IH]; intros s first rest Henv Hz Hc.
  { exists rest. simpl. unfold out_of_fuel. rewrite app_nil_r, <- Henv.
    destruct s; reflexivity. }
  rewrite (unsetenv_loop_step fuel s Henv Hz).
  simpl filter. rewrite is_variable_env_name, Hc. simpl negb. cbv iota.
  match goal with
  | |- context [unsetenv_loop b fuel ?s'] =>
      destruct (IH s' first
                  (filter (fun e => negb (is_variable (env_name first) e)) rest)
                  eq_refl Hz Hc) as (rest' & R)
  end.
  exists rest'. rewrite R. simpl. rewrite <- app_assoc. reflexivity.
Qed.

Lemma forallb_benign_repeat (name : string) (n : nat) :
  forallb benign (repeat (E_unsetenv name 0) n) = true.
Proof. induction n; simpl; auto. Qed.

Lemma unsetenv_loop_clears (fuel : nat) :
  HAVE_CLEARENV b = false ->
  forall s, (List.length (s_environ s) < fuel)%nat ->
            exists s1, cleared b s s1 (unsetenv_loop b fuel s).
Proof.
  intros Hb. induction fuel as [|fuel IH]; intros s Hlen; [lia|].
  destruct (s_environ s) as [|first rest] eqn:Henv.
  { exists s. simpl. unfold bind at 1, environ. rewrite Henv. unfold cleared.
    split; [reflexivity|]. split; [reflexivity|]. split; [reflexivity|].
    split; [exists []; now rewrite app_nil_r|].
    left. split; [reflexivity | assumption]. }
  destruct (strcspn_eq first =? 0)%nat eqn:Hz.
  { exists (log (E_stderr D_corrupted_env) s).
    simpl. unfold bind at 1, environ. rewrite Henv, Hz.
    unfold cleared, fatal, bind, eprint, emit, exit. simpl.
    split; [reflexivity|]. split; [reflexivity|]. split; [reflexivity|].
    split; [exists [E_stderr D_corrupted_env]; split; reflexivity|].
    right. left. reflexivity. }
  destruct (strchr first "=") eqn:Hc.
  - rewrite (unsetenv_loop_step fuel s Henv Hz).
    simpl filter. rewrite is_variable_env_name, Hc. simpl negb. cbv iota.
    match goal with
    | |- context [unsetenv_loop b fuel ?s'] =>
        destruct (IH s') as (s1 & C & F & E & (t & L & B) & R)
    end.
    { simpl. pose proof (filter_length_le
        (fun e => negb (is_variable (env_name first) e)) rest).
      simpl in Hlen. lia. }
    exists s1. simpl in C, F, E, L, R. unfold cleared.
    split; [assumption|]. split; [assumption|]. split; [assumption|].
    split.
    + exists (E_unsetenv (env_name first) 0 :: t). split.
      * rewrite L, <- app_assoc. reflexivity.
      * simpl. exact B.
    + destruct R as [R|[R|(R & _ & X)]]; [now left | now right; left |].
      right. right. split; [exact R|]. split; [exact Hb|].
      rewrite Henv. apply Exists_cons_tl. eapply Exists_filter. exact X.
  - destruct (@unsetenv_loop_spins (S fuel) s first rest Henv Hz Hc)
      as (rest' & R).
    match type of R with _ = Halt _ ?s1 => exists s1 end.
    unfold cleared. rewrite R.
    split; [reflexivity|]. split; [reflexivity|]. split; [reflexivity|].
    split.
    + exists (repeat (E_unsetenv (env_name first) 0) (S fuel)).
      split; [reflexivity|].
      apply (forallb_benign_repeat (env_name first) (S fuel)).
    + right. right. split; [reflexivity|]. split; [exact Hb|].
      rewrite Henv. apply Exists_cons_hd. exact Hc.
Qed.

Lemma portable_clearenv_clears (s : State) :
  exists s1, cleared b s s1 (portable_clearenv b s).
Proof.
  unfold portable_clearenv. destruct (HAVE_CLEARENV b) eqn:Hb.
  - exists (log E_clearenv (with_environ_null s)).
    unfold cleared, bind, clearenv. simpl.
    split; [reflexivity|]. split; [reflexivity|]. split; [reflexivity|].
    split; [exists [E_clearenv]; split; reflexivity|].
    left. split; reflexivity.
  - apply unsetenv_loop_clears; [exact Hb | lia].
Qed.

(** What [envp] points to when [portable_clearenv] has returned, for a
    process in which [environ] still pointed to the array of [main]. *)
Lemma portable_clearenv_entry (s s1 : State) :
  s_entry s = None ->
  portable_clearenv b s = Ok tt s1 ->
  entry_strings s1 = if HAVE_CLEARENV b then s_environ s else [].
Proof.
  intros He R. unfold portable_clearenv in R.
  destruct (HAVE_CLEARENV b) eqn:Hb.
  - unfold bind, clearenv in R. simpl in R. injection R as <-.
    unfold entry_strings. simpl. unfold entry_strings. now rewrite He.
  - assert (G : forall fuel s, s_entry s = None ->
                unsetenv_loop b fuel s = Ok tt s1 ->
                s_entry s1 = None /\ s_environ s1 = []).
    { clear s He R. induction fuel as [|fuel IH]; intros s He R.
      - discriminate R.
      - destruct (s_environ s) as [|first rest] eqn:Henv.
        + simpl in R. unfold bind at 1, environ in R. rewrite Henv in R.
          injection R as <-. auto.
        + destruct (strcspn_eq first =? 0)%nat eqn:Hz.
          * simpl in R. unfold bind at 1, environ in R. rewrite Henv, Hz in R.
            discriminate R.
          * rewrite (unsetenv_loop_step fuel s Henv Hz) in R.
            apply IH in R; [exact R | exact He]. }
    destruct (G _ _ He R) as [E1 E2]. unfold entry_strings. now rewrite E1.
Qed.

End Clearenv.

(* ===================================================================== *)
(** ** The array that [envp] points to *)
(* ===================================================================== *)

(** Only [clearenv] takes [environ] off the array that [main] received;
    every other block leaves [s_entry] as it is. *)
Create HintDb entry.

Section Entry.

Variable b : Build.
Variable w : World.

Lemma keeps_ret {A} (a : A) : keeps_entry (ret a).
Proof. intros s. reflexivity. Qed.

Lemma keeps_exit {A} (rc : Z) : keeps_entry (@exit A rc).
Proof. intros s. reflexivity. Qed.

Lemma keeps_out_of_fuel {A} : keeps_entry (@out_of_fuel A).
Proof. intros s. reflexivity. Qed.

Lemma keeps_emit (e : Event) : keeps_entry (emit e).
Proof. intros s. reflexivity. Qed.

Lemma keeps_bind {A B} (m : M A) (k : A -> M B) :
  keeps_entry m -> (forall a, keeps_entry (k a)) -> keeps_entry (bind m k).
Proof.
  intros Hm Hk s. unfold bind. specialize (Hm s).
  destruct (m s) as [a s1|o s1]; simpl in *; [|exact Hm].
  now rewrite Hk.
Qed.

Lemma keeps_when (c : bool) (m : M unit) :
  keeps_entry m -> keeps_entry (when c m).
Proof. destruct c; simpl; [auto | intros _; apply keeps_ret]. Qed.

Lemma keeps_fatal {A} (d : Diag) : keeps_entry (@fatal b A d).
Proof. apply keeps_bind; [apply keeps_emit | intros _; apply keeps_exit]. Qed.

Lemma keeps_eprint (d : Diag) : keeps_entry (eprint d).
Proof. apply keeps_emit. Qed.

Lemma keeps_USAGE {A} : keeps_entry (@USAGE b A).
Proof. apply keeps_fatal. Qed.

Lemma keeps_fatal_usage {A} (d : Diag) : keeps_entry (@fatal_usage b A d).
Proof. apply keeps_bind; [apply keeps_emit | intros _; apply keeps_USAGE]. Qed.

Lemma keeps_get {A} (f : State -> A) : keeps_entry (fun s => Ok (f s) s).
Proof. intros s. reflexivity. Qed.

Lemma keeps_call {A} (e : Event) (a : A) : keeps_entry (emit e ;; ret a).
Proof. intros s. reflexivity. Qed.

Lemma keeps_fopen (p : string) : keeps_entry (fopen w p).
Proof. intros s. unfold fopen. destruct (w_fopen w p); reflexivity. Qed.

Lemma keeps_fgets (n : nat) : keeps_entry (fgets n).
Proof.
  intros s. unfold fgets.
  destruct (fgets_chars (n - 1) (s_cfg s)) as [[chunk rest] e].
  destruct chunk; reflexivity.
Qed.

Lemma keeps_whitelist_char_check (str : string) (allow : bool) :
  keeps_entry (whitelist_char_check b str allow).
Proof.
  unfold whitelist_char_check.
  destruct (all_whitelisted allow str); [apply keeps_ret | apply keeps_fatal].
Qed.

#[local] Hint Resolve keeps_ret keeps_exit keeps_out_of_fuel keeps_emit
  keeps_when keeps_fatal keeps_eprint keeps_USAGE keeps_fatal_usage
  keeps_fopen keeps_fgets keeps_whitelist_char_check : entry.
#[local] Hint Extern 1 (keeps_entry (fun s => Ok _ s)) =>
  apply keeps_get : entry.
#[local] Hint Extern 1 (keeps_entry (bind (emit _) (fun _ => ret _))) =>
  apply keeps_call : entry.

(** Composite blocks are taken apart bind by bind. *)
Ltac keeps_tac :=
  repeat first
    [ solve [auto with entry]
    | match goal with
      | |- keeps_entry (match ?x with _ => _ end) => destruct x
      | |- keeps_entry (if ?x then _ else _) => destruct x
      | |- keeps_entry (let '(_, _) := ?x in _) => destruct x
      end
    | simple apply keeps_bind; [|intros ?] ].

Lemma keeps_check_base_path_loop (fuel : nat) :
  forall tosplit, keeps_entry (check_base_path_loop b w fuel tosplit).
Proof.
  induction fuel as [|fuel IH]; intros tosplit; simpl; [auto with entry|].
  unfold lstat. destruct (strrchr tosplit SLASH) as [i|]; [|auto with entry].
  destruct i as [|i]; cbn [Nat.eqb]; cbv zeta; keeps_tac.
Qed.

Lemma keeps_check_base_path (path : string) :
  keeps_entry (check_base_path b w path).
Proof. apply keeps_check_base_path_loop. Qed.

#[local] Hint Resolve keeps_check_base_path : entry.

Lemma keeps_check_config_file (config : OpenFile) :
  keeps_entry (check_config_file b w config).
Proof. unfold check_config_file, lstat, fstat. keeps_tac. Qed.

Lemma keeps_check_privileges : keeps_entry (check_privileges b).
Proof.
  unfold check_privileges, getuid, geteuid, getgid, getegid. keeps_tac.
Qed.

Lemma keeps_open_config : keeps_entry (open_config b w).
Proof. unfold open_config. keeps_tac. Qed.

Lemma keeps_positional_path (argv : list string) :
  keeps_entry (positional_path b argv).
Proof. unfold positional_path. keeps_tac. Qed.

Lemma keeps_stat_target (path : string) : keeps_entry (stat_target b w path).
Proof. unfold stat_target, lstat. keeps_tac. Qed.

Lemma keeps_split_target (path : string) : keeps_entry (split_target b path).
Proof. unfold split_target. keeps_tac. Qed.

Lemma keeps_stat_base (base leaf : string) (owner : Z) :
  keeps_entry (stat_base b w base leaf owner).
Proof. unfold stat_base, lstat. keeps_tac. Qed.

Lemma keeps_owner_name (sb : stat) : keeps_entry (owner_name b w sb).
Proof. unfold owner_name, getpwuid. keeps_tac. Qed.

Lemma keeps_skip_long_line_loop (fuel linelen : nat) :
  forall rline ignore,
    keeps_entry (skip_long_line_loop fuel linelen rline ignore).
Proof.
  induction fuel as [|fuel IH]; intros rline ignore; simpl;
    [auto with entry|].
  unfold feof. keeps_tac.
Qed.

Lemma keeps_skip_long_line (linelen : nat) (rline : string) :
  keeps_entry (skip_long_line linelen rline).
Proof. intros s. apply keeps_skip_long_line_loop. Qed.

Lemma keeps_scan_config_loop (fuel : nat) (line : string) (linelen : nat) :
  keeps_entry (scan_config_loop fuel line linelen).
Proof.
  induction fuel as [|fuel IH]; simpl; [auto with entry|].
  unfold feof. pose proof keeps_skip_long_line. keeps_tac.
Qed.

Lemma keeps_scan_config (line : string) (linelen : nat) :
  keeps_entry (scan_config line linelen).
Proof. intros s. apply keeps_scan_config_loop. Qed.

Lemma keeps_authorize (name base : string) :
  keeps_entry (authorize b w name base).
Proof.
  unfold authorize, fclose. pose proof keeps_scan_config. keeps_tac.
Qed.

End Entry.

(** After a block that leaves environment and [s_entry] as they are,
    [envp] points to the same strings. *)
Lemma environment_cleared_step (b : Build) (w : World) (s s' : State) :
  environment_cleared b w s ->
  s_environ s' = s_environ s -> s_entry s' = s_entry s ->
  environment_cleared b w s'.
Proof.
  intros [E B] He Hp. unfold environment_cleared, entry_strings in *.
  rewrite He, Hp. auto.
Qed.

Lemma environment_cleared_ok (b : Build) (w : World) {A} (m : M A)
  (s s' : State) (a : A) :
  keeps_entry m -> m s = Ok a s' -> extends s s' ->
  environment_cleared b w s -> environment_cleared b w s'.
Proof.
  intros K R (_ & E & _) H. specialize (K s). rewrite R in K. simpl in K.
  eapply environment_cleared_step; eauto.
Qed.

(* ===================================================================== *)
(** ** main up to the mode dispatch (lines 211-402) *)
(* ===================================================================== *)


Lemma benign_not_device (t : list Event) :
  forallb benign t = true -> no_device t.
Proof.
  unfold no_device. induction t as [|e t IH]; simpl; [reflexivity|].
  intros H. apply andb_prop in H. destruct H as [H1 H2].
  rewrite IH by assumption. destruct e; try discriminate; reflexivity.
Qed.

Lemma benign_not_execve (t : list Event) :
  forallb benign t = true -> no_execve t.
Proof.
  unfold no_execve. induction t as [|e t IH]; simpl; [reflexivity|].
  intros H. apply andb_prop in H. destruct H as [H1 H2].
  rewrite IH by assumption. destruct e; try discriminate; reflexivity.
Qed.

Lemma quiet_extends (w : World) (s s1 : State) :
  quiet w s -> extends s s1 -> quiet w s1.
Proof.
  intros [C L] (C1 & _ & t & L1 & B1). split; [congruence|].
  rewrite L1, forallb_app, L, B1. reflexivity.
Qed.

Lemma frame_ok (b : Build) {A} (m : M A) (s s1 : State) (a : A) :
  frame b m -> m s = Ok a s1 ->
  extends s s1 /\ s_cfg s1 = s_cfg s /\ s_eof s1 = s_eof s.
Proof.
  intros F E. destruct (F s) as (X & C & G & _). rewrite E in *. auto.
Qed.

Lemma frame_halt (b : Build) {A} (m : M A) (s s1 : State) (o : Outcome) :
  frame b m -> m s = Halt o s1 ->
  o = Exit (ERR_EXIT_CODE b) /\ extends s s1.
Proof.
  intros F E. destruct (F s) as (X & _ & _ & O). rewrite E in *. auto.
Qed.

Arguments check_privileges_ok {b s s1 tu} _.
Arguments positional_path_ok {b argv s s1 path} _.
Arguments stat_target_ok {b w path s s1 owner} _.
Arguments split_target_ok {b path base leaf s s1} _.
Arguments stat_base_ok {b w base leaf owner s s1 sb} _.
Arguments owner_name_ok {b w sb s s1 name} _.
Arguments frame_ok {b A m s s1 a} _ _.
Arguments frame_halt {b A m s s1 o} _ _.

Lemma stopped_exit (b : Build) (w : World) {A} (r : Res A) (s1 : State) :
  r = Halt (Exit (ERR_EXIT_CODE b)) s1 -> quiet w s1 ->
  exists o s1, r = Halt o s1 /\ quiet w s1 /\ stopped b w o.
Proof.
  intros R Q. exists (Exit (ERR_EXIT_CODE b)), s1.
  split; [exact R|]. split; [exact Q|]. now left.
Qed.

Lemma clearable_not_never (b : Build) (env : list string) :
  clearable b env -> ~ never_cleared b env.
Proof.
  intros [H|H] [N X]; [congruence|].
  apply Exists_exists in X. destruct X as (e & Hin & He).
  rewrite Forall_forall in H. specialize (H e Hin). congruence.
Qed.

Lemma clearable_stopped (b : Build) (w : World) (o : Outcome) :
  clearable b (w_envp w) -> stopped b w o -> o = Exit (ERR_EXIT_CODE b).
Proof.
  intros C [H|[_ N]]; [exact H|].
  exfalso. exact (clearable_not_never C N).
Qed.

(** Every run either stops before the dispatch, by [exit] with the
    error code or in the loop of [portable_clearenv], having made only
    benign calls, or reaches the dispatch. *)
Lemma main_cases (b : Build) (w : World) :
  (exists o s1, run b w = Halt o s1 /\ quiet w s1 /\ stopped b w o) \/
  reached_dispatch b w (run b w).
Proof.
  remember (run b w) as r eqn:Hr. unfold run, main in Hr.
  assert (Q : quiet w (initial w)) by (split; reflexivity).
  (* portable_clearenv *)
  unfold bind at 1 in Hr.
  destruct (portable_clearenv_clears b (initial w))
    as (s1 & C1 & _ & _ & (t1 & L1 & B1) & R1).
  assert (Q1 : quiet w s1).
  { destruct Q as [Qc Ql]. split; [congruence|].
    rewrite L1, forallb_app, Ql, B1. reflexivity. }
  destruct R1 as [[R1 Henv]|[R1|[R1 N1]]]; rewrite R1 in Hr;
    [|left; eapply stopped_exit; eauto
     |left; exists OutOfFuel, s1; repeat split; [exact Hr|apply Q1|apply Q1|];
      right; split; [reflexivity | exact N1]].
  cbv beta iota in Hr.
  assert (W1 : environment_cleared b w s1).
  { split; [exact Henv|].
    rewrite (portable_clearenv_entry b (initial w) eq_refl R1).
    reflexivity. }
  (* check_privileges *)
  unfold bind at 1 in Hr.
  destruct (check_privileges b s1) as [tu s2|o s2] eqn:E2.
  2:{ destruct (frame_halt (@frame_check_privileges b) E2) as [-> X].
      left. eapply stopped_exit; eauto using quiet_extends. }
  destruct (frame_ok (@frame_check_privileges b) E2) as (X2 & _ & _).
  destruct (check_privileges_ok E2) as (-> & Pe & Pu & Pg & Peg).
  destruct Q1 as [Qc1 Ql1]. rewrite Qc1 in Pe, Pu, Pg, Peg, Hr.
  assert (Q2 : quiet w s2) by (eapply quiet_extends; [split|]; eauto).
  assert (W2 : environment_cleared b w s2)
    by (eapply (environment_cleared_ok
                  (m:=check_privileges b));
        eauto using keeps_check_privileges).
  (* open_config *)
  unfold bind at 1 in Hr.
  destruct (open_config_cases b w s2)
    as [(f & s3 & E3 & Hf & Hcfg3 & Heof3 & X3)|(s3 & E3 & X3)];
    rewrite E3 in Hr; [|left; eapply stopped_exit; eauto using quiet_extends].
  assert (Q3 : quiet w s3) by (eapply quiet_extends; eauto).
  assert (W3 : environment_cleared b w s3)
    by (eapply (environment_cleared_ok
                  (m:=open_config b w));
        eauto using keeps_open_config).
  (* check_config_file *)
  unfold bind at 1 in Hr.
  destruct (check_config_file b w f s3) as [[] s4|o s4] eqn:E4.
  2:{ destruct (frame_halt (@frame_check_config_file b w f) E4) as [-> X].
      left. eapply stopped_exit; eauto using quiet_extends. }
  destruct (frame_ok (@frame_check_config_file b w f) E4) as (X4 & Hcfg4 & Heof4).
  assert (Q4 : quiet w s4) by (eapply quiet_extends; eauto).
  assert (W4 : environment_cleared b w s4)
    by (eapply (environment_cleared_ok
                  (m:=check_config_file b w f));
        eauto using keeps_check_config_file).
  (* positional_path *)
  unfold bind at 1 in Hr.
  destruct (positional_path b (w_argv w) s4) as [path s5|o s5] eqn:E5.
  2:{ destruct (frame_halt (@frame_positional_path b (w_argv w)) E5) as [-> X].
      left. eapply stopped_exit; eauto using quiet_extends. }
  destruct (frame_ok (@frame_positional_path b (w_argv w)) E5) as (X5 & Hcfg5 & Heof5).
  destruct (positional_path_ok E5) as [Hargc ->].
  assert (Q5 : quiet w s5) by (eapply quiet_extends; eauto).
  assert (W5 : environment_cleared b w s5)
    by (eapply (environment_cleared_ok
                  (m:=positional_path b (w_argv w)));
        eauto using keeps_positional_path).
  set (path := nth 1 (w_argv w) "") in *.
  (* stat_target *)
  unfold bind at 1 in Hr.
  destruct (stat_target b w path s5) as [owner s6|o s6] eqn:E6.
  2:{ destruct (frame_halt (@frame_stat_target b w path) E6) as [-> X].
      left. eapply stopped_exit; eauto using quiet_extends. }
  destruct (frame_ok (@frame_stat_target b w path) E6) as (X6 & Hcfg6 & Heof6).
  assert (Q6 : quiet w s6) by (eapply quiet_extends; eauto).
  assert (W6 : environment_cleared b w s6)
    by (eapply (environment_cleared_ok
                  (m:=stat_target b w path));
        eauto using keeps_stat_target).
  (* split_target *)
  unfold bind at 1 in Hr.
  destruct (split_target b path s6) as [[base leaf] s7|o s7] eqn:E7.
  2:{ destruct (frame_halt (@frame_split_target b path) E7) as [-> X].
      left. eapply stopped_exit; eauto using quiet_extends. }
  destruct (frame_ok (@frame_split_target b path) E7) as (X7 & Hcfg7 & Heof7).
  destruct (split_target_ok E7) as (i & Hi & -> & ->).
  assert (Q7 : quiet w s7) by (eapply quiet_extends; eauto).
  assert (W7 : environment_cleared b w s7)
    by (eapply (environment_cleared_ok
                  (m:=split_target b path));
        eauto using keeps_split_target).
  cbv beta iota in Hr.
  (* stat_base *)
  unfold bind at 1 in Hr.
  destruct (stat_base b w (truncate i path) (advance (S i) path) owner s7)
    as [sb s8|o s8] eqn:E8.
  2:{ destruct (frame_halt (@frame_stat_base b w _ _ _) E8) as [-> X].
      left. eapply stopped_exit; eauto using quiet_extends. }
  destruct (frame_ok (@frame_stat_base b w _ _ _) E8) as (X8 & Hcfg8 & Heof8).
  destruct (stat_base_ok E8) as (Hsb & _ & Hwl & _).
  assert (Q8 : quiet w s8) by (eapply quiet_extends; eauto).
  assert (W8 : environment_cleared b w s8)
    by (eapply (environment_cleared_ok
                  (m:=stat_base b w (truncate i path) (advance (S i) path) owner));
        eauto using keeps_stat_base).
  (* owner_name *)
  unfold bind at 1 in Hr.
  destruct (owner_name b w sb s8) as [name s9|o s9] eqn:E9.
  2:{ destruct (frame_halt (@frame_owner_name b w sb) E9) as [-> X].
      left. eapply stopped_exit; eauto using quiet_extends. }
  destruct (frame_ok (@frame_owner_name b w sb) E9) as (X9 & Hcfg9 & Heof9).
  pose proof (owner_name_ok E9) as Hname.
  assert (Q9 : quiet w s9) by (eapply quiet_extends; eauto).
  assert (W9 : environment_cleared b w s9)
    by (eapply (environment_cleared_ok
                  (m:=owner_name b w sb));
        eauto using keeps_owner_name).
  (* check_base_path *)
  unfold bind at 1 in Hr.
  destruct (check_base_path b w (truncate i path) s9) as [[] s10|o s10] eqn:E10.
  2:{ destruct (frame_halt (@frame_check_base_path b w _) E10) as [-> X].
      left. eapply stopped_exit; eauto using quiet_extends. }
  destruct (frame_ok (@frame_check_base_path b w _) E10) as (X10 & Hcfg10 & Heof10).
  assert (Q10 : quiet w s10) by (eapply quiet_extends; eauto).
  assert (W10 : environment_cleared b w s10)
    by (eapply (environment_cleared_ok
                  (m:=check_base_path b w (truncate i path)));
        eauto using keeps_check_base_path).
  (* authorize *)
  unfold bind at 1 in Hr.
  destruct (authorize_cases b w name (truncate i path) s10)
    as [(s11 & E11 & X11 & Hin)|(s11 & E11 & X11)]; rewrite E11 in Hr;
    [|left; eapply stopped_exit; eauto using quiet_extends].
  assert (Q11 : quiet w s11) by (eapply quiet_extends; eauto).
  assert (W11 : environment_cleared b w s11)
    by (eapply (environment_cleared_ok
                  (m:=authorize b w name (truncate i path)));
        eauto using keeps_authorize).
  assert (Hbytes : s_cfg s10 = of_bytes f) by congruence.
  rewrite Hbytes in Hin.
  (* final_path *)
  fold (final_path_of path i) in Hr.
  assert (Hfp : (Z.of_nat (String.length (final_path_of path i)) <=? 0) = false).
  { apply Z.leb_gt. unfold final_path_of. rewrite length_append. simpl. lia. }
  rewrite Hfp in Hr. unfold when at 1 in Hr. unfold bind at 1, ret at 1 in Hr.
  assert (Hle : (3 <=? List.length (w_argv w))%nat = true)
    by now apply Nat.leb_le.
  rewrite Hle, andb_true_l in Hr.
  right. exists s11, i, sb, name, f. cbv zeta. fold path.
  repeat (split; [assumption|]). rewrite Hr.
  destruct (Ascii.eqb (byte_at 0 (nth 2 (w_argv w) "")) "-"); reflexivity.
Qed.

(* ===================================================================== *)
(** ** The privilege transition (lines 427-474) *)
(* ===================================================================== *)

Lemma kernel_setuid_rc (p : Cred -> bool) (u : Z) (c : Cred) :
  (exists c', Kernel.setuid p u c = (0, c')) \/ Kernel.setuid p u c = (-1, c).
Proof.
  unfold Kernel.setuid. destruct (p c); [eauto|].
  destruct ((u =? ruid c) || (u =? suid c)); eauto.
Qed.

Lemma kernel_seteuid_rc (p : Cred -> bool) (u : Z) (c : Cred) :
  (exists c', Kernel.seteuid p u c = (0, c')) \/ Kernel.seteuid p u c = (-1, c).
Proof.
  unfold Kernel.seteuid.
  destruct (p c || (u =? ruid c) || (u =? euid c) || (u =? suid c)); eauto.
Qed.

Lemma kernel_setgid_rc (p : Cred -> bool) (g : Z) (c : Cred) :
  (exists c', Kernel.setgid p g c = (0, c')) \/ Kernel.setgid p g c = (-1, c).
Proof.
  unfold Kernel.setgid. destruct (p c); [eauto|].
  destruct ((g =? rgid c) || (g =? sgid c)); eauto.
Qed.

Lemma kernel_setegid_rc (p : Cred -> bool) (g : Z) (c : Cred) :
  (exists c', Kernel.setegid p g c = (0, c')) \/ Kernel.setegid p g c = (-1, c).
Proof.
  unfold Kernel.setegid.
  destruct (p c || (g =? rgid c) || (g =? egid c) || (g =? sgid c)); eauto.
Qed.

(** A successful [setuid] to one's own real uid leaves real and
    effective uid equal to it, whatever the privilege, and leaves the
    group ids alone. *)
Lemma kernel_setuid_self (p : Cred -> bool) (c c1 : Cred) :
  Kernel.setuid p (ruid c) c = (0, c1) ->
  ruid c1 = ruid c /\ euid c1 = ruid c /\ rgid c1 = rgid c /\ egid c1 = egid c.
Proof.
  unfold Kernel.setuid. destruct (p c).
  - intros [= <-]. simpl. auto.
  - destruct ((ruid c =? ruid c) || (ruid c =? suid c)); [|discriminate].
    intros [= <-]. simpl. auto.
Qed.


Ltac step_in Hr := cbn [negb s_cred log with_cred Z.eqb] in Hr.

Ltac exec_stop Hr :=
  rewrite Hr; simpl; split; [reflexivity|]; eexists;
  split; [rewrite <- ?app_assoc; simpl; reflexivity|];
  split; [reflexivity|]; left; split; reflexivity.

Lemma exec_mode_ending (b : Build) (w : World) (tu : Z) (fp : string)
  (args : list string) (envp : EnvPtr) (s0 : State) :
  exec_ending b w tu fp args (strings_at envp s0) s0
    (exec_mode b w tu fp args envp s0).
Proof.
  unfold exec_ending. cbv zeta.
  set (argv := skipn 2 args). set (prog := nth 0 argv "").
  remember (exec_mode b w tu fp args envp s0) as r eqn:Hr.
  unfold exec_mode, verify_dropped in Hr. fold argv in Hr. fold prog in Hr.
  cbv beta iota zeta delta [bind when ret fatal eprint emit exit chdir chroot
    setuid seteuid setgid setegid orM succeeds getuid geteuid getgid getegid
    whitelist_char_check execve] in Hr.
  destruct (w_chdir w fp =? 0) eqn:K1; step_in Hr; [|exec_stop Hr].
  destruct (w_chroot w fp =? 0) eqn:K2; step_in Hr; [|exec_stop Hr].
  apply Z.eqb_eq in K1, K2. rewrite K1, K2 in Hr.
  destruct (kernel_setuid_rc (w_privileged w) tu (s_cred s0)) as [[c1 U]|U];
    rewrite U in Hr; step_in Hr; [|exec_stop Hr].
  destruct (kernel_setuid_rc (w_privileged w) 0 c1) as [[c2 U1]|U1];
    rewrite U1 in Hr; step_in Hr; [exec_stop Hr|].
  destruct (kernel_seteuid_rc (w_privileged w) 0 c1) as [[c2 U2]|U2];
    rewrite U2 in Hr; step_in Hr; [exec_stop Hr|].
  destruct (kernel_setgid_rc (w_privileged w) 0 c1) as [[c2 U3]|U3];
    rewrite U3 in Hr; step_in Hr; [exec_stop Hr|].
  destruct (kernel_setegid_rc (w_privileged w) 0 c1) as [[c2 U4]|U4];
    rewrite U4 in Hr; step_in Hr; [exec_stop Hr|].
  destruct ((ruid c1 =? 0) || (euid c1 =? 0) || (rgid c1 =? 0) || (egid c1 =? 0))
    eqn:K3; step_in Hr; [exec_stop Hr|].
  apply orb_false_iff in K3. destruct K3 as [K3 Keg].
  apply orb_false_iff in K3. destruct K3 as [K3 Kg].
  apply orb_false_iff in K3. destruct K3 as [Ku Ke].
  apply Z.eqb_neq in Ku, Ke, Kg, Keg.
  destruct (w_chdir w "/" =? 0) eqn:K4; step_in Hr; [|exec_stop Hr].
  apply Z.eqb_eq in K4. rewrite K4 in Hr.
  destruct (all_whitelisted true prog) eqn:K5; step_in Hr; [|exec_stop Hr].
  destruct (w_execve w prog) eqn:K6; step_in Hr.
  - rewrite Hr. simpl. split; [reflexivity|]. eexists.
    split; [rewrite <- ?app_assoc; simpl; reflexivity|].
    split; [reflexivity|]. right. exists c1, [].
    repeat (split; [assumption || reflexivity|]). left. split; reflexivity.
  - rewrite Hr. simpl. split; [reflexivity|]. eexists.
    split; [rewrite <- ?app_assoc; simpl; reflexivity|].
    split; [reflexivity|]. right. exists c1, [E_stderr (D_exec prog)].
    repeat (split; [assumption || reflexivity|]). right. split; reflexivity.
Qed.

(* ===================================================================== *)
(** ** Properties of whole runs *)
(* ===================================================================== *)

Lemma no_execve_not_In (t : list Event) (p : string) (a e : list string) :
  no_execve t -> ~ In (E_execve p a e) t.
Proof.
  unfold no_execve. intros H Hin.
  rewrite forallb_forall in H. specialize (H _ Hin). discriminate.
Qed.

Lemma no_device_not_In (t : list Event) (e : Event) :
  no_device t -> In e t -> is_device e = false.
Proof.
  unfold no_device. intros H Hin.
  rewrite forallb_forall in H. specialize (H _ Hin).
  now apply negb_true_iff in H.
Qed.

Arguments no_device_not_In {t e} _ _.

Lemma quiet_no_execve (w : World) (s : State) : quiet w s -> no_execve (s_log s).
Proof. intros [_ H]. now apply benign_not_execve. Qed.

Lemma quiet_no_device (w : World) (s : State) : quiet w s -> no_device (s_log s).
Proof. intros [_ H]. now apply benign_not_device. Qed.

Arguments quiet_no_execve {w s} _.
Arguments quiet_no_device {w s} _.

(** A run in Exec mode whose log shows an [execve] passed the dispatch
    and went through [exec_mode] to that call. *)
Lemma exec_run_cases (b : Build) (w : World) (p : string) (a e : list string) :
  Ascii.eqb (byte_at 0 (nth 2 (w_argv w) "")) "-" = false ->
  In (E_execve p a e) (s_log (state_of (run b w))) ->
  exists s0 fp c1 tail,
    quiet w s0 /\ s_environ s0 = [] /\ ruid (w_cred w) <> 0 /\
    p = nth 0 (skipn 2 (w_argv w)) "" /\ a = skipn 2 (w_argv w) /\
    e = block_after_clearing b w /\
    Kernel.setuid (w_privileged w) (ruid (w_cred w)) (w_cred w) = (0, c1) /\
    s_cred (state_of (run b w)) = c1 /\
    rgid c1 <> 0 /\ egid c1 <> 0 /\
    s_environ (state_of (run b w)) = [] /\
    s_log (state_of (run b w))
    = (s_log s0 ++
       [E_chdir fp 0; E_chroot fp 0; E_setuid (ruid (w_cred w)) 0;
        E_setuid 0 (-1); E_seteuid 0 (-1); E_setgid 0 (-1); E_setegid 0 (-1);
        E_chdir "/" 0; E_execve p a e] ++ tail)%list /\
    no_execve tail.
Proof.
  intros Hmode Hin.
  destruct (main_cases b w) as [(o & s1 & Hr & Q & _)|R].
  { rewrite Hr in Hin. simpl in Hin.
    exfalso. eapply no_execve_not_In; [eapply quiet_no_execve|]; eauto. }
  destruct R as (s0 & i & sb & name & f & Q & [Henv Hblock] & _ & Hu & _ & _ &
                 _ & _ & _ & _ & _ & _ & _ & Hr).
  cbv zeta in Hr. rewrite Hmode in Hr.
  pose proof (exec_mode_ending b w (ruid (w_cred w))
                (final_path_of (nth 1 (w_argv w) "") i) (w_argv w) ENTRY s0) as X.
  change (strings_at ENTRY s0) with (entry_strings s0) in X.
  rewrite Hblock in X.
  rewrite <- Hr in X. destruct X as (Xenv & t & Xlog & _ & X).
  rewrite Xlog in Hin. apply in_app_or in Hin.
  destruct Hin as [Hin|Hin].
  { exfalso. eapply no_execve_not_In; [eapply quiet_no_execve|]; eauto. }
  destruct X as [[_ Xn]|(c1 & tail & U & _ & _ & _ & _ & Xc & _ & _ & Xg & Xeg &
                          _ & Xt & Xo)].
  { exfalso. eapply no_execve_not_In; eauto. }
  assert (Htail : no_execve tail).
  { destruct Xo as [[_ ->]|[_ ->]]; reflexivity. }
  rewrite Xt in Hin. apply in_app_or in Hin. destruct Hin as [Hin|Hin].
  2:{ exfalso. eapply no_execve_not_In; eauto. }
  simpl in Hin.
  repeat (destruct Hin as [Hin|Hin]; [try discriminate Hin|]); [|contradiction].
  injection Hin as <- <- <-.
  destruct Q as [Qc Ql]. rewrite Qc in U.
  exists s0, (final_path_of (nth 1 (w_argv w) "") i), c1, tail.
  split; [split; assumption|].
  repeat (split; [assumption || reflexivity || congruence|]).
  split; [rewrite Xlog, Xt; reflexivity | assumption].
Qed.

(** C2.  On a run in Exec mode that reaches [execve]: [setuid] to the
    invoking real uid succeeded, then [setuid(0)], [seteuid(0)],
    [setgid(0)] and [setegid(0)] were each attempted and each returned
    failure, and at the [execve] the real and effective uid are the
    invoking real uid (which is not 0) and the real and effective gid are
    not 0.  Conversely, from any state in which [setuid] to the target
    fails, or after it a regain attempt would succeed or an id reads 0,
    [exec_mode] exits with the nonzero error code and never calls
    [execve]. *)
Theorem exec_only_after_verified_drop (b : Build) (w : World) (prog : string)
  (argv envp : list string) :
  Ascii.eqb (byte_at 0 (nth 2 (w_argv w) "")) "-" = false ->
  In (E_execve prog argv envp) (s_log (state_of (run b w))) ->
  (exists pre tail,
     s_log (state_of (run b w))
     = (pre ++
        [E_setuid (ruid (w_cred w)) 0;
         E_setuid 0 (-1); E_seteuid 0 (-1); E_setgid 0 (-1); E_setegid 0 (-1);
         E_chdir "/" 0; E_execve prog argv envp] ++ tail)%list /\
     no_execve pre /\ no_execve tail) /\
  ruid (s_cred (state_of (run b w))) = ruid (w_cred w) /\
  euid (s_cred (state_of (run b w))) = ruid (w_cred w) /\
  ruid (w_cred w) <> 0 /\
  rgid (s_cred (state_of (run b w))) <> 0 /\
  egid (s_cred (state_of (run b w))) <> 0 /\
  (forall tu fp args envp' s0,
     let priv := w_privileged w in
     let c1 := snd (Kernel.setuid priv tu (s_cred s0)) in
     (fst (Kernel.setuid priv tu (s_cred s0)) <> 0 \/
      fst (Kernel.setuid priv 0 c1) = 0 \/ fst (Kernel.seteuid priv 0 c1) = 0 \/
      fst (Kernel.setgid priv 0 c1) = 0 \/ fst (Kernel.setegid priv 0 c1) = 0 \/
      ruid c1 = 0 \/ euid c1 = 0 \/ rgid c1 = 0 \/ egid c1 = 0) ->
     outcome_of (exec_mode b w tu fp args envp' s0) = Some (Exit (ERR_EXIT_CODE b)) /\
     exists t,
       s_log (state_of (exec_mode b w tu fp args envp' s0)) = (s_log s0 ++ t)%list /\
       no_execve t) /\
  ERR_EXIT_CODE b <> 0.
Proof.
  intros Hmode Hin.
  destruct (exec_run_cases b w _ _ _ Hmode Hin)
    as (s0 & fp & c1 & tail & Q & _ & Hu & _ & _ & _ & U & Hc & Hg & Heg & _ &
        Hlog & Htail).
  destruct (kernel_setuid_self _ _ U) as (Er & Ee & _ & _).
  split.
  { exists (s_log s0 ++ [E_chdir fp 0; E_chroot fp 0])%list, tail.
    split; [rewrite Hlog, <- app_assoc; reflexivity|].
    split; [|assumption].
    unfold no_execve. rewrite forallb_app.
    rewrite (quiet_no_execve Q). reflexivity. }
  rewrite Hc. repeat (split; [assumption|]).
  split; [|apply ERR_EXIT_CODE_nonzero].
  intros tu fp' args envp' s1 priv c1' Hbad.
  destruct (exec_mode_ending b w tu fp' args envp' s1) as (_ & t & Xlog & _ & X).
  destruct X as [[Xo Xn]|(c2 & tl & U' & R1 & R2 & R3 & R4 & _ & I1 & I2 & I3 & I4 & _)].
  { split; [assumption|]. exists t. auto. }
  exfalso. subst priv c1'. rewrite U' in Hbad. simpl in Hbad.
  rewrite R1, R2, R3, R4 in Hbad. simpl in Hbad.
  intuition congruence.
Qed.

(** The run of scenario 1 is in Exec mode and reaches [execve] with
    [/bin/sh]. *)
Lemma exec_only_after_verified_drop_witness :
  Ascii.eqb (byte_at 0 (nth 2 (w_argv Hosts.happy) "")) "-" = false /\
  In (E_execve "/bin/sh" ["/bin/sh"] ["HOME=/home/alice"; "PATH=/usr/bin"])
     (s_log (state_of (run Hosts.build Hosts.happy))) /\
  ruid (s_cred (state_of (run Hosts.build Hosts.happy))) = 1001 /\
  euid (s_cred (state_of (run Hosts.build Hosts.happy))) = 1001.
Proof.
  assert (Hin : In (E_execve "/bin/sh" ["/bin/sh"]
                      ["HOME=/home/alice"; "PATH=/usr/bin"])
                   (s_log (state_of (run Hosts.build Hosts.happy)))).
  { vm_compute. do 22 right. left. reflexivity. }
  split; [reflexivity|]. split; [exact Hin|].
  destruct (@exec_only_after_verified_drop Hosts.build Hosts.happy
              "/bin/sh" ["/bin/sh"] ["HOME=/home/alice"; "PATH=/usr/bin"]
              eq_refl Hin) as (_ & Hr & He & _).
  split; [exact Hr | exact He].
Defined.

(** The regain tests do stop runs: on a kernel that leaves the process
    privileged, [setuid(0)] returns 0 and the run exits before
    [execve]. *)
Example regain_setuid_is_fatal :
  outcome_of (run Hosts.build Hosts.keeps_privilege) = Some (Exit 1) /\
  In (E_setuid 0 0) (s_log (state_of (run Hosts.build Hosts.keeps_privilege))) /\
  no_execve (s_log (state_of (run Hosts.build Hosts.keeps_privilege))).
Proof.
  split; [vm_compute; reflexivity|]. split; [|vm_compute; reflexivity].
  vm_compute. do 17 right. left. reflexivity.
Qed.

(** With saved gid 0 the first two attempts fail and [setgid(0)]
    succeeds: the run exits before [execve]. *)
Example regain_setgid_is_fatal :
  outcome_of (run Hosts.build Hosts.saved_gid_root) = Some (Exit 1) /\
  In (E_setgid 0 0) (s_log (state_of (run Hosts.build Hosts.saved_gid_root))) /\
  no_execve (s_log (state_of (run Hosts.build Hosts.saved_gid_root))).
Proof.
  split; [vm_compute; reflexivity|]. split; [|vm_compute; reflexivity].
  vm_compute. do 19 right. left. reflexivity.
Qed.

Lemma no_device_app (t u : list Event) :
  no_device t -> no_device u -> no_device (t ++ u).
Proof.
  unfold no_device. intros H1 H2. now rewrite forallb_app, H1, H2.
Qed.

Lemma no_execve_app (t u : list Event) :
  no_execve t -> no_execve u -> no_execve (t ++ u).
Proof.
  unfold no_execve. intros H1 H2. now rewrite forallb_app, H1, H2.
Qed.

Arguments no_device_app {t u} _ _.
Arguments no_execve_app {t u} _ _.

(** The first test of [device_mode]. *)
Lemma device_mode_non_owner (b : Build) (w : World) (tu : Z) (sb : stat)
  (fp arg2 : string) (s0 : State) :
  tu <> st_uid sb ->
  device_mode b w tu sb fp arg2 s0
  = Halt (Exit (ERR_EXIT_CODE b)) (log (E_stderr D_owner_only) s0).
Proof.
  intros H. unfold device_mode. apply Z.eqb_neq in H.
  unfold bind at 1. rewrite H. reflexivity.
Qed.

(** The authorization block after a scan without match. *)
Lemma authorize_denied (b : Build) (w : World) (name base : string)
  (s s' : State) :
  scan_config (config_line name base) (strlen base + strlen name + 3) s
  = Ok false s' ->
  exists s'',
    authorize b w name base s = Halt (Exit (ERR_EXIT_CODE b)) s'' /\
    (exists t, s_log s'' = (s_log s' ++ t)%list /\ forallb benign t = true) /\
    (w_fclose w = 0 ->
     s_log s'' = (s_log s' ++ [E_fclose 0; E_stderr D_permission_denied])%list).
Proof.
  intros Hrun. unfold authorize.
  assert (Hpos : (Z.of_nat (String.length (config_line name base)) <=? 0) = false).
  { apply Z.leb_gt. pose proof (config_line_pos name base). lia. }
  rewrite Hpos.
  cbv beta iota delta [bind when ret fclose emit fatal eprint exit].
  rewrite Hrun. cbv beta iota.
  destruct (w_fclose w =? 0) eqn:Hc; simpl.
  - apply Z.eqb_eq in Hc. rewrite Hc. eexists. split; [reflexivity|]. simpl.
    split; [|intros _; now rewrite <- app_assoc].
    exists [E_fclose 0; E_stderr D_permission_denied].
    split; [now rewrite <- app_assoc | reflexivity].
  - eexists. split; [reflexivity|]. simpl.
    split; [|intros E; rewrite E in Hc; discriminate].
    exists [E_fclose (w_fclose w); E_stderr D_close].
    split; [now rewrite <- app_assoc | reflexivity].
Qed.


(** C10.  A device call appears in the log of a run only if the run
    passed the authorization scan: the configuration that was opened
    holds the line [<owner_name>:<base>] for the owner of [base], and
    that owner is the invoking user.  When the configuration holds no
    such line, the authorization block exits with the nonzero error code
    having made only benign calls, the last diagnostic being [Permission
    Denied] when the stream closed: the mode dispatch is not reached. *)
Theorem devices_only_after_config_match (b : Build) (w : World) :
  (forall e,
     In e (s_log (state_of (run b w))) -> is_device e = true ->
     exists i sb name f,
       strrchr (nth 1 (w_argv w) "") SLASH = Some i /\
       w_lstat w (truncate i (nth 1 (w_argv w) "")) = Some sb /\
       w_getpwuid w (st_uid sb) = Some name /\
       w_fopen w (CFG b) = Some f /\
       In (config_line name (truncate i (nth 1 (w_argv w) "")))
          (config_lines (of_bytes f)) /\
       ruid (w_cred w) = st_uid sb /\
       Ascii.eqb (byte_at 0 (nth 2 (w_argv w) "")) "-" = true) /\
  (forall name base s,
     ~ In (config_line name base) (config_lines (s_cfg s)) ->
     exists s',
       authorize b w name base s = Halt (Exit (ERR_EXIT_CODE b)) s' /\
       (exists t, s_log s' = (s_log s ++ t)%list /\ forallb benign t = true) /\
       (w_fclose w = 0 ->
        exists t, s_log s' = (t ++ [E_stderr D_permission_denied])%list)) /\
  ERR_EXIT_CODE b <> 0.
Proof.
  split; [|split; [|apply ERR_EXIT_CODE_nonzero]].
  - intros e Hin Hdev.
    destruct (main_cases b w) as [(o1 & s1 & Hr & Q & Hstop)|R].
    { rewrite Hr in Hin. simpl in Hin.
      rewrite (no_device_not_In (quiet_no_device Q) Hin) in Hdev. discriminate. }
    destruct R as (s0 & i & sb & name & f & Q & _ & _ & _ & _ & _ & _ & Hi & _ &
                   Hsb & Hname & Hf & Hline & Hr).
    cbv zeta in Hi, Hsb, Hline, Hr.
    destruct (Ascii.eqb (byte_at 0 (nth 2 (w_argv w) "")) "-") eqn:Hmode.
    + destruct (Z.eq_dec (ruid (w_cred w)) (st_uid sb)) as [Hown|Hown].
      * exists i, sb, name, f. auto 10.
      * rewrite device_mode_non_owner in Hr by assumption.
        rewrite Hr in Hin. simpl in Hin. apply in_app_or in Hin.
        destruct Hin as [Hin|[<-|[]]]; [|discriminate].
        rewrite (no_device_not_In (quiet_no_device Q) Hin) in Hdev.
        discriminate.
    + pose proof (exec_mode_ending b w (ruid (w_cred w))
                    (final_path_of (nth 1 (w_argv w) "") i) (w_argv w) ENTRY s0) as X.
      rewrite <- Hr in X. destruct X as (_ & t & Xlog & Xd & _).
      rewrite Xlog in Hin.
      rewrite (no_device_not_In
                 (no_device_app (quiet_no_device Q) Xd) Hin) in Hdev.
      discriminate.
  - intros name base s Hno.
    destruct (scan_config_any name base s) as (found & s1 & Hrun & Hext & Hsound).
    destruct found; [exfalso; apply Hno; now apply Hsound|].
    destruct (authorize_denied b w _ _ _ Hrun) as (s' & Ha & (t & Ht & Hb) & Hpd).
    exists s'. split; [exact Ha|]. split.
    + destruct Hext as (_ & _ & t1 & L1 & B1). exists (t1 ++ t)%list.
      rewrite Ht, L1, <- app_assoc, forallb_app, B1, Hb. auto.
    + intros Hc. rewrite (Hpd Hc). exists (s_log s1 ++ [E_fclose 0])%list.
      now rewrite <- app_assoc.
Qed.


(** C10 on a run that installs devices: the [mknod] of [dev/null] is in
    its log, so the configuration holds the line of the owner of the
    base, who is the invoking user. *)
Lemma devices_only_after_config_match_witness :
  In (E_mknod "/srv/jails/work/dev/null" 8630 259 0)
     (s_log (state_of (run Hosts.build Hosts.long_flag))) /\
  is_device (E_mknod "/srv/jails/work/dev/null" 8630 259 0) = true /\
  exists i sb name f,
    strrchr (nth 1 (w_argv Hosts.long_flag) "") SLASH = Some i /\
    w_lstat Hosts.long_flag (truncate i (nth 1 (w_argv Hosts.long_flag) ""))
    = Some sb /\
    w_getpwuid Hosts.long_flag (st_uid sb) = Some name /\
    w_fopen Hosts.long_flag (CFG Hosts.build) = Some f /\
    In (config_line name (truncate i (nth 1 (w_argv Hosts.long_flag) "")))
       (config_lines (of_bytes f)) /\
    ruid (w_cred Hosts.long_flag) = st_uid sb /\
    Ascii.eqb (byte_at 0 (nth 2 (w_argv Hosts.long_flag) "")) "-" = true.
Proof.
  assert (Hin : In (E_mknod "/srv/jails/work/dev/null" 8630 259 0)
                   (s_log (state_of (run Hosts.build Hosts.long_flag))))
    by (vm_compute; do 17 right; left; reflexivity).
  split; [exact Hin|]. split; [reflexivity|].
  destruct (devices_only_after_config_match Hosts.build Hosts.long_flag)
    as (Hdev & _).
  exact (Hdev _ Hin eq_refl).
Defined.

(** The text part of C5 on the configuration of scenario 1: it holds no
    NUL byte, so the scan finds the line of [alice]. *)
Lemma scan_config_finds_exact_line_witness :
  lacks NUL Hosts.conf_bytes /\
  In (config_line "alice" "/srv/jails") (config_lines Hosts.conf_bytes) /\
  exists s',
    scan_config (config_line "alice" "/srv/jails") 18
      (with_stream Hosts.conf_bytes false (initial Hosts.happy))
    = Ok true s' /\
    s_cfg s' = "".
Proof.
  assert (Hnul : lacks NUL Hosts.conf_bytes)
    by (simpl; repeat split; discriminate).
  assert (Hline : In (config_line "alice" "/srv/jails")
                     (config_lines Hosts.conf_bytes))
    by (simpl; right; left; reflexivity).
  split; [exact Hnul|]. split; [exact Hline|].
  destruct (@scan_config_finds_exact_line Hosts.build Hosts.happy
              "alice" "/srv/jails"
              (with_stream Hosts.conf_bytes false (initial Hosts.happy)))
    as (found & s' & Hrun & _ & _ & Htext & _).
  destruct (Htext Hnul eq_refl) as ((_ & Hin) & _ & Hrest).
  exists s'. split.
  - assert (Hf : found = true) by (apply Hin; exact Hline).
    rewrite Hf in Hrun. exact Hrun.
  - apply Hrest. reflexivity.
Defined.

(** The boundary of the specification: a line of exactly
    [len(owner_name) + len(base) + 2] bytes matches. *)
Example scan_exact_length_matches :
  outcome_of
    (authorize Hosts.build Hosts.happy "alice" "/srv/jails"
       (with_stream ("alice:/srv/jails" ++ String NL "") false
          (initial Hosts.happy)))
  = None.
Proof. vm_compute. reflexivity. Qed.

(** One byte more and the line is discarded. *)
Example scan_longer_line_is_discarded :
  outcome_of
    (authorize Hosts.build Hosts.happy "alice" "/srv/jails"
       (with_stream ("alice:/srv/jailsX" ++ String NL "") false
          (initial Hosts.happy)))
  = Some (Exit 1).
Proof. vm_compute. reflexivity. Qed.

(** A fragment of a long line is not matched, even when it is, byte for
    byte, the target: here the first 17 bytes fill the buffer and the
    second chunk is [alice:/srv/jails] with its newline. *)
Example scan_fragment_is_not_matched :
  outcome_of
    (authorize Hosts.build Hosts.happy "alice" "/srv/jails"
       (with_stream ("#################alice:/srv/jails" ++ String NL "") false
          (initial Hosts.happy)))
  = Some (Exit 1).
Proof. vm_compute. reflexivity. Qed.

(** A last line without newline is not matched. *)
Example scan_unterminated_line_is_not_matched :
  outcome_of
    (authorize Hosts.build Hosts.happy "alice" "/srv/jails"
       (with_stream "alice:/srv/jails" false (initial Hosts.happy)))
  = Some (Exit 1).
Proof. vm_compute. reflexivity. Qed.

(* ===================================================================== *)
(** ** Runs on which the code departs from the specification *)
(* ===================================================================== *)

(** C5, as stated, fails on a configuration with a NUL byte: the line of
    [alice] is a line of the configuration, [fgets] reads the line before
    it up to its newline, [strchr] stops at the NUL and sees no newline,
    so the line of [alice] is consumed as a continuation; the flag stays
    unset and the run is denied. *)
Lemma scan_misses_line_after_nul :
  In (config_line "alice" "/srv/jails") (config_lines Hosts.nul_bytes) /\
  (exists s',
     scan_config (config_line "alice" "/srv/jails") 18
       (with_stream Hosts.nul_bytes false (initial Hosts.nul_conf))
     = Ok false s') /\
  outcome_of (run Hosts.build Hosts.nul_conf) = Some (Exit 1) /\
  last (s_log (state_of (run Hosts.build Hosts.nul_conf))) E_clearenv
  = E_stderr D_permission_denied.
Proof.
  split; [simpl; right; left; reflexivity|].
  split; [eexists; vm_compute; reflexivity|].
  split; vm_compute; reflexivity.
Qed.

(** C1 on scenario 5: [fstat] of the descriptor reports inode 4242 while
    the path names inode 77; line 167 prints its diagnostic and the
    function returns; the configuration is then read and the command is
    executed. *)
Theorem config_moved_is_not_fatal :
  (exists f st,
     w_fopen Hosts.swapped (CFG Hosts.build) = Some f /\
     of_fstat f = Some st /\ (st_dev st, st_ino st) = (8, 4242)) /\
  (exists st,
     w_lstat Hosts.swapped (CFG Hosts.build) = Some st /\
     (st_dev st, st_ino st) = (8, 77)) /\
  outcome_of (run Hosts.build Hosts.swapped)
  = Some (Replaced "/bin/sh" ["/bin/sh"] ["HOME=/home/alice"; "PATH=/usr/bin"]) /\
  s_log (state_of (run Hosts.build Hosts.swapped))
  = [E_clearenv; E_fopen "/etc/userchroot.conf";
     E_lstat "/etc"; E_lstat "/etc"; E_lstat "/etc/userchroot.conf";
     E_fstat; E_stderr D_cfg_moved;
     E_lstat "/srv/jails/work"; E_lstat "/srv/jails"; E_getpwuid 1001;
     E_lstat "/srv"; E_lstat "/srv";
     E_fgets (config_line "bob" "/srv/jails");
     E_fgets (config_line "alice" "/srv/jails"); E_fclose 0;
     E_chdir "/srv/jails/work" 0; E_chroot "/srv/jails/work" 0;
     E_setuid 1001 0; E_setuid 0 (-1); E_seteuid 0 (-1);
     E_setgid 0 (-1); E_setegid 0 (-1); E_chdir "/" 0;
     E_execve "/bin/sh" ["/bin/sh"] ["HOME=/home/alice"; "PATH=/usr/bin"]].
Proof.
  split; [do 2 eexists; repeat split; reflexivity|].
  split; [eexists; split; reflexivity|].
  split; vm_compute; reflexivity.
Qed.

(** C4 on a configuration path that names a FIFO: line 147 prints its
    diagnostic and the function goes on; the scan runs and the command
    is executed. *)
Theorem config_not_regular_is_not_fatal :
  (exists st,
     w_lstat Hosts.fifo (CFG Hosts.build) = Some st /\
     S_ISREG (st_mode st) = false /\ st_uid st = 0 /\ loose (st_mode st) = false) /\
  outcome_of (run Hosts.build Hosts.fifo)
  = Some (Replaced "/bin/sh" ["/bin/sh"] ["HOME=/home/alice"; "PATH=/usr/bin"]) /\
  s_log (state_of (run Hosts.build Hosts.fifo))
  = [E_clearenv; E_fopen "/etc/userchroot.conf";
     E_lstat "/etc"; E_lstat "/etc"; E_lstat "/etc/userchroot.conf";
     E_stderr D_cfg_not_regular; E_fstat;
     E_lstat "/srv/jails/work"; E_lstat "/srv/jails"; E_getpwuid 1001;
     E_lstat "/srv"; E_lstat "/srv";
     E_fgets (config_line "bob" "/srv/jails");
     E_fgets (config_line "alice" "/srv/jails"); E_fclose 0;
     E_chdir "/srv/jails/work" 0; E_chroot "/srv/jails/work" 0;
     E_setuid 1001 0; E_setuid 0 (-1); E_seteuid 0 (-1);
     E_setgid 0 (-1); E_setegid 0 (-1); E_chdir "/" 0;
     E_execve "/bin/sh" ["/bin/sh"] ["HOME=/home/alice"; "PATH=/usr/bin"]].
Proof.
  split; [eexists; repeat split; reflexivity|].
  split; vm_compute; reflexivity.
Qed.

(** What the dispatch does get right: an [argv[2]] that begins with [-]
    and with neither of the two flag strings never installs, removes or
    executes anything; the run stops before the dispatch or exits with
    the error code, after the usage line when the earlier checks passed
    and the invoker owns the base. *)
Lemma unrecognized_flag_is_rejected (b : Build) (w : World) :
  Ascii.eqb (byte_at 0 (nth 2 (w_argv w) "")) "-" = true ->
  strncmp_eq "--install-devices" (nth 2 (w_argv w) "") 17 = false ->
  strncmp_eq "--uninstall-devices" (nth 2 (w_argv w) "") 19 = false ->
  exists o s1,
    run b w = Halt o s1 /\ stopped b w o /\
    no_device (s_log s1) /\ no_execve (s_log s1) /\
    (reached_dispatch b w (run b w) ->
     exists s0,
       quiet w s0 /\
       (s1 = log (E_stderr D_usage) s0 \/ s1 = log (E_stderr D_owner_only) s0)).
Proof.
  intros Hmode H17 H19.
  destruct (main_cases b w) as [(o1 & s1 & Hr & Q & Hstop)|R].
  { exists o1, s1. split; [assumption|]. split; [assumption|].
    split; [eapply quiet_no_device; eauto|].
    split; [eapply quiet_no_execve; eauto|].
    intros (s0 & i & sb & name & f & Q0 & _ & _ & _ & _ & _ & _ & _ & _ & _ &
            _ & _ & _ & Hr').
    cbv zeta in Hr'. rewrite Hmode, Hr in Hr'.
    unfold device_mode in Hr'. rewrite H17, H19 in Hr'.
    cbv beta iota delta [bind when ret fatal eprint emit exit USAGE] in Hr'.
    exists s0. split; [assumption|].
    destruct (negb (ruid (w_cred w) =? st_uid sb));
      injection Hr' as _ ->; auto. }
  pose proof R as R'.
  destruct R as (s0 & i & sb & name & f & Q0 & _ & _ & _ & _ & _ & _ & _ & _ & _ &
                 _ & _ & _ & Hr).
  cbv zeta in Hr. rewrite Hmode in Hr.
  unfold device_mode in Hr. rewrite H17, H19 in Hr.
  cbv beta iota delta [bind when ret fatal eprint emit exit USAGE] in Hr.
  destruct (negb (ruid (w_cred w) =? st_uid sb)).
  - exists (Exit (ERR_EXIT_CODE b)), (log (E_stderr D_owner_only) s0).
    split; [assumption|]. split; [now left|]. simpl.
    split; [apply no_device_app; [eapply quiet_no_device; eauto | reflexivity]|].
    split; [apply no_execve_app; [eapply quiet_no_execve; eauto | reflexivity]|].
    intros _. exists s0. auto.
  - exists (Exit (ERR_EXIT_CODE b)), (log (E_stderr D_usage) s0).
    split; [assumption|]. split; [now left|]. simpl.
    split; [apply no_device_app; [eapply quiet_no_device; eauto | reflexivity]|].
    split; [apply no_execve_app; [eapply quiet_no_execve; eauto | reflexivity]|].
    intros _. exists s0. auto.
Qed.

(** C7 on [--install-devices-later]: the flag is neither of the two
    recognized ones, yet [strncmp] over 17 bytes accepts it; the device
    nodes are created and the run exits with 0, without the usage
    line. *)
Theorem unknown_flag_installs_devices :
  nth 2 (w_argv Hosts.long_flag) "" <> "--install-devices" /\
  nth 2 (w_argv Hosts.long_flag) "" <> "--uninstall-devices" /\
  byte_at 0 (nth 2 (w_argv Hosts.long_flag) "") = "-"%char /\
  outcome_of (run Hosts.build Hosts.long_flag) = Some (Exit 0) /\
  In (E_mknod "/srv/jails/work/dev/null" 8630 259 0)
     (s_log (state_of (run Hosts.build Hosts.long_flag))) /\
  ~ In (E_stderr D_usage) (s_log (state_of (run Hosts.build Hosts.long_flag))).
Proof.
  split; [discriminate|]. split; [discriminate|]. split; [reflexivity|].
  split; [vm_compute; reflexivity|].
  split.
  - vm_compute. do 17 right. left. reflexivity.
  - vm_compute. intros H.
    repeat (destruct H as [H|H]; [discriminate H|]). exact H.
Qed.

Lemma strrchr_byte (s : string) (c : ascii) (i : nat) :
  strrchr s c = Some i -> byte_at i s = c.
Proof.
  revert i; induction s as [|a s IH]; simpl; [discriminate|].
  intros i. destruct (strrchr s c) as [j|].
  - intros [= <-]. now apply IH.
  - destruct (Ascii.eqb_spec a c) as [->|]; [|discriminate].
    now intros [= <-].
Qed.


Ltac walk_stop Hne :=
  eexists; simpl; split; [rewrite <- ?app_assoc; simpl; reflexivity|];
  simpl; intros H; repeat (destruct H as [H|H]; [try discriminate H|]);
  try contradiction; try (now apply Hne).

(** The walk never asks for the root: on a path below the root, every
    string it hands to [lstat] still has a first component, because the
    pass that finds the last slash at index 0 leaves the string as it
    is. *)
Lemma walk_never_stats_root (b : Build) (w : World) (fuel : nat) :
  forall tosplit s,
    below_root tosplit ->
    exists t,
      s_log (state_of (check_base_path_loop b w fuel tosplit s))
      = (s_log s ++ t)%list /\
      ~ In (E_lstat "/") t.
Proof.
  induction fuel as [|fuel IH]; intros tosplit s Hp.
  { exists []. simpl. split; [now rewrite app_nil_r | tauto]. }
  simpl check_base_path_loop.
  destruct (strrchr tosplit SLASH) as [i|] eqn:Hi.
  2:{ eexists. simpl. split; [reflexivity|]. simpl. intuition discriminate. }
  pose proof (strrchr_byte _ _ Hi) as Hb.
  destruct Hp as (c & rest & -> & Hc).
  set (next := if (i =? 0)%nat then String SLASH (String c rest)
               else truncate i (String SLASH (String c rest))).
  assert (Hnext : below_root next).
  { unfold next. destruct i as [|[|i]]; simpl.
    - exists c, rest. auto.
    - simpl in Hb. contradiction.
    - exists c, (truncate i rest). auto. }
  assert (Hne : E_lstat next <> E_lstat "/").
  { destruct Hnext as (c' & rest' & -> & _). discriminate. }
  cbv zeta. fold next.
  cbv beta iota delta [bind when ret fatal eprint emit exit lstat].
  destruct (w_lstat w next) as [st|]; [|walk_stop Hne].
  destruct (negb (S_ISDIR (st_mode st))); [walk_stop Hne|].
  destruct (negb (st_uid st =? 0)); [walk_stop Hne|].
  destruct (loose (st_mode st)); [walk_stop Hne|].
  destruct (i =? 0)%nat; [walk_stop Hne|].
  destruct (IH next (log (E_lstat next) s) Hnext) as (t & Ht & Hin).
  exists (E_lstat next :: t). split.
  - rewrite Ht. simpl. now rewrite <- app_assoc.
  - simpl. intros [H|H]; [now apply Hne | contradiction].
Qed.

(** C3 on a host whose root directory belongs to uid 1001 with mode
    0777: the walk from [/srv/jails] stats [/srv] twice, never [/], and
    returns; the whole run then executes the command.  By
    [walk_never_stats_root] the same holds of every path below the
    root. *)
Theorem walk_accepts_loose_root :
  (exists st,
     w_lstat Hosts.loose_root "/" = Some st /\
     S_ISDIR (st_mode st) = true /\ st_uid st = 1001 /\
     loose (st_mode st) = true) /\
  check_base_path Hosts.build Hosts.loose_root "/srv/jails"
    (initial Hosts.loose_root)
  = Ok tt (log (E_lstat "/srv") (log (E_lstat "/srv") (initial Hosts.loose_root))) /\
  outcome_of (run Hosts.build Hosts.loose_root)
  = Some (Replaced "/bin/sh" ["/bin/sh"] ["HOME=/home/alice"; "PATH=/usr/bin"]) /\
  ~ In (E_lstat "/") (s_log (state_of (run Hosts.build Hosts.loose_root))).
Proof.
  split; [eexists; repeat split; reflexivity|].
  split; [vm_compute; reflexivity|].
  split; [vm_compute; reflexivity|].
  vm_compute. intros H.
  repeat (destruct H as [H|H]; [discriminate H|]). exact H.
Qed.

(* ===================================================================== *)
(** ** Every run ends *)
(* ===================================================================== *)


Create HintDb exits.

Section Exits.

Variable b : Build.
Variable w : World.

Lemma exits_only_ret {A} (a : A) : exits_only (ret a).
Proof. intros s o [=]. Qed.

Lemma exits_only_bind {A B} (m : M A) (k : A -> M B) :
  exits_only m -> (forall a, exits_only (k a)) -> exits_only (bind m k).
Proof.
  intros Hm Hk s o. unfold bind. specialize (Hm s).
  destruct (m s) as [a s1|o1 s1]; simpl in *; [apply Hk | apply Hm].
Qed.

Lemma exits_only_emit (e : Event) : exits_only (emit e).
Proof. intros s o [=]. Qed.

Lemma exits_only_exit {A} (rc : Z) : exits_only (@exit A rc).
Proof. intros s o [= <-]. eauto. Qed.

Lemma exits_only_fatal {A} (d : Diag) : exits_only (@fatal b A d).
Proof.
  apply exits_only_bind; [apply exits_only_emit | intros _; apply exits_only_exit].
Qed.

Lemma exits_only_when (c : bool) (m : M unit) :
  exits_only m -> exits_only (when c m).
Proof. destruct c; simpl; [auto | intros _; apply exits_only_ret]. Qed.

Lemma exits_only_eprint (d : Diag) : exits_only (eprint d).
Proof. apply exits_only_emit. Qed.

#[local] Hint Resolve exits_only_ret exits_only_emit exits_only_exit
  exits_only_fatal exits_only_when exits_only_eprint : exits.

Ltac exits_tac :=
  repeat first
    [ solve [auto with exits]
    | match goal with
      | |- exits_only (match ?x with _ => _ end) => destruct x
      end
    | simple apply exits_only_bind; [|intros ?] ].

Lemma exits_only_create_fundamental_device (chroot_path device_path : string) :
  exits_only (create_fundamental_device b w chroot_path device_path).
Proof.
  unfold create_fundamental_device, sys_stat, mkdir, mount, mknod. exits_tac.
Qed.

Lemma exits_only_unlink_fundamental_device (chroot_path device_path : string) :
  exits_only (unlink_fundamental_device b w chroot_path device_path).
Proof.
  unfold unlink_fundamental_device, umount, rmdir, unlink. exits_tac.
Qed.

#[local] Hint Resolve exits_only_create_fundamental_device
  exits_only_unlink_fundamental_device : exits.

Lemma exits_only_create_fundamental_devices (chroot_path : string) :
  exits_only (create_fundamental_devices b w chroot_path).
Proof.
  unfold create_fundamental_devices, sys_umask, umount2, rmdir, mkdir, chown,
    chmod, sys_stat, mount.
  exits_tac.
Qed.

Lemma exits_only_unlink_fundamental_devices (chroot_path : string) :
  exits_only (unlink_fundamental_devices b w chroot_path).
Proof.
  unfold unlink_fundamental_devices, umount2, rmdir. exits_tac.
Qed.

(** Device mode always ends by [exit]. *)
Lemma device_mode_exits (tu : Z) (sb : stat) (fp arg2 : string) (s : State) :
  exists rc s', device_mode b w tu sb fp arg2 s = Halt (Exit rc) s'.
Proof.
  unfold device_mode, USAGE.
  cbv beta iota delta [bind when ret fatal eprint emit exit].
  destruct (negb (tu =? st_uid sb)); [eauto|].
  destruct (strncmp_eq "--install-devices" arg2 17).
  { pose proof (@exits_only_create_fundamental_devices fp s) as H.
    destruct (create_fundamental_devices b w fp s) as [rc s1|o s1]; [eauto|].
    destruct (H o eq_refl) as [rc ->]. eauto. }
  destruct (strncmp_eq "--uninstall-devices" arg2 19); [|eauto].
  pose proof (@exits_only_unlink_fundamental_devices fp s) as H.
  destruct (unlink_fundamental_devices b w fp s) as [rc s1|o s1]; [eauto|].
  destruct (H o eq_refl) as [rc ->]. eauto.
Qed.

(** [main] never returns: a run ends by [exit] or by the image being
    replaced, unless it is caught in the loop of [portable_clearenv]. *)
Lemma main_never_returns :
  exists o s, run b w = Halt o s /\
              (o = OutOfFuel -> never_cleared b (w_envp w)).
Proof.
  destruct (main_cases b w) as [(o1 & s1 & Hr & _ & Hstop)|R].
  { exists o1, s1. split; [assumption|].
    destruct Hstop as [->|[_ N]]; [discriminate | auto]. }
  destruct R as (s0 & i & sb & name & f & _ & _ & _ & _ & _ & _ & _ & _ & _ &
                 _ & _ & _ & _ & Hr).
  cbv zeta in Hr. rewrite Hr.
  destruct (Ascii.eqb (byte_at 0 (nth 2 (w_argv w) "")) "-").
  - destruct (device_mode_exits (ruid (w_cred w)) sb
                (final_path_of (nth 1 (w_argv w) "") i) (nth 2 (w_argv w) "") s0)
      as (rc & s' & ->).
    exists (Exit rc), s'. split; [reflexivity | discriminate].
  - pose proof (exec_mode_ending b w (ruid (w_cred w))
                  (final_path_of (nth 1 (w_argv w) "") i) (w_argv w) ENTRY s0) as X.
    destruct X as (_ & t & _ & _ & X).
    destruct (exec_mode b w (ruid (w_cred w))
                (final_path_of (nth 1 (w_argv w) "") i) (w_argv w) ENTRY s0)
      as [a s'|o s']; simpl in X.
    + exfalso. destruct X as [[X _]|(c1 & tl & X)]; [discriminate|].
      destruct X as (_ & _ & _ & _ & _ & _ & _ & _ & _ & _ & _ & _ & [[X _]|[X _]]);
        discriminate.
    + exists o, s'. split; [reflexivity|].
      destruct X as [[X _]|(c1 & tl & X)]; [injection X as ->; discriminate|].
      destruct X as (_ & _ & _ & _ & _ & _ & _ & _ & _ & _ & _ & _ & [[X _]|[X _]]);
        injection X as ->; discriminate.
Qed.

End Exits.

(* ===================================================================== *)
(** ** The whitelist and the ancestor walk (lines 60-132) *)
(* ===================================================================== *)

Lemma whitelisted_alphabet (allow : bool) (c : ascii) :
  whitelisted allow c = occurs c SAFE_BYTES || (allow && Ascii.eqb c SLASH).
Proof.
  destruct c as [[] [] [] [] [] [] [] []], allow; vm_compute; reflexivity.
Qed.

Lemma whitelisted_allowed (allow : bool) (c : ascii) :
  whitelisted allow c = true <-> allowed allow c.
Proof.
  rewrite whitelisted_alphabet. unfold allowed. split.
  - intros H. apply orb_prop in H. destruct H as [H|H]; [now left|].
    apply andb_prop in H. destruct H as [H1 H2].
    apply Ascii.eqb_eq in H2. auto.
  - intros [H|[-> ->]]; [now rewrite H|].
    rewrite Ascii.eqb_refl. apply orb_true_r.
Qed.

Lemma all_whitelisted_allowed (allow : bool) (str : string) :
  all_whitelisted allow str = true <->
  (forall c, occurs c str = true -> allowed allow c).
Proof.
  induction str as [|a str IH]; simpl.
  - split; [discriminate | reflexivity].
  - destruct (whitelisted allow a) eqn:E.
    + rewrite IH. split.
      * intros H c Hc. apply orb_prop in Hc. destruct Hc as [Hc|Hc]; [|auto].
        apply Ascii.eqb_eq in Hc. subst c. now apply whitelisted_allowed.
      * intros H c Hc. apply H. rewrite Hc. apply orb_true_r.
    + split; [discriminate|]. intros H. exfalso.
      assert (X : allowed allow a) by (apply H; now rewrite Ascii.eqb_refl).
      apply whitelisted_allowed in X. congruence.
Qed.

Lemma all_whitelisted_refused (allow : bool) (str : string) :
  all_whitelisted allow str = false ->
  exists c, occurs c str = true /\ ~ allowed allow c.
Proof.
  induction str as [|a str IH]; simpl; [discriminate|].
  destruct (whitelisted allow a) eqn:E.
  - intros H. destruct (IH H) as (c & Hc & Hn). exists c.
    split; [rewrite Hc; apply orb_true_r | assumption].
  - intros _. exists a. split; [now rewrite Ascii.eqb_refl|].
    intros X. apply whitelisted_allowed in X. congruence.
Qed.

(** X1.  [whitelist_char_check] returns, leaving the state as it is,
    exactly when every byte of the string is an ASCII letter, a digit or
    one of [. _ + , -], or a slash when slashes are allowed; otherwise
    it prints the diagnostic that names the string and exits with the
    error code. *)
Theorem whitelist_char_check_alphabet (b : Build) (str : string)
  (allow_slashes : bool) (s : State) :
  ((forall c, occurs c str = true -> allowed allow_slashes c) /\
   whitelist_char_check b str allow_slashes s = Ok tt s) \/
  ((exists c, occurs c str = true /\ ~ allowed allow_slashes c) /\
   whitelist_char_check b str allow_slashes s
   = Halt (Exit (ERR_EXIT_CODE b)) (log (E_stderr (D_whitelist str)) s)).
Proof.
  unfold whitelist_char_check.
  destruct (all_whitelisted allow_slashes str) eqn:E.
  - left. split; [now apply all_whitelisted_allowed | reflexivity].
  - right. split; [now apply all_whitelisted_refused | reflexivity].
Qed.

(* ------------------------------ walk -------------------------------- *)

Lemma byte_at_truncate (i j : nat) (t : string) :
  byte_at j (truncate i t) = if (j <? i)%nat then byte_at j t else NUL.
Proof.
  revert j t; induction i as [|i IH]; intros j t.
  - now destruct j.
  - destruct t as [|a t].
    + destruct j; simpl; [reflexivity|]. now destruct (S j <? S i)%nat.
    + destruct j as [|j]; [reflexivity|]. simpl byte_at. rewrite IH.
      reflexivity.
Qed.

Lemma truncate_truncate (i j : nat) (t : string) :
  (j <= i)%nat -> truncate j (truncate i t) = truncate j t.
Proof.
  revert i t; induction j as [|j IH]; intros i t H; [now destruct i|].
  destruct i as [|i]; [lia|]. destruct t as [|a t]; simpl; [reflexivity|].
  rewrite IH; [reflexivity | lia].
Qed.

Lemma lacks_byte_at (c : ascii) (s : string) (j : nat) :
  c <> NUL -> lacks c s -> byte_at j s <> c.
Proof.
  intros Hc. revert j; induction s as [|a s IH]; intros j.
  - intros _. destruct j; simpl; congruence.
  - intros [H1 H2]. destruct j; simpl; [assumption | now apply IH].
Qed.

Lemma strrchr_last (s : string) (c : ascii) (i : nat) :
  c <> NUL -> strrchr s c = Some i ->
  forall j, (i < j)%nat -> byte_at j s <> c.
Proof.
  intros Hc. revert i; induction s as [|a s IH]; simpl; [discriminate|].
  intros i. destruct (strrchr s c) as [k|] eqn:E.
  - intros [= <-] j Hj. destruct j as [|j]; [lia|]. simpl.
    apply (IH k eq_refl). lia.
  - destruct (Ascii.eqb a c); [|discriminate]. intros [= <-] j Hj.
    destruct j as [|j]; [lia|]. simpl. apply lacks_byte_at; [assumption|].
    now apply strrchr_none.
Qed.

Lemma SLASH_not_NUL : SLASH <> NUL.
Proof. discriminate. Qed.

Section Walk.

Variable b : Build.
Variable w : World.

Ltac walk_halt :=
  right; split; [|eexists; reflexivity].

Lemma not_trusted_none (p : string) : w_lstat w p = None -> ~ trusted_dir w p.
Proof. intros H (st & E & _). congruence. Qed.

Lemma trusted_dir_tests (p : string) (st : stat) :
  w_lstat w p = Some st ->
  (trusted_dir w p <->
   negb (S_ISDIR (st_mode st)) = false /\ negb (st_uid st =? 0) = false /\
   loose (st_mode st) = false).
Proof.
  intros E. split.
  - intros (st' & E' & D & U & L). rewrite E in E'. injection E' as <-.
    rewrite D, U, L. auto.
  - intros (D & U & L). exists st.
    apply negb_false_iff in D, U. apply Z.eqb_eq in U. auto.
Qed.

Lemma check_base_path_loop_absolute (fuel : nat) :
  forall t s,
    (String.length t < fuel)%nat ->
    byte_at 0 t = SLASH ->
    (trusted_chain w t /\
     exists s', check_base_path_loop b w fuel t s = Ok tt s') \/
    (~ trusted_chain w t /\
     exists s', check_base_path_loop b w fuel t s
                = Halt (Exit (ERR_EXIT_CODE b)) s').
Proof.
  induction fuel as [|fuel IH]; intros t s Hlen H0; [lia|].
  simpl check_base_path_loop.
  destruct (strrchr t SLASH) as [i|] eqn:Hi.
  2:{ exfalso. revert Hi. apply strrchr_first; [assumption | discriminate]. }
  pose proof (strrchr_byte _ _ Hi) as Hb.
  pose proof (@strrchr_last _ _ _ SLASH_not_NUL Hi) as Hlast.
  pose proof (strrchr_lt _ _ Hi) as Hlt.
  destruct i as [|i]; cbn [Nat.eqb]; cbv zeta.
  - (* the last slash is the first byte *)
    assert (Hchain : trusted_chain w t <-> trusted_dir w t).
    { unfold trusted_chain. split.
      - intros [_ H]. apply H. intros j Hj. now apply Hlast.
      - intros H. split; [|auto]. intros j Hj Hs. exfalso.
        now apply (Hlast j Hj). }
    cbv beta iota delta [bind when ret fatal eprint emit exit lstat].
    destruct (w_lstat w t) as [st|] eqn:E.
    2:{ walk_halt. rewrite Hchain. now apply not_trusted_none. }
    rewrite (@trusted_dir_tests _ _ E) in Hchain.
    destruct (negb (S_ISDIR (st_mode st)));
      [walk_halt; rewrite Hchain; intuition discriminate|].
    destruct (negb (st_uid st =? 0));
      [walk_halt; rewrite Hchain; intuition discriminate|].
    destruct (loose (st_mode st));
      [walk_halt; rewrite Hchain; intuition discriminate|].
    left. split; [apply Hchain; auto | eexists; reflexivity].
  - (* the copy is cut at its last slash *)
    set (next := truncate (S i) t).
    assert (Hnext0 : byte_at 0 next = SLASH).
    { unfold next. rewrite byte_at_truncate. exact H0. }
    assert (Hnextlen : (String.length next < fuel)%nat).
    { unfold next. rewrite length_truncate; lia. }
    assert (Hdown : trusted_chain w t -> trusted_dir w next).
    { intros [H _]. apply H; [lia | assumption]. }
    assert (Hchain : trusted_dir w next ->
                     (trusted_chain w t <-> trusted_chain w next)).
    { intros Hd. unfold trusted_chain. split.
      - intros [H _]. split; [|auto]. intros j Hj Hs.
        unfold next in Hs. rewrite byte_at_truncate in Hs.
        destruct (Nat.ltb_spec j (S i)) as [Hji|]; [|discriminate Hs].
        unfold next. rewrite truncate_truncate by lia. now apply H.
      - intros [H _]. split.
        + intros j Hj Hs.
          destruct (Nat.lt_trichotomy j (S i)) as [Hji|[->|Hji]].
          * rewrite <- (@truncate_truncate (S i) j t) by lia. apply H; [lia|].
            fold next. unfold next. rewrite byte_at_truncate.
            apply Nat.ltb_lt in Hji. now rewrite Hji.
          * exact Hd.
          * exfalso. now apply (Hlast j Hji).
        + intros Hno. exfalso. apply (Hno (S i)); [lia | assumption]. }
    cbv beta iota delta [bind when ret fatal eprint emit exit lstat].
    destruct (w_lstat w next) as [st|] eqn:E.
    2:{ walk_halt. intros C. revert E. apply Hdown in C.
        destruct C as (st & -> & _). discriminate. }
    pose proof (@trusted_dir_tests _ _ E) as Ht.
    destruct (negb (S_ISDIR (st_mode st)));
      [walk_halt; intros C; apply Hdown, Ht in C; intuition discriminate|].
    destruct (negb (st_uid st =? 0));
      [walk_halt; intros C; apply Hdown, Ht in C; intuition discriminate|].
    destruct (loose (st_mode st));
      [walk_halt; intros C; apply Hdown, Ht in C; intuition discriminate|].
    assert (Hd : trusted_dir w next) by (apply Ht; auto).
    destruct (IH next (log (E_lstat next) s) Hnextlen Hnext0)
      as [[C R]|[C R]].
    + left. split; [now apply (Hchain Hd) | exact R].
    + right. split; [|exact R]. intros X. apply C. now apply (Hchain Hd).
Qed.

Lemma check_base_path_loop_relative (fuel : nat) :
  forall t s,
    (String.length t < fuel)%nat ->
    byte_at 0 t <> SLASH ->
    exists s', check_base_path_loop b w fuel t s
               = Halt (Exit (ERR_EXIT_CODE b)) s'.
Proof.
  induction fuel as [|fuel IH]; intros t s Hlen H0; [lia|].
  simpl check_base_path_loop.
  destruct (strrchr t SLASH) as [i|] eqn:Hi; [|eexists; reflexivity].
  pose proof (strrchr_byte _ _ Hi) as Hb.
  pose proof (strrchr_lt _ _ Hi) as Hlt.
  destruct i as [|i]; [contradiction|].
  cbn [Nat.eqb]; cbv zeta.
  cbv beta iota delta [bind when ret fatal eprint emit exit lstat].
  destruct (w_lstat w (truncate (S i) t)) as [st|]; [|eexists; reflexivity].
  destruct (negb (S_ISDIR (st_mode st))); [eexists; reflexivity|].
  destruct (negb (st_uid st =? 0)); [eexists; reflexivity|].
  destruct (loose (st_mode st)); [eexists; reflexivity|].
  apply IH.
  - rewrite length_truncate; lia.
  - now rewrite byte_at_truncate.
Qed.

End Walk.

(** X2.  On a path that begins with a slash, [check_base_path] returns
    exactly when link-level stat reports a directory owned by root and
    closed to group and others for every prefix of the path that ends
    just before a slash other than the first byte, or for the path
    itself when it holds no other slash; otherwise it exits with the
    error code.  Either way it has only looked: credentials and
    environment are unchanged and its calls are benign. *)
Theorem check_base_path_asks_every_ancestor (b : Build) (w : World)
  (path : string) (s : State) :
  byte_at 0 path = SLASH ->
  (trusted_chain w path /\
   exists s', check_base_path b w path s = Ok tt s' /\ extends s s') \/
  (~ trusted_chain w path /\
   exists s', check_base_path b w path s = Halt (Exit (ERR_EXIT_CODE b)) s' /\
              extends s s').
Proof.
  intros H0.
  pose proof (@frame_check_base_path b w path s) as (X & _).
  destruct (@check_base_path_loop_absolute b w (S (String.length path)) path s
              (Nat.lt_succ_diag_r _) H0) as [[C [s' R]]|[C [s' R]]];
    fold (check_base_path b w path) in R; rewrite R in X; simpl in X; eauto.
Qed.

(** On the host of scenario 1 the walk from [/srv/jails] asks for
    [/srv], which is a directory of root, and returns. *)
Lemma check_base_path_asks_every_ancestor_witness :
  byte_at 0 "/srv/jails" = SLASH /\
  trusted_chain Hosts.happy "/srv/jails" /\
  exists s', check_base_path Hosts.build Hosts.happy "/srv/jails"
               (initial Hosts.happy) = Ok tt s'.
Proof.
  split; [reflexivity|].
  destruct (@check_base_path_asks_every_ancestor Hosts.build Hosts.happy
              "/srv/jails" (initial Hosts.happy) eq_refl)
    as [[C (s' & R & _)]|[_ (s' & R & _)]].
  - split; [exact C | exists s'; exact R].
  - exfalso. vm_compute in R. discriminate R.
Defined.

(** X3.  On a path that does not begin with a slash, [check_base_path]
    never returns: it exits with the error code. *)
Theorem check_base_path_rejects_relative (b : Build) (w : World)
  (path : string) (s : State) :
  byte_at 0 path <> SLASH ->
  exists s', check_base_path b w path s = Halt (Exit (ERR_EXIT_CODE b)) s' /\
             extends s s'.
Proof.
  intros H0.
  pose proof (@frame_check_base_path b w path s) as (X & _).
  destruct (@check_base_path_loop_relative b w (S (String.length path)) path s
              (Nat.lt_succ_diag_r _) H0) as [s' R].
  fold (check_base_path b w path) in R. rewrite R in X. simpl in X. eauto.
Qed.

(** A configuration path given without its leading slash. *)
Lemma check_base_path_rejects_relative_witness :
  byte_at 0 "etc/userchroot.conf" <> SLASH /\
  exists s', check_base_path Hosts.build Hosts.happy "etc/userchroot.conf"
               (initial Hosts.happy)
             = Halt (Exit (ERR_EXIT_CODE Hosts.build)) s'.
Proof.
  assert (H : byte_at 0 "etc/userchroot.conf" <> SLASH) by discriminate.
  split; [exact H|].
  destruct (@check_base_path_rejects_relative Hosts.build Hosts.happy
              "etc/userchroot.conf" (initial Hosts.happy) H) as (s' & R & _).
  exists s'. exact R.
Defined.

(* ===================================================================== *)
(** ** The calls of a block, and the device provisioner *)
(* ===================================================================== *)

Lemma bind_ok {A B} (m : M A) (k : A -> M B) (s s' : State) (r : B) :
  bind m k s = Ok r s' ->
  exists a s1, m s = Ok a s1 /\ k a s1 = Ok r s'.
Proof.
  unfold bind. destruct (m s) as [a s1|o s1]; [eauto | discriminate].
Qed.

Section Emits.

Variable P : Event -> Prop.
Hypothesis P_stderr : forall d, P (E_stderr d).

Lemma emits_ret {A} (a : A) : emits P (ret a).
Proof. intros s. exists []. simpl. now rewrite app_nil_r. Qed.

Lemma emits_get {A} (f : State -> A) : emits P (fun s => Ok (f s) s).
Proof. intros s. exists []. simpl. now rewrite app_nil_r. Qed.

Lemma emits_exit {A} (rc : Z) : emits P (@exit A rc).
Proof. intros s. exists []. simpl. now rewrite app_nil_r. Qed.

Lemma emits_emit (e : Event) : P e -> emits P (emit e).
Proof. intros H s. exists [e]. simpl. auto. Qed.

(** The continuation is looked at only for results that the first
    block can return. *)
Lemma emits_bind_ok {A B} (m : M A) (k : A -> M B) :
  emits P m ->
  (forall a, (exists s s', m s = Ok a s') -> emits P (k a)) ->
  emits P (bind m k).
Proof.
  intros Hm Hk s. unfold bind. destruct (Hm s) as (t & L & F).
  destruct (m s) as [a s1|o s1] eqn:E; simpl in L.
  - destruct (Hk a (ex_intro _ s (ex_intro _ s1 E)) s1) as (u & L1 & F1).
    exists (t ++ u)%list. rewrite L1, L, app_assoc. split; [reflexivity|].
    apply Forall_app. auto.
  - exists t. simpl. auto.
Qed.

Lemma emits_bind {A B} (m : M A) (k : A -> M B) :
  emits P m -> (forall a, emits P (k a)) -> emits P (bind m k).
Proof. intros Hm Hk. apply emits_bind_ok; auto. Qed.

(** A system call logs one event and returns what the host answers. *)
Lemma emits_call {A B} (e : Event) (x : A) (k : A -> M B) :
  P e -> emits P (k x) -> emits P (bind (bind (emit e) (fun _ => ret x)) k).
Proof.
  intros He Hk s. unfold bind, emit, ret.
  destruct (Hk (log e s)) as (u & L & F). exists (e :: u). simpl in L.
  rewrite L, <- app_assoc. auto.
Qed.

Lemma emits_fatal (b : Build) {A} (d : Diag) : emits P (@fatal b A d).
Proof.
  apply emits_bind; [apply emits_emit, P_stderr | intros _; apply emits_exit].
Qed.

Lemma emits_eprint (d : Diag) : emits P (eprint d).
Proof. apply emits_emit, P_stderr. Qed.

Lemma emits_USAGE (b : Build) {A} : emits P (@USAGE b A).
Proof. apply emits_fatal. Qed.

Lemma emits_when (c : bool) (m : M unit) : emits P m -> emits P (when c m).
Proof. destruct c; simpl; [auto | intros _; apply emits_ret]. Qed.

(** [if (c) { ...; exit(...); }] followed by more: what follows runs
    only when [c] is false. *)
Lemma emits_guard (b : Build) {B} (c : bool) (d : Diag) (k : unit -> M B) :
  (c = false -> emits P (k tt)) -> emits P (bind (when c (fatal b d)) k).
Proof.
  intros Hk. destruct c.
  - intros s. exists [E_stderr d]. simpl. auto.
  - exact (Hk eq_refl).
Qed.

End Emits.

Section Steady.

Lemma steady_ret {A} (a : A) : steady (ret a).
Proof. intros s. auto. Qed.

Lemma steady_exit {A} (rc : Z) : steady (@exit A rc).
Proof. intros s. auto. Qed.

Lemma steady_emit (e : Event) : steady (emit e).
Proof. intros s. auto. Qed.

Lemma steady_bind {A B} (m : M A) (k : A -> M B) :
  steady m -> (forall a, steady (k a)) -> steady (bind m k).
Proof.
  intros Hm Hk s. unfold bind. destruct (Hm s) as [C E].
  destruct (m s) as [a s1|o s1]; simpl in *; [|auto].
  destruct (Hk a s1) as [C1 E1]. split; congruence.
Qed.

Lemma steady_when (c : bool) (m : M unit) : steady m -> steady (when c m).
Proof. destruct c; simpl; [auto | intros _; apply steady_ret]. Qed.

Lemma steady_fatal (b : Build) {A} (d : Diag) : steady (@fatal b A d).
Proof.
  apply steady_bind; [apply steady_emit | intros _; apply steady_exit].
Qed.

Lemma steady_eprint (d : Diag) : steady (eprint d).
Proof. apply steady_emit. Qed.

End Steady.

Section Errs.

Variable b : Build.

Lemma errs_ret {A} (a : A) : errs b (ret a).
Proof. intros s o [=]. Qed.

Lemma errs_emit (e : Event) : errs b (emit e).
Proof. intros s o [=]. Qed.

Lemma errs_exit {A} : errs b (@exit A (ERR_EXIT_CODE b)).
Proof. intros s o [= <-]. reflexivity. Qed.

Lemma errs_bind {A B} (m : M A) (k : A -> M B) :
  errs b m -> (forall a, errs b (k a)) -> errs b (bind m k).
Proof.
  intros Hm Hk s o. unfold bind. specialize (Hm s).
  destruct (m s) as [a s1|o1 s1]; simpl in *; [apply Hk | apply Hm].
Qed.

Lemma errs_when (c : bool) (m : M unit) : errs b m -> errs b (when c m).
Proof. destruct c; simpl; [auto | intros _; apply errs_ret]. Qed.

Lemma errs_fatal {A} (d : Diag) : errs b (@fatal b A d).
Proof. apply errs_bind; [apply errs_emit | intros _; apply errs_exit]. Qed.

Lemma errs_eprint (d : Diag) : errs b (eprint d).
Proof. apply errs_emit. Qed.

End Errs.

Create HintDb steady.
Create HintDb errs.

#[export] Hint Resolve steady_ret steady_exit steady_emit steady_when
  steady_fatal steady_eprint : steady.
#[export] Hint Resolve errs_ret errs_emit errs_exit errs_when errs_fatal
  errs_eprint : errs.

Ltac steady_tac :=
  repeat first
    [ solve [auto with steady]
    | match goal with
      | |- steady (match ?x with _ => _ end) => destruct x
      end
    | simple apply steady_bind; [|intros ?] ].

Ltac errs_tac :=
  repeat first
    [ solve [auto with errs]
    | match goal with
      | |- errs _ (match ?x with _ => _ end) => destruct x
      end
    | simple apply errs_bind; [|intros ?] ].

(* ------------------------- the provisioner -------------------------- *)

Section Provisioner.

Variable b : Build.
Variable w : World.

Lemma steady_create_fundamental_devices (cp : string) :
  steady (create_fundamental_devices b w cp).
Proof.
  unfold create_fundamental_devices, create_fundamental_device, sys_umask,
    umount2, rmdir, mkdir, chown, chmod, sys_stat, mount, mknod.
  steady_tac.
Qed.

Lemma steady_unlink_fundamental_devices (cp : string) :
  steady (unlink_fundamental_devices b w cp).
Proof.
  unfold unlink_fundamental_devices, unlink_fundamental_device, umount2,
    umount, rmdir, unlink.
  steady_tac.
Qed.

Lemma errs_create_fundamental_devices (cp : string) :
  errs b (create_fundamental_devices b w cp).
Proof.
  unfold create_fundamental_devices, create_fundamental_device, sys_umask,
    umount2, rmdir, mkdir, chown, chmod, sys_stat, mount, mknod.
  errs_tac.
Qed.

Lemma errs_unlink_fundamental_devices (cp : string) :
  errs b (unlink_fundamental_devices b w cp).
Proof.
  unfold unlink_fundamental_devices, unlink_fundamental_device, umount2,
    umount, rmdir, unlink.
  errs_tac.
Qed.

Lemma install_call_stderr (cp : string) (d : Diag) :
  install_call w cp (E_stderr d).
Proof. split; exact I. Qed.

Lemma install_call_stat (cp p : string) : install_call w cp (E_stat p).
Proof. split; exact I. Qed.

Lemma device_path (cp d : string) :
  In d (DEVICES ++ [SHM])%list ->
  exists d', In d' (DEVICES ++ [SHM])%list /\ Some (cp ++ d) = Some (cp ++ d').
Proof. intros H. exists d. auto. Qed.

Lemma In_DEVICES_all (d : string) :
  In d DEVICES -> In d (DEVICES ++ [SHM])%list.
Proof. intros H. apply in_or_app. now left. Qed.

Lemma In_SHM_all : In SHM (DEVICES ++ [SHM])%list.
Proof. apply in_or_app. right. now left. Qed.

Lemma emits_create_fundamental_device (cp d : string) :
  In d DEVICES ->
  emits (install_call w cp) (create_fundamental_device b w cp d).
Proof.
  intros Hd. pose proof (@In_DEVICES_all d Hd) as Hd'.
  unfold create_fundamental_device. cbv zeta.
  unfold sys_stat, mkdir, mount, mknod.
  apply emits_call; [apply install_call_stat|].
  destruct (w_stat w (cp ++ d)) as [st0|] eqn:E0;
    [apply emits_fatal, install_call_stderr|].
  apply emits_call; [apply install_call_stat|].
  destruct (w_stat w d) as [st|] eqn:E1;
    [|apply emits_fatal, install_call_stderr].
  destruct (USE_MOUNT_LOFS_INSTEAD_OF_MKNOD b).
  - apply emits_call.
    { split; [now apply device_path | left; auto]. }
    apply emits_bind;
      [apply emits_when, emits_eprint, install_call_stderr | intros _].
    apply emits_call.
    { split; [now apply device_path|]. left.
      repeat (split; [reflexivity || assumption|]). congruence. }
    apply emits_when, emits_fatal, install_call_stderr.
  - apply emits_call.
    { split; [now apply device_path|]. split; [assumption|].
      exists d, st. auto. }
    apply emits_when, emits_fatal, install_call_stderr.
Qed.

Lemma emits_create_fundamental_devices (cp : string) :
  emits (install_call w cp) (create_fundamental_devices b w cp).
Proof.
  unfold create_fundamental_devices.
  unfold sys_umask at 1.
  apply emits_call; [split; [exact I | now left]|].
  apply emits_bind;
    [apply emits_create_fundamental_device; simpl; tauto | intros _].
  apply emits_bind;
    [apply emits_create_fundamental_device; simpl; tauto | intros _].
  apply emits_bind;
    [apply emits_create_fundamental_device; simpl; tauto | intros _].
  apply emits_bind;
    [apply emits_create_fundamental_device; simpl; tauto | intros _].
  apply emits_bind.
  2:{ intros _. unfold sys_umask.
      apply emits_call; [split; [exact I | now right] | apply emits_ret]. }
  destruct (LINUX b); [|apply emits_ret].
  cbv zeta. change (Z.lor 511 S_ISVTX) with 1023.
  fold SHM.
  pose proof (@device_path cp SHM In_SHM_all) as Hp.
  unfold umount2, rmdir, mkdir, chown, chmod, sys_stat, mount.
  apply emits_call; [split; [exact Hp | exact I]|].
  apply emits_call; [split; [exact Hp | exact I]|].
  apply emits_call; [split; [exact Hp | right; auto]|].
  apply emits_call; [split; [exact Hp | exact I]|].
  apply emits_guard; [apply install_call_stderr | intros Hchown].
  apply emits_call; [split; [exact Hp | reflexivity]|].
  apply emits_guard; [apply install_call_stderr | intros Hchmod].
  apply emits_call; [apply install_call_stat|].
  destruct (w_stat w (cp ++ SHM)) as [st|] eqn:E;
    [|apply emits_fatal, install_call_stderr].
  apply emits_guard; [apply install_call_stderr | intros Hdir].
  apply emits_guard; [apply install_call_stderr | intros Hperms].
  apply emits_call; [|apply emits_when, emits_fatal, install_call_stderr].
  split; [exact Hp|]. right.
  apply Z.ltb_ge in Hchown, Hchmod.
  apply negb_false_iff in Hdir, Hperms. apply Z.eqb_eq in Hperms.
  repeat (split; [reflexivity || assumption|]).
  exists st. auto.
Qed.

Lemma emits_unlink_fundamental_device (cp d : string) :
  In d DEVICES ->
  emits (provisioner_call cp) (unlink_fundamental_device b w cp d).
Proof.
  intros Hd. pose proof (@device_path cp d (@In_DEVICES_all d Hd)) as Hp.
  assert (Hs : forall x, provisioner_call cp (E_stderr x)) by (intros; exact I).
  unfold unlink_fundamental_device. cbv zeta.
  unfold umount, rmdir, unlink.
  destruct (USE_MOUNT_LOFS_INSTEAD_OF_MKNOD b).
  - apply emits_call; [exact Hp|].
    apply emits_guard; [exact Hs | intros _].
    apply emits_call; [exact Hp|].
    apply emits_guard; [exact Hs | intros _].
    apply emits_call; [exact Hp | apply emits_ret].
  - apply emits_call; [exact Hp|].
    apply emits_when, emits_fatal, Hs.
Qed.

Lemma emits_unlink_fundamental_devices (cp : string) :
  emits (provisioner_call cp) (unlink_fundamental_devices b w cp).
Proof.
  assert (Hs : forall x, provisioner_call cp (E_stderr x)) by (intros; exact I).
  unfold unlink_fundamental_devices.
  apply emits_bind;
    [apply emits_unlink_fundamental_device; simpl; tauto | intros _].
  apply emits_bind;
    [apply emits_unlink_fundamental_device; simpl; tauto | intros _].
  apply emits_bind;
    [apply emits_unlink_fundamental_device; simpl; tauto | intros _].
  apply emits_bind;
    [apply emits_unlink_fundamental_device; simpl; tauto | intros _].
  apply emits_bind; [|intros _; apply emits_ret].
  destruct (LINUX b); [|apply emits_ret].
  cbv zeta. fold SHM.
  pose proof (@device_path cp SHM In_SHM_all) as Hp.
  unfold umount2, rmdir.
  apply emits_call; [exact Hp|].
  apply emits_guard; [exact Hs | intros _].
  apply emits_call; [exact Hp|].
  apply emits_when, emits_fatal, Hs.
Qed.

Lemma emits_weaken (P Q : Event -> Prop) {A} (m : M A) :
  (forall e, P e -> Q e) -> emits P m -> emits Q m.
Proof.
  intros H Hm s. destruct (Hm s) as (t & L & F). exists t.
  split; [assumption|]. eapply Forall_impl; eauto.
Qed.

End Provisioner.

(** X15.  [create_fundamental_devices] calls [mknod] only on
    [chroot_path] followed by one of the four device paths, only where
    [stat] found nothing, and with the mode and device number that
    [stat] reports for the host's device of that path; in the lofs
    build the same holds of its lofs mounts. *)
Theorem install_creates_only_missing_nodes (b : Build) (w : World)
  (chroot_path : string) (s : State) :
  exists t,
    s_log (state_of (create_fundamental_devices b w chroot_path s))
    = (s_log s ++ t)%list /\
    (forall p mode rdev rc,
       In (E_mknod p mode rdev rc) t ->
       w_stat w p = None /\
       exists d st,
         In d DEVICES /\ p = chroot_path ++ d /\ w_stat w d = Some st /\
         mode = st_mode st /\ rdev = st_rdev st) /\
    (forall src tgt rc,
       In (E_mount src tgt "lofs" rc) t ->
       In src DEVICES /\ tgt = chroot_path ++ src /\
       w_stat w tgt = None /\ w_stat w src <> None).
Proof.
  destruct (@emits_create_fundamental_devices b w chroot_path s)
    as (t & L & F).
  exists t. split; [exact L|]. rewrite Forall_forall in F. split.
  - intros p mode rdev rc Hin. destruct (F _ Hin) as [_ H]. exact H.
  - intros src tgt rc Hin. destruct (F _ Hin) as [_ [H|H]].
    + destruct H as (_ & H). exact H.
    + destruct H as (H & _). discriminate H.
Qed.

(** X16.  [create_fundamental_devices] mounts [tmpfs] only on
    [chroot_path/dev/shm], and only after [chown] and [chmod] on it did
    not fail and [stat] reported it as a directory with all of mode
    01777 set. *)
Theorem tmpfs_is_mounted_on_verified_directory (b : Build) (w : World)
  (chroot_path : string) (s : State) :
  exists t,
    s_log (state_of (create_fundamental_devices b w chroot_path s))
    = (s_log s ++ t)%list /\
    forall src tgt rc,
      In (E_mount src tgt "tmpfs" rc) t ->
      src = "tmpfs" /\ tgt = chroot_path ++ "/dev/shm" /\
      0 <= w_chown w tgt /\ 0 <= w_chmod w tgt /\
      exists st,
        w_stat w tgt = Some st /\ S_ISDIR (st_mode st) = true /\
        Z.land (st_mode st) (Z.lor 511 S_ISVTX) = Z.lor 511 S_ISVTX.
Proof.
  destruct (@emits_create_fundamental_devices b w chroot_path s)
    as (t & L & F).
  exists t. split; [exact L|]. rewrite Forall_forall in F.
  intros src tgt rc Hin. destruct (F _ Hin) as [_ [H|H]].
  - destruct H as (H & _). discriminate H.
  - destruct H as (_ & H). exact H.
Qed.

Section ProvisionerReturns.

Variable b : Build.
Variable w : World.

Lemma emit_ret_ok {A} (e : Event) (x a : A) (s s' : State) :
  bind (emit e) (fun _ => ret x) s = Ok a s' -> a = x /\ s' = log e s.
Proof. unfold bind, emit, ret. intros [= <- <-]. auto. Qed.

Lemma guard_ok (c : bool) (d : Diag) (u : unit) (s s' : State) :
  when c (@fatal b unit d) s = Ok u s' -> c = false /\ s' = s.
Proof. destruct c; simpl; [discriminate|]. unfold ret. intros [= <-]. auto. Qed.

Lemma create_fundamental_device_returns (cp d : string) (s s' : State) :
  create_fundamental_device b w cp d s = Ok tt s' ->
  exists t,
    s_log s' = (s_log s ++ t)%list /\
    (USE_MOUNT_LOFS_INSTEAD_OF_MKNOD b = false ->
     exists mode rdev, In (E_mknod (cp ++ d) mode rdev 0) t) /\
    (USE_MOUNT_LOFS_INSTEAD_OF_MKNOD b = true ->
     In (E_mount d (cp ++ d) "lofs" 0) t).
Proof.
  unfold create_fundamental_device. cbv zeta.
  unfold sys_stat, mkdir, mount, mknod.
  cbv beta iota delta [bind emit ret when fatal eprint exit].
  destruct (w_stat w (cp ++ d)); [discriminate|].
  destruct (w_stat w d) as [st|]; [|discriminate].
  destruct (USE_MOUNT_LOFS_INSTEAD_OF_MKNOD b).
  - destruct (negb (w_mkdir w (cp ++ d) =? 0));
      (destruct (w_mount w (cp ++ d) =? 0) eqn:E; simpl; [|discriminate]);
      apply Z.eqb_eq in E; rewrite E; intros [= <-]; simpl;
      eexists; (split; [rewrite <- ?app_assoc; simpl; reflexivity|]);
      (split; [discriminate|]); intros _; simpl; tauto.
  - destruct (w_mknod w (cp ++ d) =? 0) eqn:E; simpl; [|discriminate].
    apply Z.eqb_eq in E. rewrite E. intros [= <-]. simpl.
    eexists. split; [rewrite <- ?app_assoc; simpl; reflexivity|].
    split; [|discriminate]. intros _. do 2 eexists. simpl. eauto.
Qed.

Lemma unlink_fundamental_device_returns (cp d : string) (s s' : State) :
  unlink_fundamental_device b w cp d s = Ok tt s' ->
  exists t,
    s_log s' = (s_log s ++ t)%list /\
    (USE_MOUNT_LOFS_INSTEAD_OF_MKNOD b = false ->
     In (E_unlink (cp ++ d) 0) t) /\
    (USE_MOUNT_LOFS_INSTEAD_OF_MKNOD b = true ->
     In (E_umount (cp ++ d) 0) t /\ In (E_rmdir (cp ++ d) 0) t).
Proof.
  unfold unlink_fundamental_device. cbv zeta.
  unfold umount, rmdir, unlink.
  cbv beta iota delta [bind emit ret when fatal eprint exit].
  destruct (USE_MOUNT_LOFS_INSTEAD_OF_MKNOD b).
  - destruct (w_umount w (cp ++ d) =? 0) eqn:E1; simpl; [|discriminate].
    destruct (w_rmdir w (cp ++ d) =? 0) eqn:E2; simpl; [|discriminate].
    apply Z.eqb_eq in E1, E2. rewrite E1, E2. intros [= <-]. simpl.
    eexists. split; [rewrite <- ?app_assoc; simpl; reflexivity|].
    split; [discriminate|]. intros _. simpl. tauto.
  - destruct (w_unlink w (cp ++ d) =? 0) eqn:E; simpl; [|discriminate].
    apply Z.eqb_eq in E. rewrite E. intros [= <-]. simpl.
    eexists. split; [reflexivity|].
    split; [|discriminate]. intros _. simpl. tauto.
Qed.

End ProvisionerReturns.

Section ProvisionerWhole.

Variable b : Build.
Variable w : World.

Lemma shm_setup_returns (cp : string) (s s' : State) :
  (if LINUX b then
     let fullpath := cp ++ "/dev/shm" in
     let perms := Z.lor 511 S_ISVTX in
     _ <- umount2 w fullpath ;;
     _ <- rmdir w fullpath ;;
     _ <- mkdir w fullpath perms ;;
     rc <- chown w fullpath ;;
     when (rc <? 0) (fatal b (D_dev_chown fullpath)) ;;
     rc <- chmod w fullpath perms ;;
     when (rc <? 0) (fatal b (D_dev_chmod fullpath)) ;;
     statbuf <- sys_stat w fullpath ;;
     match statbuf with
     | None => fatal b (D_dev_stat fullpath)
     | Some statbuf =>
         when (negb (S_ISDIR (st_mode statbuf))) (fatal b (D_dev_not_dir fullpath)) ;;
         when (negb (Z.land (st_mode statbuf) perms =? perms))
              (fatal b (D_dev_perms fullpath)) ;;
         rc <- mount w "tmpfs" fullpath "tmpfs" ;;
         when (rc <? 0) (fatal b (D_dev_mount fullpath))
     end
   else ret tt) s = Ok tt s' ->
  exists t,
    s_log s' = (s_log s ++ t)%list /\
    (LINUX b = true ->
     exists rc, 0 <= rc /\ In (E_mount "tmpfs" (cp ++ "/dev/shm") "tmpfs" rc) t).
Proof.
  destruct (LINUX b).
  2:{ cbv iota. unfold ret. intros H. injection H as <-. exists [].
      split; [now rewrite app_nil_r | discriminate]. }
  cbv zeta. change (Z.lor 511 S_ISVTX) with 1023.
  unfold umount2, rmdir, mkdir, chown, chmod, sys_stat, mount.
  cbv beta iota delta [bind emit ret when fatal eprint exit].
  destruct (w_chown w (cp ++ "/dev/shm") <? 0); simpl; [discriminate|].
  destruct (w_chmod w (cp ++ "/dev/shm") <? 0); simpl; [discriminate|].
  destruct (w_stat w (cp ++ "/dev/shm")) as [st|]; [|discriminate].
  destruct (negb (S_ISDIR (st_mode st))); simpl; [discriminate|].
  destruct (negb (Z.land (st_mode st) 1023 =? 1023)); simpl; [discriminate|].
  destruct (w_mount w (cp ++ "/dev/shm") <? 0) eqn:E; simpl; [discriminate|].
  apply Z.ltb_ge in E. intros [= <-]. simpl.
  eexists. split; [rewrite <- ?app_assoc; simpl; reflexivity|].
  intros _. exists (w_mount w (cp ++ "/dev/shm")). split; [exact E|].
  simpl. tauto.
Qed.

Lemma shm_teardown_returns (cp : string) (s s' : State) :
  (if LINUX b then
     let fullpath := cp ++ "/dev/shm" in
     rc <- umount2 w fullpath ;;
     when (rc <? 0) (fatal b (D_dev_umount fullpath)) ;;
     rc <- rmdir w fullpath ;;
     when (rc <? 0) (fatal b (D_dev_rmdir fullpath))
   else ret tt) s = Ok tt s' ->
  exists t,
    s_log s' = (s_log s ++ t)%list /\
    (LINUX b = true ->
     exists rc1 rc2,
       0 <= rc1 /\ 0 <= rc2 /\
       In (E_umount2 (cp ++ "/dev/shm") rc1) t /\
       In (E_rmdir (cp ++ "/dev/shm") rc2) t).
Proof.
  destruct (LINUX b).
  2:{ cbv iota. unfold ret. intros H. injection H as <-. exists [].
      split; [now rewrite app_nil_r | discriminate]. }
  cbv zeta. unfold umount2, rmdir.
  cbv beta iota delta [bind emit ret when fatal eprint exit].
  destruct (w_umount w (cp ++ "/dev/shm") <? 0) eqn:E1; simpl; [discriminate|].
  destruct (w_rmdir w (cp ++ "/dev/shm") <? 0) eqn:E2; simpl; [discriminate|].
  apply Z.ltb_ge in E1, E2. intros [= <-]. simpl.
  eexists. split; [rewrite <- ?app_assoc; simpl; reflexivity|].
  intros _. exists (w_umount w (cp ++ "/dev/shm")), (w_rmdir w (cp ++ "/dev/shm")).
  simpl. tauto.
Qed.

End ProvisionerWhole.

Lemma create_fundamental_devices_returns (b : Build) (w : World)
  (chroot_path : string) (s s' : State) (rc : Z) :
  create_fundamental_devices b w chroot_path s = Ok rc s' ->
  rc = 0 /\
  exists t,
    s_log s' = (s_log s ++ E_umask 56 :: t ++ [E_umask (w_umask w)])%list /\
    (forall d, In d DEVICES ->
       if USE_MOUNT_LOFS_INSTEAD_OF_MKNOD b
       then In (E_mount d (chroot_path ++ d) "lofs" 0) t
       else exists mode rdev, In (E_mknod (chroot_path ++ d) mode rdev 0) t) /\
    (LINUX b = true ->
     exists r, 0 <= r /\
               In (E_mount "tmpfs" (chroot_path ++ "/dev/shm") "tmpfs" r) t).
Proof.
  unfold create_fundamental_devices. intros H.
  apply bind_ok in H as (om & s0 & H0 & H).
  apply emit_ret_ok in H0 as [-> ->].
  apply bind_ok in H as ([] & s1 & H1 & H).
  apply bind_ok in H as ([] & s2 & H2 & H).
  apply bind_ok in H as ([] & s3 & H3 & H).
  apply bind_ok in H as ([] & s4 & H4 & H).
  apply bind_ok in H as ([] & s5 & H5 & H).
  apply bind_ok in H as (x & s6 & H6 & H).
  apply emit_ret_ok in H6 as [-> ->].
  unfold ret in H. injection H as <- <-.
  apply create_fundamental_device_returns in H1 as (t1 & L1 & M1 & N1).
  apply create_fundamental_device_returns in H2 as (t2 & L2 & M2 & N2).
  apply create_fundamental_device_returns in H3 as (t3 & L3 & M3 & N3).
  apply create_fundamental_device_returns in H4 as (t4 & L4 & M4 & N4).
  apply shm_setup_returns in H5 as (t5 & L5 & M5).
  split; [reflexivity|].
  exists (t1 ++ t2 ++ t3 ++ t4 ++ t5)%list. split.
  { simpl. rewrite L5, L4, L3, L2, L1. simpl.
    rewrite <- !app_assoc. reflexivity. }
  split.
  - intros d Hd. simpl in Hd.
    destruct (USE_MOUNT_LOFS_INSTEAD_OF_MKNOD b).
    + specialize (N1 eq_refl). specialize (N2 eq_refl).
      specialize (N3 eq_refl). specialize (N4 eq_refl).
      rewrite !in_app_iff.
      destruct Hd as [<-|[<-|[<-|[<-|[]]]]]; tauto.
    + destruct (M1 eq_refl) as (m1 & r1 & I1).
      destruct (M2 eq_refl) as (m2 & r2 & I2).
      destruct (M3 eq_refl) as (m3 & r3 & I3).
      destruct (M4 eq_refl) as (m4 & r4 & I4).
      destruct Hd as [<-|[<-|[<-|[<-|[]]]]]; do 2 eexists;
        rewrite !in_app_iff; eauto 10.
  - intros HL. destruct (M5 HL) as (r & Hr & I5). exists r.
    split; [assumption|]. rewrite !in_app_iff. tauto.
Qed.

Lemma unlink_fundamental_devices_returns (b : Build) (w : World)
  (chroot_path : string) (s s' : State) (rc : Z) :
  unlink_fundamental_devices b w chroot_path s = Ok rc s' ->
  rc = 0 /\
  exists t,
    s_log s' = (s_log s ++ t)%list /\
    (forall d, In d DEVICES ->
       if USE_MOUNT_LOFS_INSTEAD_OF_MKNOD b
       then In (E_umount (chroot_path ++ d) 0) t /\
            In (E_rmdir (chroot_path ++ d) 0) t
       else In (E_unlink (chroot_path ++ d) 0) t) /\
    (LINUX b = true ->
     exists rc1 rc2,
       0 <= rc1 /\ 0 <= rc2 /\
       In (E_umount2 (chroot_path ++ "/dev/shm") rc1) t /\
       In (E_rmdir (chroot_path ++ "/dev/shm") rc2) t).
Proof.
  unfold unlink_fundamental_devices. intros H.
  apply bind_ok in H as ([] & s1 & H1 & H).
  apply bind_ok in H as ([] & s2 & H2 & H).
  apply bind_ok in H as ([] & s3 & H3 & H).
  apply bind_ok in H as ([] & s4 & H4 & H).
  apply bind_ok in H as ([] & s5 & H5 & H).
  unfold ret in H. injection H as <- <-.
  apply unlink_fundamental_device_returns in H1 as (t1 & L1 & M1 & N1).
  apply unlink_fundamental_device_returns in H2 as (t2 & L2 & M2 & N2).
  apply unlink_fundamental_device_returns in H3 as (t3 & L3 & M3 & N3).
  apply unlink_fundamental_device_returns in H4 as (t4 & L4 & M4 & N4).
  apply shm_teardown_returns in H5 as (t5 & L5 & M5).
  split; [reflexivity|].
  exists (t1 ++ t2 ++ t3 ++ t4 ++ t5)%list. split.
  { rewrite L5, L4, L3, L2, L1. rewrite <- !app_assoc. reflexivity. }
  split.
  - intros d Hd. simpl in Hd.
    destruct (USE_MOUNT_LOFS_INSTEAD_OF_MKNOD b).
    + specialize (N1 eq_refl). specialize (N2 eq_refl).
      specialize (N3 eq_refl). specialize (N4 eq_refl).
      rewrite !in_app_iff.
      destruct Hd as [<-|[<-|[<-|[<-|[]]]]]; tauto.
    + specialize (M1 eq_refl). specialize (M2 eq_refl).
      specialize (M3 eq_refl). specialize (M4 eq_refl).
      rewrite !in_app_iff.
      destruct Hd as [<-|[<-|[<-|[<-|[]]]]]; tauto.
  - intros HL. destruct (M5 HL) as (r1 & r2 & Hr1 & Hr2 & I1 & I2).
    exists r1, r2. rewrite !in_app_iff. tauto.
Qed.

(** X17.  When [create_fundamental_devices] returns, it returns 0 with
    the credentials unchanged; its first call was [umask(0070)] and its
    last restored the mask that call returned; in between each of the
    four devices was created by a [mknod] that returned 0 (a lofs mount
    that returned 0 in the lofs build), and on Linux [tmpfs] was mounted
    on [chroot_path/dev/shm] without failure. *)
Theorem install_returns_after_all_nodes (b : Build) (w : World)
  (chroot_path : string) (s s' : State) (rc : Z) :
  create_fundamental_devices b w chroot_path s = Ok rc s' ->
  rc = 0 /\ s_cred s' = s_cred s /\
  exists t,
    s_log s' = (s_log s ++ E_umask 56 :: t ++ [E_umask (w_umask w)])%list /\
    (forall d, In d DEVICES ->
       if USE_MOUNT_LOFS_INSTEAD_OF_MKNOD b
       then In (E_mount d (chroot_path ++ d) "lofs" 0) t
       else exists mode rdev, In (E_mknod (chroot_path ++ d) mode rdev 0) t) /\
    (LINUX b = true ->
     exists r, 0 <= r /\
               In (E_mount "tmpfs" (chroot_path ++ "/dev/shm") "tmpfs" r) t).
Proof.
  intros H.
  destruct (@steady_create_fundamental_devices b w chroot_path s) as [C _].
  rewrite H in C. simpl in C.
  apply create_fundamental_devices_returns in H as (-> & N).
  split; [reflexivity|]. split; [exact C | exact N].
Qed.

(** X18.  When [unlink_fundamental_devices] returns, it returns 0 with
    the credentials unchanged, and each of the four devices was removed
    by an [unlink] that returned 0 (by [umount] and [rmdir] that
    returned 0 in the lofs build); on Linux [chroot_path/dev/shm] was
    unmounted and removed without failure. *)
Theorem uninstall_returns_after_all_nodes (b : Build) (w : World)
  (chroot_path : string) (s s' : State) (rc : Z) :
  unlink_fundamental_devices b w chroot_path s = Ok rc s' ->
  rc = 0 /\ s_cred s' = s_cred s /\
  exists t,
    s_log s' = (s_log s ++ t)%list /\
    (forall d, In d DEVICES ->
       if USE_MOUNT_LOFS_INSTEAD_OF_MKNOD b
       then In (E_umount (chroot_path ++ d) 0) t /\
            In (E_rmdir (chroot_path ++ d) 0) t
       else In (E_unlink (chroot_path ++ d) 0) t) /\
    (LINUX b = true ->
     exists rc1 rc2,
       0 <= rc1 /\ 0 <= rc2 /\
       In (E_umount2 (chroot_path ++ "/dev/shm") rc1) t /\
       In (E_rmdir (chroot_path ++ "/dev/shm") rc2) t).
Proof.
  intros H.
  destruct (@steady_unlink_fundamental_devices b w chroot_path s) as [C _].
  rewrite H in C. simpl in C.
  apply unlink_fundamental_devices_returns in H as (-> & N).
  split; [reflexivity|]. split; [exact C | exact N].
Qed.

(* ===================================================================== *)
(** ** Clearing the environment, and what a run has checked *)
(* ===================================================================== *)

Lemma strcspn_eq_name (e : string) :
  (strcspn_eq e =? 0)%nat = (String.length (env_name e) =? 0)%nat.
Proof.
  unfold env_name. rewrite length_truncate by apply strcspn_eq_le.
  reflexivity.
Qed.

Lemma strncmp_eq_head (e t : string) (a : ascii) (n : nat) :
  Ascii.eqb a NUL = false ->
  strncmp_eq e (String a t) (S n) = true -> exists e', e = String a e'.
Proof.
  intros Ha. destruct e as [|x e]; simpl; [congruence|].
  destruct (Ascii.eqb x a) eqn:E; [|discriminate].
  apply Ascii.eqb_eq in E. subst x. eauto.
Qed.

(** An entry that [unsetenv] removes for the name of an entry that has
    one has a name itself. *)
Lemma is_variable_named (first e : string) :
  (strcspn_eq first =? 0)%nat = false ->
  is_variable (env_name first) e = true -> namedb e = true.
Proof.
  intros Hz H. unfold is_variable in H. apply andb_prop in H.
  destruct H as [H _]. rewrite strlen_env_name in H.
  unfold env_name in H.
  destruct first as [|a first]; [discriminate|].
  cbn [strcspn_eq] in H, Hz.
  destruct (Ascii.eqb a NUL) eqn:E1; [discriminate|].
  destruct (Ascii.eqb a "=") eqn:E2; [discriminate|].
  cbn [truncate] in H.
  destruct (@strncmp_eq_head _ _ _ _ E1 H) as (e' & ->).
  unfold namedb. simpl. now rewrite E1, E2.
Qed.

Lemma namedb_filter (first : string) (l : list string) :
  (strcspn_eq first =? 0)%nat = false ->
  forallb namedb
    (filter (fun e => negb (is_variable (env_name first) e)) l)
  = forallb namedb l.
Proof.
  intros Hz. induction l as [|e l IH]; simpl; [reflexivity|].
  destruct (is_variable (env_name first) e) eqn:E; simpl.
  - rewrite IH. now rewrite (is_variable_named first e Hz E).
  - now rewrite IH.
Qed.

Lemma Forall_filter {A} (P : A -> Prop) (f : A -> bool) (l : list A) :
  Forall P l -> Forall P (filter f l).
Proof.
  intros H. apply Forall_forall. intros x Hin.
  apply filter_In in Hin. rewrite Forall_forall in H. now apply H.
Qed.

Section ClearenvRun.

Variable b : Build.

(** On an environment whose entries all hold an [=] the loop ends: with
    the environment empty when every entry has a name, by [exit] at the
    first entry that has none. *)
Lemma unsetenv_loop_run (fuel : nat) :
  forall s,
    (List.length (s_environ s) < fuel)%nat ->
    Forall (fun e => strchr e "=" = true) (s_environ s) ->
    exists t s',
      Forall (fun e => exists name, e = E_unsetenv name 0) t /\
      (List.length t <= List.length (s_environ s))%nat /\
      s_cred s' = s_cred s /\ s_cfg s' = s_cfg s /\ s_eof s' = s_eof s /\
      if forallb namedb (s_environ s) then
        unsetenv_loop b fuel s = Ok tt s' /\ s_environ s' = [] /\
        s_log s' = (s_log s ++ t)%list
      else
        unsetenv_loop b fuel s = Halt (Exit (ERR_EXIT_CODE b)) s' /\
        s_log s' = (s_log s ++ t ++ [E_stderr D_corrupted_env])%list.
Proof.
  induction fuel as [|fuel IH]; intros s Hlen Hwf; [lia|].
  destruct (s_environ s) as [|first rest] eqn:Henv.
  { exists [], s. simpl. unfold bind at 1, environ. rewrite Henv. simpl.
    rewrite app_nil_r. split; [constructor|]. auto 10. }
  simpl forallb. unfold namedb at 1.
  destruct (strcspn_eq first =? 0)%nat eqn:Hz; simpl negb; cbv iota.
  { exists [], (log (E_stderr D_corrupted_env) s).
    simpl. unfold bind at 1, environ. rewrite Henv, Hz. simpl.
    split; [constructor|]. split; [lia|].
    repeat (split; [reflexivity|]). reflexivity. }
  inversion Hwf as [|? ? Hc Hrest]; subst.
  rewrite (unsetenv_loop_step b fuel s Henv Hz).
  simpl filter. rewrite is_variable_env_name, Hc. simpl negb. cbv iota.
  simpl andb.
  rewrite <- (@namedb_filter first rest Hz).
  pose proof (filter_length_le
                (fun e => negb (is_variable (env_name first) e)) rest) as Hfl.
  match goal with
  | |- context [unsetenv_loop b fuel ?s1] =>
      destruct (IH s1) as (t & s' & F & Lt & C & G & E & R)
  end.
  { simpl. simpl in Hlen. lia. }
  { simpl. now apply Forall_filter. }
  simpl in Lt, C, G, E, R.
  exists (E_unsetenv (env_name first) 0 :: t), s'.
  split; [constructor; [eauto | assumption]|].
  split; [simpl; lia|].
  repeat (split; [assumption|]).
  destruct (forallb namedb
              (filter (fun e => negb (is_variable (env_name first) e)) rest)).
  - destruct R as (R & V & L). rewrite L, <- app_assoc. auto.
  - destruct R as (R & L). rewrite L, <- app_assoc. auto.
Qed.

(** Both builds of [portable_clearenv], on an environment that can be
    emptied. *)
Lemma portable_clearenv_run (s : State) :
  clearable b (s_environ s) ->
  exists t s',
    Forall env_call t /\
    s_cred s' = s_cred s /\ s_cfg s' = s_cfg s /\ s_eof s' = s_eof s /\
    ((portable_clearenv b s = Ok tt s' /\ s_environ s' = [] /\
      s_log s' = (s_log s ++ t)%list) \/
     (portable_clearenv b s = Halt (Exit (ERR_EXIT_CODE b)) s' /\
      s_log s' = (s_log s ++ t ++ [E_stderr D_corrupted_env])%list)).
Proof.
  intros Hc. unfold portable_clearenv. destruct (HAVE_CLEARENV b) eqn:Hb.
  - exists [E_clearenv], (log E_clearenv (with_environ_null s)).
    unfold bind, clearenv. simpl.
    split; [constructor; [now left | constructor]|]. auto 10.
  - destruct Hc as [Hc|Hwf]; [rewrite Hb in Hc; discriminate|].
    destruct (@unsetenv_loop_run (S (List.length (s_environ s))) s
                (Nat.lt_succ_diag_r _) Hwf)
      as (t & s' & F & _ & C & G & E & R).
    exists t, s'.
    split; [revert F; apply Forall_impl; intros e H; now right|].
    repeat (split; [assumption|]).
    destruct (forallb namedb (s_environ s)); [left | right]; exact R.
Qed.

End ClearenvRun.

Lemma named_well_formed (e : string) :
  strchr e "=" = true ->
  namedb e = negb (Ascii.eqb (byte_at 0 e) "=").
Proof.
  unfold namedb. destruct e as [|a e]; simpl; [discriminate|].
  destruct (Ascii.eqb a NUL); [discriminate|].
  now destruct (Ascii.eqb a "=").
Qed.

Lemma named_all (l : list string) :
  Forall (fun e => strchr e "=" = true) l ->
  forallb namedb l = true ->
  Forall (fun e => byte_at 0 e <> "="%char) l.
Proof.
  induction 1 as [|e l He Hl IH]; simpl; [constructor|].
  intros H. apply andb_prop in H. destruct H as [H1 H2].
  constructor; [|auto]. rewrite (@named_well_formed e He) in H1.
  apply negb_true_iff in H1. now apply Ascii.eqb_neq.
Qed.

Lemma named_some (l : list string) :
  Forall (fun e => strchr e "=" = true) l ->
  forallb namedb l = false ->
  Exists (fun e => byte_at 0 e = "="%char) l.
Proof.
  induction 1 as [|e l He Hl IH]; simpl; [discriminate|].
  intros H. apply andb_false_iff in H. destruct H as [H|H].
  - left. rewrite (@named_well_formed e He) in H.
    apply negb_false_iff in H. now apply Ascii.eqb_eq.
  - right. auto.
Qed.

(** X5.  In the build without [clearenv], on an environment whose
    entries all hold an [=]: if no entry begins with [=],
    [portable_clearenv] returns with the environment empty after at most
    one successful [unsetenv] per entry and nothing else; if some entry
    begins with [=] (an empty name), it exits with the error code after
    [Corrupted environment]. *)
Theorem portable_clearenv_rejects_empty_name (b : Build) (s : State) :
  HAVE_CLEARENV b = false ->
  Forall (fun e => strchr e "=" = true) (s_environ s) ->
  exists t,
    Forall (fun e => exists name, e = E_unsetenv name 0) t /\
    (List.length t <= List.length (s_environ s))%nat /\
    ((Forall (fun e => byte_at 0 e <> "="%char) (s_environ s) /\
      exists s', portable_clearenv b s = Ok tt s' /\ s_environ s' = [] /\
                 s_cred s' = s_cred s /\ s_log s' = (s_log s ++ t)%list) \/
     (Exists (fun e => byte_at 0 e = "="%char) (s_environ s) /\
      exists s', portable_clearenv b s = Halt (Exit (ERR_EXIT_CODE b)) s' /\
                 s_log s'
                 = (s_log s ++ t ++ [E_stderr D_corrupted_env])%list)).
Proof.
  intros Hb Hwf. unfold portable_clearenv. rewrite Hb.
  destruct (@unsetenv_loop_run b (S (List.length (s_environ s))) s
              (Nat.lt_succ_diag_r _) Hwf)
    as (t & s' & F & Lt & C & _ & _ & R).
  exists t. split; [exact F|]. split; [exact Lt|].
  pose proof (@named_all _ Hwf) as Hall.
  pose proof (@named_some _ Hwf) as Hex.
  destruct (forallb namedb (s_environ s)).
  - left. split; [auto|]. exists s'. destruct R as (R & V & L). auto.
  - right. split; [auto|]. exists s'. exact R.
Qed.

(* ------------------------ blocks of main ---------------------------- *)

Ltac split_tests H :=
  cbv beta iota delta [bind when ret fatal fatal_usage USAGE eprint emit exit
    lstat getpwuid fstat getuid geteuid getgid getegid] in H;
  repeat match type of H with
    | context [if ?c then _ else _] =>
        let E := fresh "E" in destruct c eqn:E; try discriminate H
    | context [match ?x with Some _ => _ | None => _ end] =>
        let E := fresh "E" in destruct x eqn:E; try discriminate H
    end.

Section MoreBlocks.

Variable b : Build.
Variable w : World.

Lemma check_base_path_ok (path : string) (s s' : State) :
  check_base_path b w path s = Ok tt s' ->
  byte_at 0 path = SLASH /\ trusted_chain w path.
Proof.
  intros H. unfold check_base_path in H.
  destruct (ascii_dec (byte_at 0 path) SLASH) as [E|E].
  - split; [exact E|].
    destruct (@check_base_path_loop_absolute b w (S (String.length path))
                path s (Nat.lt_succ_diag_r _) E) as [[C _]|[_ [s1 R]]];
      [exact C | congruence].
  - destruct (@check_base_path_loop_relative b w (S (String.length path))
                path s (Nat.lt_succ_diag_r _) E) as [s1 R]. congruence.
Qed.

Lemma check_config_file_cases (config : OpenFile) (s : State) :
  (config_accepted b w config s /\
   exists s', check_config_file b w config s = Ok tt s') \/
  (~ config_accepted b w config s /\
   exists s', check_config_file b w config s
              = Halt (Exit (ERR_EXIT_CODE b)) s').
Proof.
  remember (check_config_file b w config s) as r eqn:Hr.
  unfold config_accepted. unfold check_config_file in Hr.
  unfold bind at 1 in Hr.
  destruct (check_base_path b w (CFG b) s) as [[] s0|o s0] eqn:E0.
  2:{ destruct (frame_halt (@frame_check_base_path b w (CFG b)) E0) as [-> _].
      right. split; [|eauto]. intros ((s1 & X) & _). discriminate X. }
  cbv beta iota delta [bind when ret fatal eprint emit exit lstat fstat] in Hr.
  destruct (w_lstat w (CFG b)) as [cs|] eqn:E1.
  2:{ right. split; [|eauto].
      intros (_ & (cs & X & _) & _). discriminate X. }
  destruct (negb (S_ISREG (st_mode cs)));
    (destruct (st_uid cs =? 0) eqn:E2; cbn [negb] in Hr; cbv beta iota in Hr;
     [|right; split; [|eauto];
       intros (_ & (cs' & X & U & _) & _); injection X as <-;
       apply Z.eqb_neq in E2; contradiction]);
    (destruct (loose (st_mode cs)) eqn:E3;
     [right; split; [|eauto];
      intros (_ & (cs' & X & _ & L) & _); injection X as <-; congruence|]);
    (destruct (of_fstat config) as [fs|] eqn:E4;
     [|right; split; [|eauto]; intros (_ & _ & X); now apply X]);
    apply Z.eqb_eq in E2;
    (left; split;
     [split; [eauto|]; split; [eauto | discriminate]|]);
    destruct (negb (st_dev fs =? st_dev cs) || negb (st_ino fs =? st_ino cs));
    eauto.
Qed.

Lemma split_target_checked (path base leaf : string) (s s1 : State) :
  split_target b path s = Ok (base, leaf) s1 ->
  byte_at 0 path = SLASH /\
  exists i, strrchr path SLASH = Some i /\ (0 < i)%nat /\
            base = truncate i path /\ leaf = advance (S i) path.
Proof.
  intros H. unfold split_target in H.
  destruct (Ascii.eqb (byte_at 0 path) SLASH) eqn:E0; simpl negb in H;
    cbv iota in H; [|discriminate].
  apply Ascii.eqb_eq in E0. split; [exact E0|].
  destruct (strrchr path SLASH) as [i|]; [|discriminate].
  exists i. split; [reflexivity|].
  cbv beta iota delta [bind when ret fatal fatal_usage USAGE eprint emit exit]
    in H.
  destruct (Ascii.eqb (byte_at 0 (truncate i path)) NUL) eqn:Eb;
    [discriminate H|].
  split_tests H. injection H as <- <- <-. split; [|auto].
  destruct i as [|i]; [|lia]. simpl in Eb. discriminate Eb.
Qed.

Lemma stat_base_checked (base leaf : string) (owner : Z) (s s1 : State)
  (sb : stat) :
  stat_base b w base leaf owner s = Ok sb s1 ->
  w_lstat w base = Some sb /\ S_ISDIR (st_mode sb) = true /\
  loose (st_mode sb) = false /\ st_uid sb = owner /\
  all_whitelisted false leaf = true.
Proof.
  intros H. unfold stat_base, whitelist_char_check in H. split_tests H.
  injection H as <- <-. apply negb_false_iff in E2, E4.
  apply Z.eqb_eq in E4. auto.
Qed.

End MoreBlocks.

(** X4.  [check_config_file] returns exactly when the ancestor walk of
    the configuration path returns, link-level stat of the path reports
    owner root and no write permission for group or others, and [fstat]
    of the opened stream succeeds; otherwise it exits with the error
    code.  Nothing else decides: neither the file type nor the
    comparison of device and inode.  Either way it has only looked. *)
Theorem check_config_file_returns_iff (b : Build) (w : World)
  (config : OpenFile) (s : State) :
  (config_accepted b w config s /\
   exists s', check_config_file b w config s = Ok tt s' /\ extends s s') \/
  (~ config_accepted b w config s /\
   exists s', check_config_file b w config s
              = Halt (Exit (ERR_EXIT_CODE b)) s' /\ extends s s').
Proof.
  pose proof (@frame_check_config_file b w config s) as (X & _).
  destruct (check_config_file_cases b w config s) as [[A (s' & R)]|[A (s' & R)]];
    rewrite R in X; simpl in X; [left | right]; eauto.
Qed.

Lemma all_whitelisted_lacks_NUL (allow : bool) (s : string) :
  all_whitelisted allow s = true -> lacks NUL s.
Proof.
  induction s as [|a s IH]; simpl; [trivial|].
  destruct (whitelisted allow a) eqn:E; [|discriminate].
  intros H. split; [|auto]. intros ->. destruct allow; discriminate E.
Qed.

(** Every run either stops having made only benign calls, or has
    checked the configuration file and the target. *)
Lemma main_vetted (b : Build) (w : World) :
  (exists o s1, run b w = Halt o s1 /\ quiet w s1 /\ stopped b w o) \/
  (config_vetted b w /\ target_vetted w).
Proof.
  remember (run b w) as r eqn:Hr. unfold run, main in Hr.
  assert (Q : quiet w (initial w)) by (split; reflexivity).
  (* portable_clearenv *)
  unfold bind at 1 in Hr.
  destruct (portable_clearenv_clears b (initial w))
    as (s1 & C1 & _ & _ & (t1 & L1 & B1) & R1).
  assert (Q1 : quiet w s1).
  { destruct Q as [Qc Ql]. split; [congruence|].
    rewrite L1, forallb_app, Ql, B1. reflexivity. }
  destruct R1 as [[R1 Henv]|[R1|[R1 N1]]]; rewrite R1 in Hr;
    [|left; eapply stopped_exit; eauto
     |left; exists OutOfFuel, s1; repeat split; [exact Hr|apply Q1|apply Q1|];
      right; split; [reflexivity | exact N1]].
  cbv beta iota in Hr.
  (* check_privileges *)
  unfold bind at 1 in Hr.
  destruct (check_privileges b s1) as [tu s2|o s2] eqn:E2.
  2:{ destruct (frame_halt (@frame_check_privileges b) E2) as [-> X].
      left. eapply stopped_exit; eauto using quiet_extends. }
  destruct (frame_ok (@frame_check_privileges b) E2) as (X2 & _ & _).
  assert (Q2 : quiet w s2) by (eapply quiet_extends; eauto).
  (* open_config *)
  unfold bind at 1 in Hr.
  destruct (open_config_cases b w s2)
    as [(f & s3 & E3 & Hf & Hcfg3 & Heof3 & X3)|(s3 & E3 & X3)];
    rewrite E3 in Hr; [|left; eapply stopped_exit; eauto using quiet_extends].
  assert (Q3 : quiet w s3) by (eapply quiet_extends; eauto).
  (* check_config_file *)
  unfold bind at 1 in Hr.
  destruct (check_config_file_cases b w f s3)
    as [[((s3' & A1) & (cs & A2 & A3 & A4) & A5) (s4 & E4)]|[_ (s4 & E4)]];
    rewrite E4 in Hr.
  2:{ destruct (frame_halt (@frame_check_config_file b w f) E4) as [_ X].
      left. eapply stopped_exit; eauto using quiet_extends. }
  destruct (frame_ok (@frame_check_config_file b w f) E4) as (X4 & _ & _).
  assert (Q4 : quiet w s4) by (eapply quiet_extends; eauto).
  destruct (@check_base_path_ok b w _ _ _ A1) as [A6 A7].
  assert (V : config_vetted b w).
  { exists f, cs. auto 10. }
  (* positional_path *)
  unfold bind at 1 in Hr.
  destruct (positional_path b (w_argv w) s4) as [path s5|o s5] eqn:E5.
  2:{ destruct (frame_halt (@frame_positional_path b (w_argv w)) E5) as [-> X].
      left. eapply stopped_exit; eauto using quiet_extends. }
  destruct (frame_ok (@frame_positional_path b (w_argv w)) E5) as (X5 & _ & _).
  destruct (positional_path_ok E5) as [Hargc ->].
  assert (Q5 : quiet w s5) by (eapply quiet_extends; eauto).
  set (path := nth 1 (w_argv w) "") in *.
  (* stat_target *)
  unfold bind at 1 in Hr.
  destruct (stat_target b w path s5) as [owner s6|o s6] eqn:E6.
  2:{ destruct (frame_halt (@frame_stat_target b w path) E6) as [-> X].
      left. eapply stopped_exit; eauto using quiet_extends. }
  destruct (frame_ok (@frame_stat_target b w path) E6) as (X6 & _ & _).
  destruct (stat_target_ok E6) as (T1 & st & T2 & -> & T3 & T4).
  assert (Q6 : quiet w s6) by (eapply quiet_extends; eauto).
  (* split_target *)
  unfold bind at 1 in Hr.
  destruct (split_target b path s6) as [[base leaf] s7|o s7] eqn:E7.
  2:{ destruct (frame_halt (@frame_split_target b path) E7) as [-> X].
      left. eapply stopped_exit; eauto using quiet_extends. }
  destruct (frame_ok (@frame_split_target b path) E7) as (X7 & _ & _).
  destruct (@split_target_checked b _ _ _ _ _ E7) as (P0 & i & Hi & Hpos & -> & ->).
  assert (Q7 : quiet w s7) by (eapply quiet_extends; eauto).
  cbv beta iota in Hr.
  (* stat_base *)
  unfold bind at 1 in Hr.
  destruct (stat_base b w (truncate i path) (advance (S i) path) (st_uid st) s7)
    as [sb s8|o s8] eqn:E8.
  2:{ destruct (frame_halt (@frame_stat_base b w _ _ _) E8) as [-> X].
      left. eapply stopped_exit; eauto using quiet_extends. }
  destruct (frame_ok (@frame_stat_base b w _ _ _) E8) as (X8 & _ & _).
  destruct (@stat_base_checked b w _ _ _ _ _ _ E8) as (B1' & B2 & B3 & B4 & B5).
  assert (Q8 : quiet w s8) by (eapply quiet_extends; eauto).
  (* owner_name *)
  unfold bind at 1 in Hr.
  destruct (owner_name b w sb s8) as [name s9|o s9] eqn:E9.
  2:{ destruct (frame_halt (@frame_owner_name b w sb) E9) as [-> X].
      left. eapply stopped_exit; eauto using quiet_extends. }
  destruct (frame_ok (@frame_owner_name b w sb) E9) as (X9 & _ & _).
  pose proof (owner_name_ok E9) as Hname.
  assert (Q9 : quiet w s9) by (eapply quiet_extends; eauto).
  (* check_base_path *)
  unfold bind at 1 in Hr.
  destruct (check_base_path b w (truncate i path) s9) as [[] s10|o s10] eqn:E10.
  2:{ destruct (frame_halt (@frame_check_base_path b w _) E10) as [-> X].
      left. eapply stopped_exit; eauto using quiet_extends. }
  destruct (@check_base_path_ok b w _ _ _ E10) as [_ Hchain].
  right. split; [exact V|].
  exists i, st, sb. fold path.
  repeat (split; [assumption|]). split; [congruence | assumption].
Qed.

(* ===================================================================== *)
(** ** The mode dispatch and the first steps of [main] *)
(* ===================================================================== *)

Lemma final_path_round_trip (path : string) (i : nat) :
  lacks NUL path -> strrchr path SLASH = Some i ->
  final_path_of path i = path.
Proof.
  intros Hn Hi. unfold final_path_of.
  rewrite (cstr_id _ (lacks_truncate _ i _ Hn)).
  rewrite (cstr_id _ (lacks_advance _ (S i) _ Hn)).
  destruct (strrchr_some _ _ Hi) as [H _]. symmetry. exact H.
Qed.

Lemma nth_skipn_2 (l : list string) : nth 0 (skipn 2 l) "" = nth 2 l "".
Proof. destruct l as [|a [|a' [|a'' l]]]; reflexivity. Qed.

Section Dispatch.

Variable b : Build.
Variable w : World.

Lemma emits_setuid (P : Event -> Prop) (u : Z) :
  (forall rc, P (E_setuid u rc)) -> emits P (setuid w u).
Proof.
  intros H s. unfold setuid.
  destruct (Kernel.setuid (w_privileged w) u (s_cred s)) as [rc c].
  exists [E_setuid u rc]. simpl. auto.
Qed.

Lemma emits_seteuid (P : Event -> Prop) (u : Z) :
  (forall rc, P (E_seteuid u rc)) -> emits P (seteuid w u).
Proof.
  intros H s. unfold seteuid.
  destruct (Kernel.seteuid (w_privileged w) u (s_cred s)) as [rc c].
  exists [E_seteuid u rc]. simpl. auto.
Qed.

Lemma emits_setgid (P : Event -> Prop) (g : Z) :
  (forall rc, P (E_setgid g rc)) -> emits P (setgid w g).
Proof.
  intros H s. unfold setgid.
  destruct (Kernel.setgid (w_privileged w) g (s_cred s)) as [rc c].
  exists [E_setgid g rc]. simpl. auto.
Qed.

Lemma emits_setegid (P : Event -> Prop) (g : Z) :
  (forall rc, P (E_setegid g rc)) -> emits P (setegid w g).
Proof.
  intros H s. unfold setegid.
  destruct (Kernel.setegid (w_privileged w) g (s_cred s)) as [rc c].
  exists [E_setegid g rc]. simpl. auto.
Qed.

Lemma emits_exec_mode (tu : Z) (fp : string) (args : list string)
  (envp : EnvPtr) :
  emits (transition_call fp args) (exec_mode b w tu fp args envp).
Proof.
  set (P := transition_call fp args).
  assert (Hs : forall d, P (E_stderr d)) by (intros; exact I).
  unfold exec_mode. cbv zeta. rewrite nth_skipn_2.
  unfold chdir, chroot.
  apply emits_call; [now left|].
  apply emits_bind; [apply emits_when, emits_fatal, Hs | intros _].
  apply emits_call; [reflexivity|].
  apply emits_bind; [apply emits_when, emits_fatal, Hs | intros _].
  apply emits_bind; [apply emits_setuid; intros; exact I | intros rc].
  apply emits_bind; [apply emits_when, emits_fatal, Hs | intros _].
  apply emits_bind.
  { unfold verify_dropped, orM, succeeds, getuid, geteuid, getgid, getegid.
    repeat first
      [ apply emits_ret
      | apply emits_get
      | apply emits_when, emits_fatal, Hs
      | apply emits_setuid; intros; exact I
      | apply emits_seteuid; intros; exact I
      | apply emits_setgid; intros; exact I
      | apply emits_setegid; intros; exact I
      | match goal with
        | |- emits _ (if ?c then _ else _) => destruct c
        end
      | apply emits_bind; [|intros ?] ]. }
  intros _.
  apply emits_call; [now right|].
  apply emits_bind; [apply emits_when, emits_fatal, Hs | intros _].
  unfold whitelist_char_check.
  destruct (all_whitelisted true (nth 2 args "")) eqn:Hw.
  2:{ apply emits_bind_ok; [apply emits_fatal, Hs|].
      intros a (s & s' & X). discriminate X. }
  apply emits_bind; [apply emits_ret | intros _].
  apply emits_bind; [|intros; apply emits_fatal, Hs].
  intros s. unfold execve. cbv zeta.
  apply emits_bind; [apply emits_emit | intros _].
  - repeat split; assumption.
  - destruct (w_execve w (nth 2 args "")); [|apply emits_ret].
    intros s'. exists []. simpl. now rewrite app_nil_r.
Qed.

Lemma emits_device_mode (tu : Z) (sb : stat) (fp arg2 : string) :
  emits (provisioner_call fp) (device_mode b w tu sb fp arg2).
Proof.
  assert (Hs : forall d, provisioner_call fp (E_stderr d)) by (intros; exact I).
  unfold device_mode.
  apply emits_bind; [apply emits_when, emits_fatal, Hs | intros _].
  destruct (strncmp_eq "--install-devices" arg2 17).
  { apply emits_bind; [|intros; apply emits_exit].
    apply emits_weaken with (P := install_call w fp);
      [intros e [H _]; exact H | apply emits_create_fundamental_devices]. }
  destruct (strncmp_eq "--uninstall-devices" arg2 19).
  { apply emits_bind; [|intros; apply emits_exit].
    apply emits_unlink_fundamental_devices. }
  apply emits_USAGE, Hs.
Qed.

Lemma steady_device_mode (tu : Z) (sb : stat) (fp arg2 : string) :
  steady (device_mode b w tu sb fp arg2).
Proof.
  unfold device_mode, USAGE.
  apply steady_bind; [auto with steady | intros _].
  destruct (strncmp_eq "--install-devices" arg2 17).
  { apply steady_bind;
      [apply steady_create_fundamental_devices | intros; apply steady_exit]. }
  destruct (strncmp_eq "--uninstall-devices" arg2 19).
  { apply steady_bind;
      [apply steady_unlink_fundamental_devices | intros; apply steady_exit]. }
  apply steady_fatal.
Qed.

(** How a run that passes the dispatch goes on. *)
Lemma run_after_dispatch :
  (exists o s1, run b w = Halt o s1 /\ quiet w s1 /\ stopped b w o) \/
  (exists s0 i t,
     let path := nth 1 (w_argv w) "" in
     let fp := final_path_of path i in
     quiet w s0 /\ strrchr path SLASH = Some i /\
     s_log (state_of (run b w)) = (s_log s0 ++ t)%list /\
     if Ascii.eqb (byte_at 0 (nth 2 (w_argv w) "")) "-"
     then Forall (provisioner_call fp) t /\
          s_cred (state_of (run b w)) = w_cred w
     else Forall (transition_call fp (w_argv w)) t).
Proof.
  destruct (main_cases b w) as [L|R]; [now left | right].
  destruct R as (s0 & i & sb & name & f & Q & _ & _ & _ & _ & _ & _ & Hi & _ &
                 _ & _ & _ & _ & Hr).
  cbv zeta in Hi, Hr. cbv zeta.
  destruct (Ascii.eqb (byte_at 0 (nth 2 (w_argv w) "")) "-").
  - destruct (@emits_device_mode (ruid (w_cred w)) sb
                (final_path_of (nth 1 (w_argv w) "") i) (nth 2 (w_argv w) "") s0)
      as (t & L & F).
    destruct (@steady_device_mode (ruid (w_cred w)) sb
                (final_path_of (nth 1 (w_argv w) "") i) (nth 2 (w_argv w) "") s0)
      as [C _].
    rewrite <- Hr in L, C. exists s0, i, t.
    destruct Q as [Qc Ql].
    repeat (split; [assumption || (split; assumption)|]). congruence.
  - destruct (@emits_exec_mode (ruid (w_cred w))
                (final_path_of (nth 1 (w_argv w) "") i) (w_argv w) ENTRY s0)
      as (t & L & F).
    rewrite <- Hr in L. exists s0, i, t.
    split; [assumption|]. auto.
Qed.

End Dispatch.

(* ----------------------------- startup ------------------------------ *)

Section Startup.

Variable b : Build.
Variable w : World.

Lemma check_privileges_cases (s : State) :
  (identity_accepted (s_cred s) /\
   check_privileges b s = Ok (ruid (s_cred s)) s) \/
  (exists d, identity_refused (s_cred s) d /\
             check_privileges b s
             = Halt (Exit (ERR_EXIT_CODE b)) (log (E_stderr d) s)).
Proof.
  unfold check_privileges, identity_accepted, identity_refused.
  cbv beta iota delta [bind when ret fatal eprint emit exit
    getuid geteuid getgid getegid].
  destruct (Z.eqb_spec (euid (s_cred s)) 0) as [He|He]; cbn [negb].
  2:{ right. exists D_not_setuid_root. split; [now left | reflexivity]. }
  destruct (Z.eqb_spec (rgid (s_cred s)) 0) as [Hg|Hg]; cbn [orb].
  { right. exists D_setgid_root. split; [|reflexivity]. right. left. auto. }
  destruct (Z.eqb_spec (egid (s_cred s)) 0) as [Heg|Heg].
  { right. exists D_setgid_root. split; [|reflexivity]. right. left. auto. }
  destruct (Z.eqb_spec (ruid (s_cred s)) 0) as [Hu|Hu].
  { right. exists D_run_as_root. split; [|reflexivity].
    right. right. auto 10. }
  left. auto.
Qed.

(** The first three steps of [main], when the environment can be
    emptied. *)
Lemma run_startup :
  clearable b (w_envp w) ->
  exists pre,
    Forall env_call pre /\
    ((exists s1 d,
        run b w = Halt (Exit (ERR_EXIT_CODE b)) s1 /\
        s_cred s1 = w_cred w /\
        s_log s1 = (pre ++ [E_stderr d])%list /\
        (d = D_corrupted_env \/ identity_refused (w_cred w) d)) \/
     (identity_accepted (w_cred w) /\
      ((w_fopen w (CFG b) = None /\
        exists s1,
          run b w = Halt (Exit (ERR_EXIT_CODE b)) s1 /\
          s_cred s1 = w_cred w /\
          s_log s1 = (pre ++ [E_fopen (CFG b); E_stderr D_cfg_open])%list) \/
       w_fopen w (CFG b) <> None))).
Proof.
  intros Hclr.
  remember (run b w) as r eqn:Hr. unfold run, main in Hr.
  unfold bind at 1 in Hr.
  destruct (@portable_clearenv_run b (initial w) Hclr)
    as (pre & s1 & F & C & _ & _ & [(R & V & L)|(R & L)]);
    rewrite R in Hr; exists pre; (split; [exact F|]).
  2:{ left. exists s1, D_corrupted_env. simpl in L. auto. }
  cbv beta iota in Hr. unfold bind at 1 in Hr. simpl in L, C.
  destruct (check_privileges_cases s1) as [[A E]|(d & A & E)];
    rewrite E in Hr; rewrite C in *.
  2:{ left. exists (log (E_stderr d) s1), d. simpl. rewrite L. auto 10. }
  right. split; [exact A|].
  cbv beta iota in Hr. unfold bind at 1, open_config in Hr.
  unfold bind at 1, fopen in Hr.
  destruct (w_fopen w (CFG b)) as [f|] eqn:Hf; [right; discriminate|].
  left. split; [reflexivity|].
  cbv beta iota delta [fatal bind eprint emit exit] in Hr.
  eexists. split; [exact Hr|]. simpl. rewrite L, <- app_assoc. auto.
Qed.

End Startup.

(* ===================================================================== *)
(** ** More properties of whole runs *)
(* ===================================================================== *)

Lemma quiet_In (w : World) (s : State) (e : Event) :
  quiet w s -> In e (s_log s) -> benign e = true.
Proof.
  intros [_ H] Hin. rewrite forallb_forall in H. now apply H.
Qed.

Lemma vetted_of_change (b : Build) (w : World) (e : Event) :
  In e (s_log (state_of (run b w))) -> benign e = false ->
  config_vetted b w /\ target_vetted w.
Proof.
  intros Hin Hb.
  destruct (main_vetted b w) as [(o1 & s1 & Hr & Q & _)|V]; [|exact V].
  rewrite Hr in Hin. simpl in Hin.
  rewrite (@quiet_In w s1 e Q Hin) in Hb. discriminate.
Qed.

(** The calls that a run makes beyond the benign ones, with the chroot
    path written as the run received it. *)
Lemma changes_of_run (b : Build) (w : World) (e : Event) :
  In e (s_log (state_of (run b w))) -> benign e = false ->
  if Ascii.eqb (byte_at 0 (nth 2 (w_argv w) "")) "-"
  then provisioner_call (nth 1 (w_argv w) "") e
  else transition_call (nth 1 (w_argv w) "") (w_argv w) e.
Proof.
  intros Hin Hb.
  destruct (@vetted_of_change b w e Hin Hb) as [_ T].
  destruct T as (i & st & sb & _ & Hw & _ & _ & _ & _ & Hi & _).
  pose proof (@final_path_round_trip _ i
                (@all_whitelisted_lacks_NUL true _ Hw) Hi) as Hfp.
  destruct (run_after_dispatch b w) as [(o1 & s1 & Hr & Q & _)|R].
  { rewrite Hr in Hin. simpl in Hin.
    rewrite (@quiet_In w s1 e Q Hin) in Hb. discriminate. }
  destruct R as (s0 & i' & t & Q & Hi' & L & F). cbv zeta in Hi', F.
  rewrite Hi in Hi'. injection Hi' as <-. rewrite Hfp in F.
  rewrite L in Hin. apply in_app_or in Hin. destruct Hin as [Hin|Hin].
  { rewrite (@quiet_In w s0 e Q Hin) in Hb. discriminate. }
  destruct (Ascii.eqb (byte_at 0 (nth 2 (w_argv w) "")) "-").
  - destruct F as [F _]. rewrite Forall_forall in F. now apply F.
  - rewrite Forall_forall in F. now apply F.
Qed.

(** X9.  A call that is not benign (a [chdir], [chroot], identity call,
    [execve], or a call of the device provisioner) appears in the log of
    a run only if the target passed the checks of lines 250-335:
    [argv[1]] holds only whitelisted bytes and begins with a slash;
    link-level stat reports it as a directory (so not a symbolic link)
    closed to group and others; its base, the part before the last
    slash, is not empty and is such a directory too, with the same
    owner, known to the user database; the leaf holds only whitelisted
    bytes and no slash; and the ancestors of the base pass the walk. *)
Theorem changes_need_a_checked_target (b : Build) (w : World) (e : Event) :
  In e (s_log (state_of (run b w))) -> benign e = false -> target_vetted w.
Proof.
  intros Hin Hb.
  destruct (main_vetted b w) as [(o1 & s1 & Hr & Q & _)|[_ T]]; [|exact T].
  rewrite Hr in Hin. simpl in Hin.
  rewrite (@quiet_In w s1 e Q Hin) in Hb. discriminate.
Qed.

(** X10.  A call that is not benign appears in the log of a run only if
    the configuration file could be opened and [fstat]ed, its path is
    absolute, its ancestors pass the walk, and link-level stat reports
    it owned by root and closed to group and others. *)
Theorem changes_need_a_checked_configuration (b : Build) (w : World)
  (e : Event) :
  In e (s_log (state_of (run b w))) -> benign e = false -> config_vetted b w.
Proof.
  intros Hin Hb.
  destruct (main_vetted b w) as [(o1 & s1 & Hr & Q & _)|[V _]]; [|exact V].
  rewrite Hr in Hin. simpl in Hin.
  rewrite (@quiet_In w s1 e Q Hin) in Hb. discriminate.
Qed.

(** X11.  Every [chroot] of a run is on [argv[1]] as the run received
    it (the path that lines 392-402 reassemble from base and leaf is the
    argument again), and every [chdir] is on [argv[1]] or on [/]. *)
Theorem chroot_is_called_on_argv1 (b : Build) (w : World) :
  (forall p rc, In (E_chroot p rc) (s_log (state_of (run b w))) ->
                p = nth 1 (w_argv w) "") /\
  (forall p rc, In (E_chdir p rc) (s_log (state_of (run b w))) ->
                p = nth 1 (w_argv w) "" \/ p = "/").
Proof.
  split; intros p rc Hin;
    pose proof (@changes_of_run b w _ Hin eq_refl) as H;
    destruct (Ascii.eqb (byte_at 0 (nth 2 (w_argv w) "")) "-");
    try exact H; destruct H as (d & _ & X); discriminate X.
Qed.

(** X12.  Every [execve] of a run is on [argv[2]], which holds only
    whitelisted bytes and does not begin with [-], with the argument
    vector [argv + 2]. *)
Theorem execve_is_called_on_whitelisted_argv2 (b : Build) (w : World)
  (prog : string) (argv envp : list string) :
  In (E_execve prog argv envp) (s_log (state_of (run b w))) ->
  prog = nth 2 (w_argv w) "" /\
  all_whitelisted true prog = true /\
  byte_at 0 prog <> "-"%char /\
  argv = skipn 2 (w_argv w).
Proof.
  intros Hin. pose proof (@changes_of_run b w _ Hin eq_refl) as H.
  destruct (Ascii.eqb_spec (byte_at 0 (nth 2 (w_argv w) "")) "-") as [E|E].
  - destruct H as (d & _ & X). discriminate X.
  - destruct H as (-> & -> & Hw). auto.
Qed.

(** X13.  A run whose [argv[2]] begins with [-] ends with the
    credentials it was started with, and every call it makes is benign
    or a call of the provisioner: a diagnostic, a [stat], a [umask], or
    a change whose path is [argv[1]] followed by one of [/dev/null],
    [/dev/zero], [/dev/random], [/dev/urandom], [/dev/shm].  It never
    calls [chdir], [chroot], [setuid] or [execve]. *)
Theorem device_mode_is_confined (b : Build) (w : World) :
  byte_at 0 (nth 2 (w_argv w) "") = "-"%char ->
  s_cred (state_of (run b w)) = w_cred w /\
  (forall e, In e (s_log (state_of (run b w))) ->
             benign e = true \/ provisioner_call (nth 1 (w_argv w) "") e) /\
  (forall p rc, ~ In (E_chdir p rc) (s_log (state_of (run b w)))) /\
  (forall p rc, ~ In (E_chroot p rc) (s_log (state_of (run b w)))) /\
  (forall u rc, ~ In (E_setuid u rc) (s_log (state_of (run b w)))) /\
  (forall p a e, ~ In (E_execve p a e) (s_log (state_of (run b w)))).
Proof.
  intros Hmode. apply Ascii.eqb_eq in Hmode.
  assert (F : forall e, In e (s_log (state_of (run b w))) ->
              benign e = true \/ provisioner_call (nth 1 (w_argv w) "") e).
  { intros e Hin. destruct (benign e) eqn:Hb; [now left | right].
    pose proof (@changes_of_run b w e Hin Hb) as H.
    now rewrite Hmode in H. }
  split.
  { destruct (run_after_dispatch b w) as [(o1 & s1 & Hr & [Qc _] & _)|R].
    - rewrite Hr. exact Qc.
    - destruct R as (s0 & i & t & _ & _ & _ & G). cbv zeta in G.
      rewrite Hmode in G. now destruct G. }
  split; [exact F|].
  repeat split; intros; intros Hin;
    destruct (F _ Hin) as [B|(d & _ & X)]; discriminate.
Qed.

(** X14.  [main] never returns.  When the environment can be emptied
    (the build has [clearenv], or every entry holds an [=]), the run
    ends by [exit] with the error code, or by [exit(0)] in device mode,
    or, in Exec mode, by the image being replaced with [argv[2]],
    [argv + 2] and the strings that [envp] then points to: the entry
    environment in the build with [clearenv], none in the build that
    unsets the variables one by one. *)
Theorem run_ends_in_one_of_three_ways (b : Build) (w : World) :
  clearable b (w_envp w) ->
  exists o s,
    run b w = Halt o s /\
    (o = Exit (ERR_EXIT_CODE b) \/
     (o = Exit 0 /\ byte_at 0 (nth 2 (w_argv w) "") = "-"%char) \/
     (o = Replaced (nth 2 (w_argv w) "") (skipn 2 (w_argv w))
            (block_after_clearing b w) /\
      byte_at 0 (nth 2 (w_argv w) "") <> "-"%char)).
Proof.
  intros Hclr.
  destruct (main_cases b w) as [(o1 & s1 & Hr & _ & Hstop)|R].
  { rewrite (clearable_stopped Hclr Hstop) in Hr. eauto. }
  destruct R as (s0 & i & sb & name & f & _ & [_ Hblock] & _ & _ & _ & _ & _ &
                 _ & _ & _ & _ & _ & _ & Hr).
  cbv zeta in Hr. rewrite Hr.
  set (fp := final_path_of (nth 1 (w_argv w) "") i).
  destruct (Ascii.eqb_spec (byte_at 0 (nth 2 (w_argv w) "")) "-") as [E|E].
  - unfold device_mode, USAGE.
    cbv beta iota delta [bind when ret fatal eprint emit exit].
    destruct (negb (ruid (w_cred w) =? st_uid sb)); [eauto|].
    destruct (strncmp_eq "--install-devices" (nth 2 (w_argv w) "") 17).
    { pose proof (@errs_create_fundamental_devices b w fp s0) as H.
      destruct (create_fundamental_devices b w fp s0) as [rc s1|o s1] eqn:X.
      - apply create_fundamental_devices_returns in X as [-> _]. eauto 10.
      - rewrite (H o eq_refl). eauto. }
    destruct (strncmp_eq "--uninstall-devices" (nth 2 (w_argv w) "") 19);
      [|eauto].
    pose proof (@errs_unlink_fundamental_devices b w fp s0) as H.
    destruct (unlink_fundamental_devices b w fp s0) as [rc s1|o s1] eqn:X.
    + apply unlink_fundamental_devices_returns in X as [-> _]. eauto 10.
    + rewrite (H o eq_refl). eauto.
  - pose proof (exec_mode_ending b w (ruid (w_cred w)) fp (w_argv w)
                  ENTRY s0) as X.
    change (strings_at ENTRY s0) with (entry_strings s0) in X.
    rewrite Hblock in X.
    destruct X as (_ & t & _ & _ & X). rewrite nth_skipn_2 in X.
    destruct (exec_mode b w (ruid (w_cred w)) fp (w_argv w) ENTRY s0)
      as [a s'|o s']; simpl in X.
    + exfalso. destruct X as [[X _]|(c1 & tl & X)]; [discriminate|].
      destruct X as (_ & _ & _ & _ & _ & _ & _ & _ & _ & _ & _ & _ & [[X _]|[X _]]);
        discriminate.
    + exists o, s'. split; [reflexivity|].
      destruct X as [[X _]|(c1 & tl & X)]; [injection X as ->; auto|].
      destruct X as (_ & _ & _ & _ & _ & _ & _ & _ & _ & _ & _ & _ & [[X _]|[X _]]);
        injection X as ->; auto.
Qed.

(** X6.  When the environment can be emptied (the build has
    [clearenv], or every entry holds an [=]), a run whose effective uid
    is not 0, or whose real or effective gid is 0, or whose real uid is
    0, exits with the error code with its credentials unchanged, having
    made no call but those that empty the environment: no file is
    opened and nothing is statted.  The last line printed is the one of
    lines 216-230 that fits the credentials, in the order of the code
    (or [Corrupted environment]). *)
Theorem refuses_wrong_identity (b : Build) (w : World) :
  clearable b (w_envp w) ->
  euid (w_cred w) <> 0 \/ rgid (w_cred w) = 0 \/ egid (w_cred w) = 0 \/
  ruid (w_cred w) = 0 ->
  exists s1 t d,
    run b w = Halt (Exit (ERR_EXIT_CODE b)) s1 /\
    s_cred s1 = w_cred w /\
    s_log s1 = (t ++ [E_stderr d])%list /\
    Forall env_call t /\
    (d = D_corrupted_env \/ identity_refused (w_cred w) d).
Proof.
  intros Hclr Hbad.
  destruct (@run_startup b w Hclr)
    as (pre & F & [(s1 & d & R & C & L & D)|[A _]]).
  - exists s1, pre, d. auto.
  - exfalso. destruct A as (A1 & A2 & A3 & A4). tauto.
Qed.

(** X7.  When the environment can be emptied and the configuration
    file cannot be opened, the run exits with the error code,
    credentials unchanged: besides emptying the environment it has made
    at most the [fopen] itself, followed by [Failed to open
    configuration file]; no path is statted. *)
Theorem unopened_configuration_is_fatal (b : Build) (w : World) :
  clearable b (w_envp w) ->
  w_fopen w (CFG b) = None ->
  exists s1 t,
    run b w = Halt (Exit (ERR_EXIT_CODE b)) s1 /\
    s_cred s1 = w_cred w /\
    Forall env_call t /\
    ((exists d, s_log s1 = (t ++ [E_stderr d])%list /\
                (d = D_corrupted_env \/ identity_refused (w_cred w) d)) \/
     s_log s1 = (t ++ [E_fopen (CFG b); E_stderr D_cfg_open])%list).
Proof.
  intros Hclr Hf.
  destruct (@run_startup b w Hclr)
    as (pre & F & [(s1 & d & R & C & L & D)|[A [(_ & s1 & R & C & L)|X]]]).
  - exists s1, pre. eauto 10.
  - exists s1, pre. auto.
  - contradiction.
Qed.

(** X8.  With fewer than three arguments ([argc < 3]) a run makes only
    benign calls and keeps its credentials: no chroot, no identity
    change, no device call, no [execve]; and when the environment can
    be emptied it exits with the error code. *)
Theorem too_few_arguments_are_fatal (b : Build) (w : World) :
  (List.length (w_argv w) < 3)%nat ->
  s_cred (state_of (run b w)) = w_cred w /\
  forallb benign (s_log (state_of (run b w))) = true /\
  (clearable b (w_envp w) ->
   exists s1, run b w = Halt (Exit (ERR_EXIT_CODE b)) s1).
Proof.
  intros Hargc.
  destruct (main_cases b w) as [(o1 & s1 & Hr & [Qc Ql] & Hstop)|R].
  - rewrite Hr. simpl. split; [exact Qc|]. split; [exact Ql|].
    intros Hclr. rewrite (clearable_stopped Hclr Hstop). eauto.
  - destruct R as (s0 & i & sb & name & f & _ & _ & _ & _ & _ & _ & H & _).
    lia.
Qed.

(* ===================================================================== *)
(** ** Blocks that return *)
(* ===================================================================== *)

Section Returns.

Variable b : Build.
Variable w : World.

Lemma variableb_all (l : list string) :
  forallb variableb l = true ->
  forallb namedb l = true /\ Forall (fun e => strchr e "=" = true) l.
Proof.
  induction l as [|e l IH]; simpl; [auto|].
  intros H. apply andb_prop in H. destruct H as [H1 H2].
  apply andb_prop in H1. destruct H1 as [Hn Hc].
  destruct (IH H2) as [IH1 IH2]. rewrite Hn, IH1. auto.
Qed.

Lemma portable_clearenv_returns (s : State) :
  HAVE_CLEARENV b = true \/ forallb variableb (s_environ s) = true ->
  exists s', portable_clearenv b s = Ok tt s' /\ s_environ s' = [] /\
             s_cred s' = s_cred s /\
             exists t, s_log s' = (s_log s ++ t)%list /\
                       forallb benign t = true.
Proof.
  intros H.
  destruct (portable_clearenv_clears b s)
    as (s1 & C & _ & _ & B & [[R V]|R]); [eauto 10|].
  exfalso. unfold portable_clearenv in R. destruct H as [H|H].
  - rewrite H in R. destruct R as [R|[R _]]; discriminate R.
  - destruct (HAVE_CLEARENV b);
      [destruct R as [R|[R _]]; discriminate R|].
    destruct (variableb_all _ H) as [Hn Hwf].
    destruct (@unsetenv_loop_run b (S (List.length (s_environ s))) s
                (Nat.lt_succ_diag_r _) Hwf)
      as (t & s' & _ & _ & _ & _ & _ & X).
    rewrite Hn in X. destruct X as [X _].
    destruct R as [R|[R _]]; congruence.
Qed.

Lemma check_base_path_returns (path : string) (s : State) :
  byte_at 0 path = SLASH -> trusted_chain w path ->
  exists s', check_base_path b w path s = Ok tt s'.
Proof.
  intros H0 Hc.
  destruct (@check_base_path_loop_absolute b w (S (String.length path)) path s
              (Nat.lt_succ_diag_r _) H0) as [[_ R]|[C _]];
    [exact R | contradiction].
Qed.

Lemma check_config_file_returns (f : OpenFile) (s : State) :
  config_vetted b w -> w_fopen w (CFG b) = Some f ->
  exists s', check_config_file b w f s = Ok tt s'.
Proof.
  intros (f' & cs & Hf & Hfs & H0 & Hc & Hl & Hu & Hp) Hf'.
  rewrite Hf in Hf'. injection Hf' as <-.
  destruct (check_config_file_cases b w f' s) as [[_ R]|[C _]]; [exact R|].
  exfalso. apply C. split; [now apply check_base_path_returns|].
  split; [eauto | assumption].
Qed.

Lemma stat_target_returns (path : string) (st : stat) (s : State) :
  all_whitelisted true path = true -> w_lstat w path = Some st ->
  S_ISDIR (st_mode st) = true -> loose (st_mode st) = false ->
  exists s', stat_target b w path s = Ok (st_uid st) s'.
Proof.
  intros Hw Hl Hd Hp. unfold stat_target, whitelist_char_check.
  rewrite Hw.
  cbv beta iota delta [bind when ret fatal fatal_usage USAGE eprint emit exit
    lstat].
  rewrite Hl, Hd, Hp. simpl. eauto.
Qed.

Lemma split_target_returns (path : string) (i : nat) (s : State) :
  lacks NUL path -> byte_at 0 path = SLASH ->
  strrchr path SLASH = Some i -> (0 < i)%nat ->
  advance (S i) path <> "" -> advance (S i) path <> "." ->
  advance (S i) path <> ".." ->
  split_target b path s = Ok (truncate i path, advance (S i) path) s.
Proof.
  intros Hn H0 Hi Hpos L1 L2 L3. unfold split_target.
  rewrite H0, Ascii.eqb_refl, Hi. simpl negb. cbv iota.
  pose proof (@byte_at_0_nul _ (@lacks_advance NUL (S i) path Hn)) as Hl.
  pose proof (@dot_test _ (@lacks_advance NUL (S i) path Hn)) as Hd.
  assert (Hb : Ascii.eqb (byte_at 0 (truncate i path)) NUL = false).
  { rewrite byte_at_truncate. apply Nat.ltb_lt in Hpos. rewrite Hpos, H0.
    reflexivity. }
  rewrite Hb.
  destruct (Ascii.eqb (byte_at 0 (advance (S i) path)) NUL);
    [exfalso; apply L1, Hl; reflexivity|].
  match type of Hd with (?c = true <-> _) => destruct c end;
    [exfalso; destruct Hd as [Hd _]; destruct (Hd eq_refl); contradiction|].
  reflexivity.
Qed.

Lemma stat_base_returns (base leaf : string) (sb : stat) (s : State) :
  all_whitelisted true base = true -> all_whitelisted false leaf = true ->
  w_lstat w base = Some sb -> S_ISDIR (st_mode sb) = true ->
  loose (st_mode sb) = false ->
  exists s', stat_base b w base leaf (st_uid sb) s = Ok sb s'.
Proof.
  intros Hb Hl Hs Hd Hp. unfold stat_base, whitelist_char_check.
  rewrite Hb, Hl.
  cbv beta iota delta [bind when ret fatal fatal_usage USAGE eprint emit exit
    lstat].
  rewrite Hs, Hd, Hp, Z.eqb_refl. simpl. eauto.
Qed.

Lemma owner_name_returns (sb : stat) (name : string) (s : State) :
  w_getpwuid w (st_uid sb) = Some name ->
  exists s', owner_name b w sb s = Ok name s'.
Proof.
  intros H. unfold owner_name.
  cbv beta iota delta [bind ret emit getpwuid]. rewrite H. eauto.
Qed.

Lemma authorize_returns (name base : string) (s : State) :
  lacks NUL (s_cfg s) -> s_eof s = false -> w_fclose w = 0 ->
  In (config_line name base) (config_lines (s_cfg s)) ->
  exists s', authorize b w name base s = Ok tt s'.
Proof.
  intros Hn He Hc Hin.
  destruct (@scan_config_loop_text (config_line name base)
              (strlen base + strlen name + 3)
              (config_line_lacks_NUL name base)
              (config_line_linelen name base)
              (config_line_pos name base)
              (S (String.length (s_cfg s))) s Hn He (Nat.lt_succ_diag_r _))
    as (s1 & Hrun & _).
  apply after_first_match_In in Hin. rewrite Hin in Hrun.
  unfold authorize.
  assert (Hpos : (Z.of_nat (String.length (config_line name base)) <=? 0) = false).
  { apply Z.leb_gt. pose proof (config_line_pos name base). lia. }
  rewrite Hpos.
  cbv beta iota delta [bind when ret fclose emit fatal eprint exit scan_config].
  rewrite Hrun, Hc. simpl. eauto.
Qed.

End Returns.

Lemma extends_quiet_log (s s' : State) :
  extends s s' -> forallb benign (s_log s) = true ->
  forallb benign (s_log s') = true.
Proof.
  intros (_ & _ & t & L & B) H. rewrite L, forallb_app, H, B. reflexivity.
Qed.

(** An authorized run reaches the mode dispatch. *)
Lemma authorized_reaches_dispatch (b : Build) (w : World) :
  authorized b w ->
  exists s0 i sb,
    let path := nth 1 (w_argv w) "" in
    let arg2 := nth 2 (w_argv w) "" in
    quiet w s0 /\ environment_cleared b w s0 /\
    strrchr path SLASH = Some i /\
    w_lstat w (truncate i path) = Some sb /\
    run b w
    = if Ascii.eqb (byte_at 0 arg2) "-"
      then device_mode b w (ruid (w_cred w)) sb path arg2 s0
      else exec_mode b w (ruid (w_cred w)) path (w_argv w) ENTRY s0.
Proof.
  intros (Henv & Hid & V & T & Hclose & f & i & sb & name & Hf & Hnul & Hi &
          L1 & L2 & L3 & Hsb & Hname & Hline).
  destruct T as (i' & st & sb' & Hargc & Hw & Hst & Hd & Hp & H0 & Hi' & Hpos &
                 Hwl & Hsb' & Hbd & Hbp & Hown & _ & Hchain).
  cbv zeta in *. rewrite Hi in Hi'. injection Hi' as <-.
  rewrite Hsb in Hsb'. injection Hsb' as <-.
  set (path := nth 1 (w_argv w) "") in *.
  pose proof (@all_whitelisted_lacks_NUL true path Hw) as Hn.
  assert (Hwb : all_whitelisted true (truncate i path) = true).
  { apply all_whitelisted_allowed. intros c Hc.
    apply (proj1 (all_whitelisted_allowed true path) Hw).
    clear - Hc. revert i Hc. induction path as [|a p IH]; intros [|i]; simpl;
      try discriminate.
    intros H. apply orb_prop in H. destruct H as [H|H];
      [now rewrite H | rewrite (IH _ H); apply orb_true_r]. }
  remember (run b w) as r eqn:Hr. unfold run, main in Hr.
  assert (Q : quiet w (initial w)) by (split; reflexivity).
  (* portable_clearenv *)
  unfold bind at 1 in Hr.
  destruct (@portable_clearenv_returns b (initial w) Henv)
    as (s1 & E1 & V1 & C1 & t1 & Lg1 & B1).
  rewrite E1 in Hr. cbv beta iota in Hr.
  assert (Q1 : quiet w s1).
  { destruct Q as [Qc Ql]. split; [congruence|].
    rewrite Lg1, forallb_app, Ql, B1. reflexivity. }
  assert (W1 : environment_cleared b w s1).
  { split; [exact V1|].
    rewrite (portable_clearenv_entry b (initial w) eq_refl E1).
    reflexivity. }
  (* check_privileges *)
  unfold bind at 1 in Hr.
  destruct (check_privileges_cases b s1) as [[_ E2]|(d & A & _)].
  2:{ exfalso. destruct Q1 as [Qc _]. rewrite Qc in A.
      destruct Hid as (I1 & I2 & I3 & I4).
      destruct A as [[A _]|[(_ & [A|A] & _)|(_ & _ & _ & A & _)]];
        contradiction. }
  rewrite E2 in Hr. cbv beta iota in Hr.
  destruct Q1 as [Qc1 Ql1]. rewrite Qc1 in Hr.
  (* open_config *)
  unfold bind at 1 in Hr.
  destruct (open_config_cases b w s1)
    as [(f' & s3 & E3 & Hf' & Hcfg3 & Heof3 & X3)|(s3 & E3 & X3)].
  2:{ exfalso. unfold open_config, bind, fopen in E3. rewrite Hf in E3.
      discriminate E3. }
  rewrite Hf in Hf'. injection Hf' as <-. rewrite E3 in Hr.
  assert (Q3 : quiet w s3) by (eapply quiet_extends; [split|]; eauto).
  assert (W3 : environment_cleared b w s3)
    by (eapply (environment_cleared_ok (m:=open_config b w));
        eauto using keeps_open_config).
  (* check_config_file *)
  unfold bind at 1 in Hr.
  destruct (@check_config_file_returns b w f s3 V Hf) as (s4 & E4).
  rewrite E4 in Hr.
  destruct (frame_ok (@frame_check_config_file b w f) E4) as (X4 & Hcfg4 & Heof4).
  assert (Q4 : quiet w s4) by (eapply quiet_extends; eauto).
  assert (W4 : environment_cleared b w s4)
    by (eapply (environment_cleared_ok (m:=check_config_file b w f));
        eauto using keeps_check_config_file).
  (* positional_path *)
  unfold bind at 1 in Hr. unfold positional_path at 1 in Hr.
  assert (Hlt : (List.length (w_argv w) <? 3)%nat = false)
    by (apply Nat.ltb_ge; lia).
  rewrite Hlt in Hr. unfold ret at 1 in Hr. fold path in Hr.
  (* stat_target *)
  unfold bind at 1 in Hr.
  destruct (@stat_target_returns b w path st s4 Hw Hst Hd Hp) as (s6 & E6).
  rewrite E6 in Hr.
  destruct (frame_ok (@frame_stat_target b w path) E6) as (X6 & Hcfg6 & Heof6).
  assert (Q6 : quiet w s6) by (eapply quiet_extends; eauto).
  assert (W6 : environment_cleared b w s6)
    by (eapply (environment_cleared_ok (m:=stat_target b w path));
        eauto using keeps_stat_target).
  (* split_target *)
  unfold bind at 1 in Hr.
  rewrite (@split_target_returns b path i s6 Hn H0 Hi Hpos L1 L2 L3) in Hr.
  cbv beta iota in Hr.
  (* stat_base *)
  unfold bind at 1 in Hr. rewrite <- Hown in Hr.
  destruct (@stat_base_returns b w (truncate i path) (advance (S i) path) sb s6
              Hwb Hwl Hsb Hbd Hbp) as (s8 & E8).
  rewrite E8 in Hr.
  destruct (frame_ok (@frame_stat_base b w _ _ _) E8) as (X8 & Hcfg8 & Heof8).
  assert (Q8 : quiet w s8) by (eapply quiet_extends; eauto).
  assert (W8 : environment_cleared b w s8)
    by (eapply (environment_cleared_ok (m:=stat_base b w (truncate i path) (advance (S i) path) (st_uid sb)));
        eauto using keeps_stat_base).
  (* owner_name *)
  unfold bind at 1 in Hr.
  destruct (@owner_name_returns b w sb name s8 Hname) as (s9 & E9).
  rewrite E9 in Hr.
  destruct (frame_ok (@frame_owner_name b w sb) E9) as (X9 & Hcfg9 & Heof9).
  assert (Q9 : quiet w s9) by (eapply quiet_extends; eauto).
  assert (W9 : environment_cleared b w s9)
    by (eapply (environment_cleared_ok (m:=owner_name b w sb));
        eauto using keeps_owner_name).
  (* check_base_path *)
  unfold bind at 1 in Hr.
  assert (Hb0 : byte_at 0 (truncate i path) = SLASH).
  { rewrite byte_at_truncate. apply Nat.ltb_lt in Hpos. now rewrite Hpos. }
  destruct (@check_base_path_returns b w (truncate i path) s9 Hb0 Hchain)
    as (s10 & E10).
  rewrite E10 in Hr.
  destruct (frame_ok (@frame_check_base_path b w _) E10) as (X10 & Hcfg10 & Heof10).
  assert (Q10 : quiet w s10) by (eapply quiet_extends; eauto).
  assert (W10 : environment_cleared b w s10)
    by (eapply (environment_cleared_ok (m:=check_base_path b w (truncate i path)));
        eauto using keeps_check_base_path).
  (* authorize *)
  unfold bind at 1 in Hr.
  assert (Hbytes : s_cfg s10 = of_bytes f) by congruence.
  assert (Hnoeof : s_eof s10 = false) by congruence.
  destruct (@authorize_returns b w name (truncate i path) s10) as (s11 & E11);
    [rewrite Hbytes; assumption | assumption | assumption
    | rewrite Hbytes; assumption |].
  rewrite E11 in Hr.
  destruct (authorize_cases b w name (truncate i path) s10)
    as [(s11' & E11' & X11 & _)|(s11' & E11' & _)]; [|congruence].
  rewrite E11 in E11'. injection E11' as <-.
  assert (Q11 : quiet w s11) by (eapply quiet_extends; eauto).
  assert (W11 : environment_cleared b w s11)
    by (eapply (environment_cleared_ok (m:=authorize b w name (truncate i path)));
        eauto using keeps_authorize).
  (* final_path *)
  fold (final_path_of path i) in Hr.
  rewrite (@final_path_round_trip path i Hn Hi) in Hr.
  assert (Hfp : (Z.of_nat (String.length path) <=? 0) = false).
  { apply Z.leb_gt. destruct path; [discriminate H0 | simpl; lia]. }
  rewrite Hfp in Hr. unfold when at 1 in Hr. unfold bind at 1, ret at 1 in Hr.
  assert (Hle : (3 <=? List.length (w_argv w))%nat = true)
    by now apply Nat.leb_le.
  rewrite Hle, andb_true_l in Hr.
  exists s11, i, sb. cbv zeta. fold path.
  repeat (split; [assumption|]). rewrite Hr.
  destruct (Ascii.eqb (byte_at 0 (nth 2 (w_argv w) "")) "-"); reflexivity.
Qed.

Lemma exec_mode_succeeds (b : Build) (w : World) (fp : string)
  (args : list string) (envp : EnvPtr) (s0 : State) :
  let prog := nth 2 args "" in
  let u := ruid (s_cred s0) in
  w_privileged w = Kernel.classic ->
  identity_accepted (s_cred s0) -> sgid (s_cred s0) <> 0 ->
  w_chdir w fp = 0 -> w_chroot w fp = 0 -> w_chdir w "/" = 0 ->
  all_whitelisted true prog = true ->
  exists s,
    exec_mode b w u fp args envp s0
    = Halt (if w_execve w prog
            then Replaced prog (skipn 2 args) (strings_at envp s0)
            else Exit (ERR_EXIT_CODE b)) s /\
    s_log s
    = (s_log s0 ++
       [E_chdir fp 0; E_chroot fp 0; E_setuid u 0;
        E_setuid 0 (-1); E_seteuid 0 (-1); E_setgid 0 (-1); E_setegid 0 (-1);
        E_chdir "/" 0; E_execve prog (skipn 2 args) (strings_at envp s0)] ++
       (if w_execve w prog then [] else [E_stderr (D_exec prog)]))%list /\
    s_cred s = dropped u (s_cred s0) /\
    s_environ s = s_environ s0.
Proof.
  cbv zeta. intros Hpriv (He & Hg & Heg & Hu) Hsg K1 K2 K4 K5.
  remember (exec_mode b w (ruid (s_cred s0)) fp args envp s0) as r eqn:Hr.
  unfold exec_mode, verify_dropped in Hr. cbv zeta in Hr.
  rewrite nth_skipn_2 in Hr.
  cbv beta iota zeta delta [bind when ret fatal eprint emit exit chdir chroot
    setuid seteuid setgid setegid orM succeeds getuid geteuid getgid getegid
    whitelist_char_check execve] in Hr.
  rewrite K1, K2, K4, K5, Hpriv in Hr.
  destruct s0 as [[ru eu su rg eg sg] env ent cfg eof lg].
  cbn [s_cred s_environ s_log ruid euid suid rgid egid sgid log with_cred] in *.
  subst eu.
  assert (Z1 : (0 =? ru) = false) by (apply Z.eqb_neq; congruence).
  assert (Z2 : (ru =? 0) = false) by (now apply Z.eqb_neq).
  assert (Z3 : (0 =? rg) = false) by (apply Z.eqb_neq; congruence).
  assert (Z4 : (rg =? 0) = false) by (now apply Z.eqb_neq).
  assert (Z5 : (0 =? eg) = false) by (apply Z.eqb_neq; congruence).
  assert (Z6 : (eg =? 0) = false) by (now apply Z.eqb_neq).
  assert (Z7 : (0 =? sg) = false) by (apply Z.eqb_neq; congruence).
  unfold Kernel.setuid, Kernel.seteuid, Kernel.setgid, Kernel.setegid,
    Kernel.classic in Hr.
  repeat (progress
    (cbn [s_cred s_environ s_log ruid euid suid rgid egid sgid log with_cred
          negb orb] in Hr;
     rewrite ?Z1, ?Z2, ?Z3, ?Z4, ?Z5, ?Z6, ?Z7 in Hr;
     try change (-1 =? 0) with false in Hr;
     try change (0 =? 0) with true in Hr;
     cbv beta iota in Hr)).
  destruct (w_execve w (nth 2 args "")); subst r; eexists;
    (split; [reflexivity|]); simpl; rewrite <- ?app_assoc; simpl;
    repeat split; reflexivity.
Qed.

Section ProvisionerSucceeds.

Variable b : Build.
Variable w : World.

Lemma create_fundamental_device_succeeds (cp d : string) (s : State) :
  w_stat w (cp ++ d) = None -> w_stat w d <> None ->
  (if USE_MOUNT_LOFS_INSTEAD_OF_MKNOD b
   then w_mount w (cp ++ d) = 0 else w_mknod w (cp ++ d) = 0) ->
  exists s', create_fundamental_device b w cp d s = Ok tt s'.
Proof.
  intros H1 H2 H3. unfold create_fundamental_device. cbv zeta.
  unfold sys_stat, mkdir, mount, mknod.
  cbv beta iota delta [bind emit ret when fatal eprint exit].
  rewrite H1. destruct (w_stat w d) as [st|]; [|contradiction].
  destruct (USE_MOUNT_LOFS_INSTEAD_OF_MKNOD b); rewrite H3; simpl.
  - destruct (negb (w_mkdir w (cp ++ d) =? 0)); eauto.
  - eauto.
Qed.

Lemma create_fundamental_devices_succeeds (cp : string) (s : State) :
  installable b w cp ->
  exists s', create_fundamental_devices b w cp s = Ok 0 s'.
Proof.
  intros [Hd Hl]. unfold create_fundamental_devices.
  unfold bind at 1, sys_umask at 1, bind at 1, emit at 1, ret at 1.
  assert (Hdev : forall d s1, In d DEVICES ->
            exists s', create_fundamental_device b w cp d s1 = Ok tt s').
  { intros d s1 Hin. destruct (Hd d Hin) as (A & B & C).
    now apply create_fundamental_device_succeeds. }
  unfold bind at 1.
  destruct (Hdev "/dev/null" (log (E_umask 56) s)) as (s1 & ->);
    [simpl; tauto|].
  unfold bind at 1.
  destruct (Hdev "/dev/zero" s1) as (s2 & ->); [simpl; tauto|].
  unfold bind at 1.
  destruct (Hdev "/dev/random" s2) as (s3 & ->); [simpl; tauto|].
  unfold bind at 1.
  destruct (Hdev "/dev/urandom" s3) as (s4 & ->); [simpl; tauto|].
  unfold bind at 1.
  destruct (LINUX b).
  2:{ unfold ret at 1. unfold sys_umask, bind, emit, ret. eauto. }
  destruct (Hl eq_refl) as (C1 & C2 & (st & C3 & C4 & C5) & C6).
  cbv zeta. change (Z.lor 511 S_ISVTX) with 1023. fold SHM.
  unfold umount2, rmdir, mkdir, chown, chmod, sys_stat, mount, sys_umask.
  cbv beta iota delta [bind emit ret when fatal eprint exit].
  apply Z.ltb_ge in C1, C2, C6. rewrite C1, C2, C3, C4, C5, Z.eqb_refl, C6.
  simpl. eauto.
Qed.

Lemma unlink_fundamental_device_succeeds (cp d : string) (s : State) :
  (if USE_MOUNT_LOFS_INSTEAD_OF_MKNOD b
   then w_umount w (cp ++ d) = 0 /\ w_rmdir w (cp ++ d) = 0
   else w_unlink w (cp ++ d) = 0) ->
  exists s', unlink_fundamental_device b w cp d s = Ok tt s'.
Proof.
  intros H. unfold unlink_fundamental_device. cbv zeta.
  unfold umount, rmdir, unlink.
  cbv beta iota delta [bind emit ret when fatal eprint exit].
  destruct (USE_MOUNT_LOFS_INSTEAD_OF_MKNOD b).
  - destruct H as [-> ->]. simpl. eauto.
  - rewrite H. simpl. eauto.
Qed.

Lemma unlink_fundamental_devices_succeeds (cp : string) (s : State) :
  removable b w cp ->
  exists s', unlink_fundamental_devices b w cp s = Ok 0 s'.
Proof.
  intros [Hd Hl]. unfold unlink_fundamental_devices.
  assert (Hdev : forall d s1, In d DEVICES ->
            exists s', unlink_fundamental_device b w cp d s1 = Ok tt s').
  { intros d s1 Hin. apply unlink_fundamental_device_succeeds.
    now apply Hd. }
  unfold bind at 1.
  destruct (Hdev "/dev/null" s) as (s1 & ->); [simpl; tauto|].
  unfold bind at 1.
  destruct (Hdev "/dev/zero" s1) as (s2 & ->); [simpl; tauto|].
  unfold bind at 1.
  destruct (Hdev "/dev/random" s2) as (s3 & ->); [simpl; tauto|].
  unfold bind at 1.
  destruct (Hdev "/dev/urandom" s3) as (s4 & ->); [simpl; tauto|].
  unfold bind at 1.
  destruct (LINUX b).
  2:{ unfold ret. eauto. }
  destruct (Hl eq_refl) as (C1 & C2).
  cbv zeta. fold SHM. unfold umount2, rmdir.
  cbv beta iota delta [bind emit ret when fatal eprint exit].
  apply Z.ltb_ge in C1, C2. rewrite C1, C2. simpl. eauto.
Qed.

End ProvisionerSucceeds.

(* ===================================================================== *)
(** ** Authorized runs *)
(* ===================================================================== *)

Lemma strncmp_eq_first (x : ascii) (a b : string) (n : nat) :
  x <> NUL -> strncmp_eq (String x a) b (S n) = true -> byte_at 0 b = x.
Proof.
  intros Hx. destruct b as [|y b]; simpl.
  - intros H. apply Ascii.eqb_eq in H. contradiction.
  - destruct (Ascii.eqb_spec x y) as [->|]; [reflexivity | discriminate].
Qed.

Lemma strncmp_eq_differ (x y : ascii) (a b : string) (n : nat) :
  x <> y -> strncmp_eq (String x a) (String y b) (S n) = false.
Proof.
  intros H. simpl. destruct (Ascii.eqb_spec x y); [contradiction | reflexivity].
Qed.

Lemma strncmp_eq_step (x : ascii) (a b : string) (n : nat) :
  x <> NUL ->
  strncmp_eq (String x a) (String x b) (S n) = strncmp_eq a b n.
Proof.
  intros H. simpl. rewrite Ascii.eqb_refl.
  destruct (Ascii.eqb_spec x NUL); [contradiction | reflexivity].
Qed.

(** An argument that [strncmp] takes for [--uninstall-devices] is not
    taken for [--install-devices]. *)
Lemma uninstall_is_not_install (arg2 : string) :
  strncmp_eq "--uninstall-devices" arg2 19 = true ->
  strncmp_eq "--install-devices" arg2 17 = false.
Proof.
  intros H.
  assert (Hd : "-"%char <> NUL) by discriminate.
  pose proof (@strncmp_eq_first _ _ _ _ Hd H) as H0.
  destruct arg2 as [|a0 r0]; [simpl in H0; discriminate H0|]. simpl in H0. subst a0.
  rewrite strncmp_eq_step in H |- * by discriminate.
  pose proof (@strncmp_eq_first _ _ _ _ Hd H) as H1.
  destruct r0 as [|a1 r1]; [simpl in H1; discriminate H1|]. simpl in H1. subst a1.
  rewrite strncmp_eq_step in H |- * by discriminate.
  assert (Hu : "u"%char <> NUL) by discriminate.
  pose proof (@strncmp_eq_first _ _ _ _ Hu H) as H2.
  destruct r1 as [|a2 r2]; [simpl in H2; discriminate H2|]. simpl in H2. subst a2.
  apply strncmp_eq_differ. discriminate.
Qed.

(** X19.  An authorized run in Exec mode goes through.  When the
    command holds only whitelisted bytes, the kernel treats effective
    uid 0 as privileged, the saved gid is not 0 and [chdir] and [chroot]
    succeed, the run makes, after benign calls only, exactly the calls
    [chdir(argv[1])], [chroot(argv[1])], [setuid(real uid)], the four
    failing regain attempts, [chdir("/")] and [execve]; it ends with
    the image replaced when [execve] succeeds and with [Failed to exec]
    and the error code when it fails, in both cases with real, effective
    and saved uid equal to the invoking real uid and an empty
    environment of its own.  The block given to [execve] holds the
    strings that [envp] points to after the clearing: the entry
    environment in the build with [clearenv], none in the build that
    unsets the variables one by one. *)
Theorem authorized_run_executes_the_command (b : Build) (w : World) :
  let path := nth 1 (w_argv w) "" in
  let prog := nth 2 (w_argv w) "" in
  authorized b w ->
  byte_at 0 prog <> "-"%char ->
  all_whitelisted true prog = true ->
  w_privileged w = Kernel.classic ->
  sgid (w_cred w) <> 0 ->
  w_chdir w path = 0 -> w_chroot w path = 0 -> w_chdir w "/" = 0 ->
  exists s0 s,
    quiet w s0 /\
    run b w
    = Halt (if w_execve w prog
            then Replaced prog (skipn 2 (w_argv w))
                   (block_after_clearing b w)
            else Exit (ERR_EXIT_CODE b)) s /\
    s_log s
    = (s_log s0 ++
       [E_chdir path 0; E_chroot path 0; E_setuid (ruid (w_cred w)) 0;
        E_setuid 0 (-1); E_seteuid 0 (-1); E_setgid 0 (-1); E_setegid 0 (-1);
        E_chdir "/" 0;
        E_execve prog (skipn 2 (w_argv w)) (block_after_clearing b w)] ++
       (if w_execve w prog then [] else [E_stderr (D_exec prog)]))%list /\
    s_cred s = dropped (ruid (w_cred w)) (w_cred w) /\
    s_environ s = [].
Proof.
  cbv zeta. intros Ha Hmode Hw Hpriv Hsg K1 K2 K4.
  pose proof Ha as (_ & Hid & _).
  destruct (@authorized_reaches_dispatch b w Ha)
    as (s0 & i & sb & Q & [V Hblock] & _ & _ & Hr).
  cbv zeta in Hr. apply Ascii.eqb_neq in Hmode. rewrite Hmode in Hr.
  pose proof Q as [Qc _].
  destruct (@exec_mode_succeeds b w (nth 1 (w_argv w) "") (w_argv w)
              ENTRY s0) as (s & E & L & C & V');
    rewrite ?Qc; try assumption.
  cbv zeta in E, L.
  change (strings_at ENTRY s0) with (entry_strings s0) in E, L.
  rewrite Hblock in E, L. rewrite Qc in E, C, L.
  exists s0, s. split; [exact Q|]. split; [congruence|].
  split; [exact L|]. split; [exact C | congruence].
Qed.

(** X20.  An authorized run of the owner of the base whose [argv[2]]
    passes the comparison with [--install-devices] exits with 0, still
    with the credentials it was started with, after creating each of the
    four devices below [argv[1]], provided the host lets the creation
    through. *)
Theorem owner_installs_devices (b : Build) (w : World) (i : nat) (sb : stat) :
  let path := nth 1 (w_argv w) "" in
  authorized b w ->
  strncmp_eq "--install-devices" (nth 2 (w_argv w) "") 17 = true ->
  strrchr path SLASH = Some i ->
  w_lstat w (truncate i path) = Some sb ->
  ruid (w_cred w) = st_uid sb ->
  installable b w path ->
  exists s,
    run b w = Halt (Exit 0) s /\ s_cred s = w_cred w /\
    forall d, In d DEVICES ->
      if USE_MOUNT_LOFS_INSTEAD_OF_MKNOD b
      then In (E_mount d (path ++ d) "lofs" 0) (s_log s)
      else exists mode rdev, In (E_mknod (path ++ d) mode rdev 0) (s_log s).
Proof.
  cbv zeta. intros Ha Hflag Hi Hsb Hown Hinst.
  destruct (@authorized_reaches_dispatch b w Ha)
    as (s0 & i' & sb' & Q & V & Hi' & Hsb' & Hr).
  cbv zeta in Hi', Hsb', Hr.
  rewrite Hi in Hi'. injection Hi' as <-.
  rewrite Hsb in Hsb'. injection Hsb' as <-.
  assert (Hmode : Ascii.eqb (byte_at 0 (nth 2 (w_argv w) "")) "-" = true).
  { apply Ascii.eqb_eq.
    apply (@strncmp_eq_first _ _ _ _) with (2 := Hflag). discriminate. }
  rewrite Hmode in Hr. unfold device_mode in Hr.
  rewrite Hown, Z.eqb_refl, Hflag in Hr.
  cbv beta iota delta [bind when ret exit negb] in Hr.
  destruct (@create_fundamental_devices_succeeds b w (nth 1 (w_argv w) "") s0
              Hinst) as (s1 & E).
  rewrite E in Hr. exists s1. split; [exact Hr|].
  destruct (@steady_create_fundamental_devices b w (nth 1 (w_argv w) "") s0)
    as [C _].
  rewrite E in C. simpl in C. destruct Q as [Qc _]. split; [congruence|].
  apply create_fundamental_devices_returns in E as (_ & t & L & N & _).
  intros d Hd. specialize (N d Hd). rewrite L.
  destruct (USE_MOUNT_LOFS_INSTEAD_OF_MKNOD b).
  - apply in_or_app. right. right. apply in_or_app. now left.
  - destruct N as (m & r & N). exists m, r.
    apply in_or_app. right. right. apply in_or_app. now left.
Qed.

(** X21.  An authorized run of the owner of the base whose [argv[2]]
    passes the comparison with [--uninstall-devices] exits with 0, still
    with the credentials it was started with, after removing each of the
    four devices below [argv[1]], provided the host lets the removal
    through. *)
Theorem owner_removes_devices (b : Build) (w : World) (i : nat) (sb : stat) :
  let path := nth 1 (w_argv w) "" in
  authorized b w ->
  strncmp_eq "--uninstall-devices" (nth 2 (w_argv w) "") 19 = true ->
  strrchr path SLASH = Some i ->
  w_lstat w (truncate i path) = Some sb ->
  ruid (w_cred w) = st_uid sb ->
  removable b w path ->
  exists s,
    run b w = Halt (Exit 0) s /\ s_cred s = w_cred w /\
    forall d, In d DEVICES ->
      if USE_MOUNT_LOFS_INSTEAD_OF_MKNOD b
      then In (E_umount (path ++ d) 0) (s_log s) /\
           In (E_rmdir (path ++ d) 0) (s_log s)
      else In (E_unlink (path ++ d) 0) (s_log s).
Proof.
  cbv zeta. intros Ha Hflag Hi Hsb Hown Hrem.
  destruct (@authorized_reaches_dispatch b w Ha)
    as (s0 & i' & sb' & Q & V & Hi' & Hsb' & Hr).
  cbv zeta in Hi', Hsb', Hr.
  rewrite Hi in Hi'. injection Hi' as <-.
  rewrite Hsb in Hsb'. injection Hsb' as <-.
  assert (Hmode : Ascii.eqb (byte_at 0 (nth 2 (w_argv w) "")) "-" = true).
  { apply Ascii.eqb_eq.
    apply (@strncmp_eq_first _ _ _ _) with (2 := Hflag). discriminate. }
  pose proof (@uninstall_is_not_install _ Hflag) as H17.
  rewrite Hmode in Hr. unfold device_mode in Hr.
  rewrite Hown, Z.eqb_refl, H17, Hflag in Hr.
  cbv beta iota delta [bind when ret exit negb] in Hr.
  destruct (@unlink_fundamental_devices_succeeds b w (nth 1 (w_argv w) "") s0
              Hrem) as (s1 & E).
  rewrite E in Hr. exists s1. split; [exact Hr|].
  destruct (@steady_unlink_fundamental_devices b w (nth 1 (w_argv w) "") s0)
    as [C _].
  rewrite E in C. simpl in C. destruct Q as [Qc _]. split; [congruence|].
  apply unlink_fundamental_devices_returns in E as (_ & t & L & N & _).
  intros d Hd. specialize (N d Hd). rewrite L.
  destruct (USE_MOUNT_LOFS_INSTEAD_OF_MKNOD b).
  - destruct N as [N1 N2]. split; apply in_or_app; now right.
  - apply in_or_app. now right.
Qed.

(* ===================================================================== *)
(** ** The properties on the hosts of the examples *)
(* ===================================================================== *)

Ltac find_in := vm_compute; repeat (first [left; reflexivity | right]).

(** The two variables of the examples have names: in the build without
    [clearenv] they are removed by at most two calls. *)
Lemma portable_clearenv_rejects_empty_name_witness :
  HAVE_CLEARENV Hosts.build_unsetenv = false /\
  Forall (fun e => strchr e "=" = true) (s_environ (initial Hosts.happy)) /\
  exists t,
    Forall (fun e => exists name, e = E_unsetenv name 0) t /\
    (List.length t <= 2)%nat /\
    exists s', portable_clearenv Hosts.build_unsetenv (initial Hosts.happy) = Ok tt s' /\
               s_environ s' = [] /\ s_log s' = t.
Proof.
  assert (H : Forall (fun e => strchr e "=" = true)
                (s_environ (initial Hosts.happy)))
    by (repeat constructor).
  split; [reflexivity|]. split; [exact H|].
  destruct (@portable_clearenv_rejects_empty_name Hosts.build_unsetenv
              (initial Hosts.happy) eq_refl H)
    as (t & F & L & [(_ & s' & R & V & _ & Lg)|(_ & s' & R & _)]).
  - exists t. split; [exact F|]. split; [exact L|]. exists s'. auto.
  - exfalso. vm_compute in R. discriminate R.
Defined.

(** Without the setuid bit the effective uid is the caller's; the two
    variables of the examples hold an [=], so that the build without
    [clearenv] can empty the environment. *)
Lemma refuses_wrong_identity_witness :
  clearable Hosts.build_unsetenv (w_envp Hosts.not_setuid) /\
  euid (w_cred Hosts.not_setuid) <> 0 /\
  exists s1,
    run Hosts.build_unsetenv Hosts.not_setuid
    = Halt (Exit (ERR_EXIT_CODE Hosts.build_unsetenv)) s1 /\
    s_cred s1 = w_cred Hosts.not_setuid.
Proof.
  assert (Hc : clearable Hosts.build_unsetenv (w_envp Hosts.not_setuid))
    by (right; repeat constructor).
  assert (H : euid (w_cred Hosts.not_setuid) <> 0) by discriminate.
  split; [exact Hc|]. split; [exact H|].
  destruct (@refuses_wrong_identity Hosts.build_unsetenv Hosts.not_setuid Hc
              (or_introl H))
    as (s1 & t & d & R & C & _).
  exists s1. split; [exact R | exact C].
Defined.

(** A host without the configuration file, in the build without
    [clearenv]. *)
Lemma unopened_configuration_is_fatal_witness :
  clearable Hosts.build_unsetenv (w_envp Hosts.no_config) /\
  w_fopen Hosts.no_config (CFG Hosts.build_unsetenv) = None /\
  exists s1,
    run Hosts.build_unsetenv Hosts.no_config
    = Halt (Exit (ERR_EXIT_CODE Hosts.build_unsetenv)) s1 /\
    s_cred s1 = w_cred Hosts.no_config.
Proof.
  assert (Hc : clearable Hosts.build_unsetenv (w_envp Hosts.no_config))
    by (right; repeat constructor).
  split; [exact Hc|]. split; [reflexivity|].
  destruct (@unopened_configuration_is_fatal Hosts.build_unsetenv
              Hosts.no_config Hc eq_refl)
    as (s1 & t & R & C & _).
  exists s1. split; [exact R | exact C].
Defined.

(** The target alone, with no command, in the build without
    [clearenv]. *)
Lemma too_few_arguments_are_fatal_witness :
  (List.length (w_argv Hosts.two_args) < 3)%nat /\
  clearable Hosts.build_unsetenv (w_envp Hosts.two_args) /\
  s_cred (state_of (run Hosts.build_unsetenv Hosts.two_args))
  = w_cred Hosts.two_args /\
  exists s1,
    run Hosts.build_unsetenv Hosts.two_args
    = Halt (Exit (ERR_EXIT_CODE Hosts.build_unsetenv)) s1.
Proof.
  assert (H : (List.length (w_argv Hosts.two_args) < 3)%nat) by (simpl; lia).
  assert (Hc : clearable Hosts.build_unsetenv (w_envp Hosts.two_args))
    by (right; repeat constructor).
  split; [exact H|]. split; [exact Hc|].
  destruct (@too_few_arguments_are_fatal Hosts.build_unsetenv Hosts.two_args H)
    as (C & _ & R).
  split; [exact C | exact (R Hc)].
Defined.

(** The run of scenario 1 calls [chroot], so its target passed the
    checks. *)
Lemma changes_need_a_checked_target_witness :
  In (E_chroot "/srv/jails/work" 0)
     (s_log (state_of (run Hosts.build Hosts.happy))) /\
  benign (E_chroot "/srv/jails/work" 0) = false /\
  target_vetted Hosts.happy.
Proof.
  assert (Hin : In (E_chroot "/srv/jails/work" 0)
                   (s_log (state_of (run Hosts.build Hosts.happy))))
    by find_in.
  split; [exact Hin|]. split; [reflexivity|].
  exact (@changes_need_a_checked_target Hosts.build Hosts.happy _ Hin eq_refl).
Defined.

(** The owner's installation creates [dev/null], so the configuration
    file passed its checks. *)
Lemma changes_need_a_checked_configuration_witness :
  In (E_mknod "/srv/jails/work/dev/null" 8630 259 0)
     (s_log (state_of (run Hosts.build Hosts.alice_installs))) /\
  benign (E_mknod "/srv/jails/work/dev/null" 8630 259 0) = false /\
  config_vetted Hosts.build Hosts.alice_installs.
Proof.
  assert (Hin : In (E_mknod "/srv/jails/work/dev/null" 8630 259 0)
                   (s_log (state_of (run Hosts.build Hosts.alice_installs))))
    by find_in.
  split; [exact Hin|]. split; [reflexivity|].
  exact (@changes_need_a_checked_configuration Hosts.build Hosts.alice_installs _
           Hin eq_refl).
Defined.

(** The run of scenario 1 executes [/bin/sh], its [argv[2]]. *)
Lemma execve_is_called_on_whitelisted_argv2_witness :
  In (E_execve "/bin/sh" ["/bin/sh"] ["HOME=/home/alice"; "PATH=/usr/bin"])
     (s_log (state_of (run Hosts.build Hosts.happy))) /\
  "/bin/sh" = nth 2 (w_argv Hosts.happy) "" /\
  all_whitelisted true "/bin/sh" = true.
Proof.
  assert (Hin : In (E_execve "/bin/sh" ["/bin/sh"]
                      ["HOME=/home/alice"; "PATH=/usr/bin"])
                   (s_log (state_of (run Hosts.build Hosts.happy))))
    by find_in.
  split; [exact Hin|].
  destruct (@execve_is_called_on_whitelisted_argv2 Hosts.build Hosts.happy
              _ _ _ Hin) as (H1 & H2 & _).
  split; [exact H1 | exact H2].
Defined.

(** The owner's installation keeps its credentials, and its [mknod] of
    [dev/null] is a change below [argv[1]]. *)
Lemma device_mode_is_confined_witness :
  byte_at 0 (nth 2 (w_argv Hosts.alice_installs) "") = "-"%char /\
  s_cred (state_of (run Hosts.build Hosts.alice_installs)) = w_cred Hosts.alice_installs /\
  In (E_mknod "/srv/jails/work/dev/null" 8630 259 0)
     (s_log (state_of (run Hosts.build Hosts.alice_installs))) /\
  provisioner_call "/srv/jails/work"
    (E_mknod "/srv/jails/work/dev/null" 8630 259 0).
Proof.
  assert (Hin : In (E_mknod "/srv/jails/work/dev/null" 8630 259 0)
                   (s_log (state_of (run Hosts.build Hosts.alice_installs))))
    by find_in.
  split; [reflexivity|].
  destruct (@device_mode_is_confined Hosts.build Hosts.alice_installs eq_refl)
    as (C & F & _).
  split; [exact C|]. split; [exact Hin|].
  destruct (F _ Hin) as [B|P]; [discriminate B | exact P].
Defined.

(** On the host of the examples the provisioner returns 0 between the
    two [umask] calls. *)
Lemma install_returns_after_all_nodes_witness :
  create_fundamental_devices Hosts.build Hosts.happy "/srv/jails/work"
    (initial Hosts.happy)
  = Ok 0 (state_of (create_fundamental_devices Hosts.build Hosts.happy
                      "/srv/jails/work" (initial Hosts.happy))) /\
  exists t,
    s_log (state_of (create_fundamental_devices Hosts.build Hosts.happy
                       "/srv/jails/work" (initial Hosts.happy)))
    = (E_umask 56 :: t ++ [E_umask 18])%list /\
    exists mode rdev, In (E_mknod "/srv/jails/work/dev/null" mode rdev 0) t.
Proof.
  assert (H : create_fundamental_devices Hosts.build Hosts.happy
                "/srv/jails/work" (initial Hosts.happy)
              = Ok 0 (state_of (create_fundamental_devices Hosts.build
                                  Hosts.happy "/srv/jails/work"
                                  (initial Hosts.happy))))
    by (vm_compute; reflexivity).
  split; [exact H|].
  destruct (@install_returns_after_all_nodes _ _ _ _ _ _ H)
    as (_ & _ & t & L & N & _).
  exists t. split; [exact L|].
  exact (N "/dev/null" (or_introl eq_refl)).
Defined.

(** On the host of the examples the removal returns 0 and has unlinked
    [dev/urandom]. *)
Lemma uninstall_returns_after_all_nodes_witness :
  unlink_fundamental_devices Hosts.build Hosts.happy "/srv/jails/work"
    (initial Hosts.happy)
  = Ok 0 (state_of (unlink_fundamental_devices Hosts.build Hosts.happy
                      "/srv/jails/work" (initial Hosts.happy))) /\
  exists t,
    s_log (state_of (unlink_fundamental_devices Hosts.build Hosts.happy
                       "/srv/jails/work" (initial Hosts.happy))) = t /\
    In (E_unlink "/srv/jails/work/dev/urandom" 0) t.
Proof.
  assert (H : unlink_fundamental_devices Hosts.build Hosts.happy
                "/srv/jails/work" (initial Hosts.happy)
              = Ok 0 (state_of (unlink_fundamental_devices Hosts.build
                                  Hosts.happy "/srv/jails/work"
                                  (initial Hosts.happy))))
    by (vm_compute; reflexivity).
  split; [exact H|].
  destruct (@uninstall_returns_after_all_nodes _ _ _ _ _ _ H)
    as (_ & _ & t & L & N & _).
  exists t. split; [exact L|].
  exact (N "/dev/urandom" (or_intror (or_intror (or_intror (or_introl eq_refl))))).
Defined.

(** The hosts of the examples let a run of [alice] through to the
    dispatch. *)
Ltac host_authorized :=
  match goal with
  | |- authorized ?b ?w =>
      let V := fresh "V" in
      let T := fresh "T" in
      let o := fresh "o" in
      let Hr := fresh "Hr" in
      let Hs := fresh "Hs" in
      destruct (main_vetted b w) as [(o & ?s1 & Hr & _ & Hs)|[V T]];
      [ exfalso; vm_compute in Hr; injection Hr as <- _;
        destruct Hs as [Hs|[Hs _]]; discriminate Hs
      | split; [first [left; reflexivity | right; reflexivity]|];
        split; [repeat split; discriminate|];
        split; [exact V|]; split; [exact T|];
        split; [reflexivity|];
        exists Hosts.conf, 10%nat, (Hosts.dir 1001 488), "alice";
        split; [reflexivity|];
        split; [simpl; repeat split; discriminate|];
        split; [reflexivity|];
        split; [discriminate|]; split; [discriminate|];
        split; [discriminate|];
        split; [reflexivity|]; split; [reflexivity|];
        vm_compute; right; left; reflexivity ]
  end.

(** The run of scenario 1 in the build without [clearenv] is
    authorized and ends in the shell, as [alice], with no variable. *)
Lemma authorized_run_executes_the_command_witness :
  authorized Hosts.build_unsetenv Hosts.happy /\
  exists s,
    run Hosts.build_unsetenv Hosts.happy
    = Halt (Replaced "/bin/sh" ["/bin/sh"] []) s /\
    ruid (s_cred s) = 1001 /\ euid (s_cred s) = 1001 /\ s_environ s = [].
Proof.
  assert (Ha : authorized Hosts.build_unsetenv Hosts.happy)
    by host_authorized.
  split; [exact Ha|].
  destruct (@authorized_run_executes_the_command Hosts.build_unsetenv
              Hosts.happy Ha)
    as (s0 & s & _ & R & _ & C & V);
    try reflexivity; try discriminate.
  exists s. split; [exact R|]. rewrite C. auto.
Defined.

(** [alice] installs the devices of her chroot. *)
Lemma owner_installs_devices_witness :
  authorized Hosts.build_unsetenv Hosts.alice_installs /\
  installable Hosts.build_unsetenv Hosts.alice_installs "/srv/jails/work" /\
  exists s,
    run Hosts.build_unsetenv Hosts.alice_installs = Halt (Exit 0) s /\
    exists mode rdev,
      In (E_mknod "/srv/jails/work/dev/zero" mode rdev 0) (s_log s).
Proof.
  assert (Ha : authorized Hosts.build_unsetenv Hosts.alice_installs) by host_authorized.
  assert (Hi : installable Hosts.build_unsetenv Hosts.alice_installs "/srv/jails/work").
  { split.
    - intros d [<-|[<-|[<-|[<-|[]]]]];
        (split; [reflexivity|]; split; [discriminate | reflexivity]).
    - intros _. split; [discriminate|]. split; [discriminate|].
      split; [|discriminate].
      exists (Hosts.dir 0 1023). repeat split; reflexivity. }
  split; [exact Ha|]. split; [exact Hi|].
  destruct (@owner_installs_devices Hosts.build_unsetenv Hosts.alice_installs 10%nat
              (Hosts.dir 1001 488) Ha eq_refl eq_refl eq_refl eq_refl Hi)
    as (s & R & _ & N).
  exists s. split; [exact R|].
  exact (N "/dev/zero" (or_intror (or_introl eq_refl))).
Defined.

(** [alice] removes the devices of her chroot. *)
Lemma owner_removes_devices_witness :
  authorized Hosts.build_unsetenv Hosts.alice_removes /\
  removable Hosts.build_unsetenv Hosts.alice_removes "/srv/jails/work" /\
  exists s,
    run Hosts.build_unsetenv Hosts.alice_removes = Halt (Exit 0) s /\
    In (E_unlink "/srv/jails/work/dev/zero" 0) (s_log s).
Proof.
  assert (Ha : authorized Hosts.build_unsetenv Hosts.alice_removes) by host_authorized.
  assert (Hi : removable Hosts.build_unsetenv Hosts.alice_removes "/srv/jails/work").
  { split.
    - intros d [<-|[<-|[<-|[<-|[]]]]]; reflexivity.
    - intros _. split; discriminate. }
  split; [exact Ha|]. split; [exact Hi|].
  destruct (@owner_removes_devices Hosts.build_unsetenv Hosts.alice_removes 10%nat
              (Hosts.dir 1001 488) Ha eq_refl eq_refl eq_refl eq_refl Hi)
    as (s & R & _ & N).
  exists s. split; [exact R|].
  exact (N "/dev/zero" (or_intror (or_introl eq_refl))).
Defined.

(* ===================================================================== *)
(** ** Inside the chroot, and closing the configuration *)
(* ===================================================================== *)

(** X22.  The command runs only inside the chroot.  Whenever a run
    calls [execve], the calls just before it are [chdir(argv[1])] and
    [chroot(argv[1])], both returning 0, [setuid(real uid)] returning 0,
    the four regain attempts, each failing, and [chdir("/")] returning
    0; every call before these is benign, and after [execve] comes
    nothing, or the one diagnostic [Failed to exec]. *)
Theorem command_runs_only_inside_the_chroot (b : Build) (w : World)
  (prog : string) (argv envp : list string) :
  In (E_execve prog argv envp) (s_log (state_of (run b w))) ->
  exists pre post,
    s_log (state_of (run b w))
    = (pre ++
       [E_chdir (nth 1 (w_argv w) "") 0; E_chroot (nth 1 (w_argv w) "") 0;
        E_setuid (ruid (w_cred w)) 0;
        E_setuid 0 (-1); E_seteuid 0 (-1); E_setgid 0 (-1); E_setegid 0 (-1);
        E_chdir "/" 0; E_execve prog argv envp] ++ post)%list /\
    forallb benign pre = true /\
    (post = [] \/ post = [E_stderr (D_exec prog)]).
Proof.
  intros Hin.
  destruct (@vetted_of_change b w _ Hin eq_refl) as [_ T].
  destruct T as (i & st & sb & _ & Hw & _ & _ & _ & _ & Hi & _).
  pose proof (@final_path_round_trip _ i
                (@all_whitelisted_lacks_NUL true _ Hw) Hi) as Hfp.
  destruct (main_cases b w) as [(o1 & s1 & Hr & Q & Hstop)|R].
  { rewrite Hr in Hin. simpl in Hin.
    pose proof (@quiet_In w s1 _ Q Hin) as X. discriminate X. }
  destruct R as (s0 & i' & sb' & name & f & Q & _ & _ & _ & _ & _ & _ & Hi' &
                 _ & _ & _ & _ & _ & Hr).
  cbv zeta in Hi', Hr. rewrite Hi in Hi'. injection Hi' as <-.
  rewrite Hfp in Hr.
  destruct (Ascii.eqb (byte_at 0 (nth 2 (w_argv w) "")) "-") eqn:Hmode.
  { exfalso.
    destruct (@emits_device_mode b w (ruid (w_cred w)) sb'
                (nth 1 (w_argv w) "") (nth 2 (w_argv w) "") s0) as (t & L & F).
    rewrite <- Hr in L. rewrite L in Hin. apply in_app_or in Hin.
    destruct Hin as [Hin|Hin].
    - pose proof (@quiet_In w s0 _ Q Hin) as X. discriminate X.
    - rewrite Forall_forall in F. destruct (F _ Hin) as (d & _ & X).
      discriminate X. }
  pose proof (exec_mode_ending b w (ruid (w_cred w)) (nth 1 (w_argv w) "")
                (w_argv w) ENTRY s0) as X.
  rewrite <- Hr in X. destruct X as (_ & t & L & _ & X).
  rewrite L in Hin. apply in_app_or in Hin. destruct Hin as [Hin|Hin].
  { pose proof (@quiet_In w s0 _ Q Hin) as Y. discriminate Y. }
  destruct X as [[_ Xn]|(c1 & tail & _ & _ & _ & _ & _ & _ & _ & _ & _ & _ &
                          _ & Xt & Xo)].
  { exfalso. eapply no_execve_not_In; eauto. }
  rewrite Xt in Hin. apply in_app_or in Hin. destruct Hin as [Hin|Hin].
  2:{ exfalso. destruct Xo as [[_ ->]|[_ ->]]; simpl in Hin;
        [contradiction | destruct Hin as [Y|[]]; discriminate Y]. }
  simpl in Hin.
  repeat (destruct Hin as [Hin|Hin]; [try discriminate Hin|]); [|contradiction].
  injection Hin as <- <- <-.
  exists (s_log s0), tail. split; [rewrite L, Xt; reflexivity|].
  split; [now destruct Q|].
  destruct Xo as [[_ ->]|[_ ->]]; auto.
Qed.

Lemma command_runs_only_inside_the_chroot_witness :
  In (E_execve "/bin/sh" ["/bin/sh"] ["HOME=/home/alice"; "PATH=/usr/bin"])
     (s_log (state_of (run Hosts.build Hosts.happy))) /\
  In (E_chroot "/srv/jails/work" 0)
     (s_log (state_of (run Hosts.build Hosts.happy))).
Proof.
  assert (Hin : In (E_execve "/bin/sh" ["/bin/sh"]
                      ["HOME=/home/alice"; "PATH=/usr/bin"])
                   (s_log (state_of (run Hosts.build Hosts.happy))))
    by find_in.
  split; [exact Hin|].
  destruct (@command_runs_only_inside_the_chroot Hosts.build Hosts.happy
              _ _ _ Hin) as (pre & post & L & _).
  rewrite L. apply in_or_app. right. apply in_or_app. left.
  right. left. reflexivity.
Defined.


Lemma authorize_closes (b : Build) (w : World) (name base : string)
  (s : State) :
  exists found s1 t,
    scan_config (config_line name base) (strlen base + strlen name + 3) s
    = Ok found s1 /\
    s_log s1 = (s_log s ++ t)%list /\ forallb benign t = true /\
    s_cred s1 = s_cred s /\
    authorize b w name base s
    = if w_fclose w =? 0
      then if found
           then Ok tt (log (E_fclose (w_fclose w)) s1)
           else Halt (Exit (ERR_EXIT_CODE b))
                  (log (E_stderr D_permission_denied)
                     (log (E_fclose (w_fclose w)) s1))
      else Halt (Exit (ERR_EXIT_CODE b))
             (log (E_stderr D_close) (log (E_fclose (w_fclose w)) s1)).
Proof.
  destruct (scan_config_any name base s)
    as (found & s1 & Hrun & (C & _ & t & L & B) & _).
  exists found, s1, t. repeat (split; [assumption|]).
  unfold authorize.
  assert (Hpos : (Z.of_nat (String.length (config_line name base)) <=? 0) = false).
  { apply Z.leb_gt. pose proof (config_line_pos name base). lia. }
  rewrite Hpos.
  cbv beta iota delta [bind when ret fclose emit fatal eprint exit].
  rewrite Hrun. cbv beta iota.
  destruct (w_fclose w =? 0); simpl; [destruct found|]; reflexivity.
Qed.

Lemma main_closed (b : Build) (w : World) :
  (exists o s1, run b w = Halt o s1 /\ quiet w s1 /\ stopped b w o) \/
  w_fclose w = 0.
Proof.
  remember (run b w) as r eqn:Hr. unfold run, main in Hr.
  assert (Q : quiet w (initial w)) by (split; reflexivity).
  unfold bind at 1 in Hr.
  destruct (portable_clearenv_clears b (initial w))
    as (s1 & C1 & _ & _ & (t1 & L1 & B1) & R1).
  assert (Q1 : quiet w s1).
  { destruct Q as [Qc Ql]. split; [congruence|].
    rewrite L1, forallb_app, Ql, B1. reflexivity. }
  destruct R1 as [[R1 Henv]|[R1|[R1 N1]]]; rewrite R1 in Hr;
    [|left; eapply stopped_exit; eauto
     |left; exists OutOfFuel, s1; repeat split; [exact Hr|apply Q1|apply Q1|];
      right; split; [reflexivity | exact N1]].
  cbv beta iota in Hr.
  unfold bind at 1 in Hr.
  destruct (check_privileges b s1) as [tu s2|o s2] eqn:E2.
  2:{ destruct (frame_halt (@frame_check_privileges b) E2) as [-> X].
      left. eapply stopped_exit; eauto using quiet_extends. }
  destruct (frame_ok (@frame_check_privileges b) E2) as (X2 & _ & _).
  assert (Q2 : quiet w s2) by (eapply quiet_extends; eauto).
  unfold bind at 1 in Hr.
  destruct (open_config_cases b w s2)
    as [(f & s3 & E3 & Hf & Hcfg3 & Heof3 & X3)|(s3 & E3 & X3)];
    rewrite E3 in Hr; [|left; eapply stopped_exit; eauto using quiet_extends].
  assert (Q3 : quiet w s3) by (eapply quiet_extends; eauto).
  unfold bind at 1 in Hr.
  destruct (check_config_file b w f s3) as [[] s4|o s4] eqn:E4.
  2:{ destruct (frame_halt (@frame_check_config_file b w f) E4) as [-> X].
      left. eapply stopped_exit; eauto using quiet_extends. }
  destruct (frame_ok (@frame_check_config_file b w f) E4) as (X4 & _ & _).
  assert (Q4 : quiet w s4) by (eapply quiet_extends; eauto).
  unfold bind at 1 in Hr.
  destruct (positional_path b (w_argv w) s4) as [path s5|o s5] eqn:E5.
  2:{ destruct (frame_halt (@frame_positional_path b (w_argv w)) E5) as [-> X].
      left. eapply stopped_exit; eauto using quiet_extends. }
  destruct (frame_ok (@frame_positional_path b (w_argv w)) E5) as (X5 & _ & _).
  assert (Q5 : quiet w s5) by (eapply quiet_extends; eauto).
  unfold bind at 1 in Hr.
  destruct (stat_target b w path s5) as [owner s6|o s6] eqn:E6.
  2:{ destruct (frame_halt (@frame_stat_target b w path) E6) as [-> X].
      left. eapply stopped_exit; eauto using quiet_extends. }
  destruct (frame_ok (@frame_stat_target b w path) E6) as (X6 & _ & _).
  assert (Q6 : quiet w s6) by (eapply quiet_extends; eauto).
  unfold bind at 1 in Hr.
  destruct (split_target b path s6) as [[base leaf] s7|o s7] eqn:E7.
  2:{ destruct (frame_halt (@frame_split_target b path) E7) as [-> X].
      left. eapply stopped_exit; eauto using quiet_extends. }
  destruct (frame_ok (@frame_split_target b path) E7) as (X7 & _ & _).
  assert (Q7 : quiet w s7) by (eapply quiet_extends; eauto).
  cbv beta iota in Hr.
  unfold bind at 1 in Hr.
  destruct (stat_base b w base leaf owner s7) as [sb s8|o s8] eqn:E8.
  2:{ destruct (frame_halt (@frame_stat_base b w _ _ _) E8) as [-> X].
      left. eapply stopped_exit; eauto using quiet_extends. }
  destruct (frame_ok (@frame_stat_base b w _ _ _) E8) as (X8 & _ & _).
  assert (Q8 : quiet w s8) by (eapply quiet_extends; eauto).
  unfold bind at 1 in Hr.
  destruct (owner_name b w sb s8) as [name s9|o s9] eqn:E9.
  2:{ destruct (frame_halt (@frame_owner_name b w sb) E9) as [-> X].
      left. eapply stopped_exit; eauto using quiet_extends. }
  destruct (frame_ok (@frame_owner_name b w sb) E9) as (X9 & _ & _).
  assert (Q9 : quiet w s9) by (eapply quiet_extends; eauto).
  unfold bind at 1 in Hr.
  destruct (check_base_path b w base s9) as [[] s10|o s10] eqn:E10.
  2:{ destruct (frame_halt (@frame_check_base_path b w _) E10) as [-> X].
      left. eapply stopped_exit; eauto using quiet_extends. }
  destruct (frame_ok (@frame_check_base_path b w _) E10) as (X10 & _ & _).
  assert (Q10 : quiet w s10) by (eapply quiet_extends; eauto).
  unfold bind at 1 in Hr.
  destruct (authorize_closes b w name base s10)
    as (found & s11 & t & _ & L & B & C & E11).
  destruct (w_fclose w =? 0) eqn:Hc; [right; now apply Z.eqb_eq|].
  rewrite E11 in Hr. left. eapply stopped_exit; [exact Hr|].
  destruct Q10 as [Qc Ql]. split; simpl; [congruence|].
  rewrite L, !forallb_app, Ql, B. reflexivity.
Qed.

(** X23.  A failing [fclose] of the configuration stream is fatal,
    whatever the scan found.  On such a host the authorization scan of
    lines 340-389, from any state, ends with [fclose], the diagnostic
    [Failed to close configuration file] and the error code, the
    identity unchanged; a run keeps the credentials it was started with
    and makes only benign calls, and it exits with the error code when
    the environment can be emptied. *)
Theorem close_failure_is_fatal (b : Build) (w : World) :
  w_fclose w <> 0 ->
  quiet w (state_of (run b w)) /\
  (clearable b (w_envp w) ->
   exists s1, run b w = Halt (Exit (ERR_EXIT_CODE b)) s1) /\
  (forall name base s,
     exists s' t,
       authorize b w name base s = Halt (Exit (ERR_EXIT_CODE b)) s' /\
       s_log s'
       = (s_log s ++ t ++ [E_fclose (w_fclose w); E_stderr D_close])%list /\
       forallb benign t = true /\
       s_cred s' = s_cred s).
Proof.
  intros Hc.
  destruct (main_closed b w) as [(o & s9 & Hr & Q & Hs)|H];
    [|contradiction].
  split; [now rewrite Hr|]. split.
  - intros Hclr. rewrite (clearable_stopped Hclr Hs) in Hr. eauto.
  - intros name base s.
    destruct (authorize_closes b w name base s)
      as (found & s1 & t & _ & L & B & C & E).
    apply Z.eqb_neq in Hc. rewrite Hc in E.
    eexists. exists t. split; [exact E|]. simpl.
    split; [rewrite L, <- !app_assoc; reflexivity|]. auto.
Qed.

(** A host on which [fclose] returns [EOF], in the build without
    [clearenv]. *)
Lemma close_failure_is_fatal_witness :
  w_fclose Hosts.failing_close <> 0 /\
  clearable Hosts.build_unsetenv (w_envp Hosts.failing_close) /\
  quiet Hosts.failing_close
    (state_of (run Hosts.build_unsetenv Hosts.failing_close)) /\
  exists s1,
    run Hosts.build_unsetenv Hosts.failing_close
    = Halt (Exit (ERR_EXIT_CODE Hosts.build_unsetenv)) s1.
Proof.
  assert (H : w_fclose Hosts.failing_close <> 0) by (simpl; lia).
  assert (Hc : clearable Hosts.build_unsetenv (w_envp Hosts.failing_close))
    by (right; repeat constructor).
  split; [exact H|]. split; [exact Hc|].
  destruct (@close_failure_is_fatal Hosts.build_unsetenv Hosts.failing_close H)
    as (Q & R & _).
  split; [exact Q | exact (R Hc)].
Defined.

(* ===================================================================== *)
(** ** The loop of [portable_clearenv] on any environment *)
(* ===================================================================== *)

(** An entry that [unsetenv] removes holds an [=]. *)
Lemma is_variable_has_eq (first : string) :
  forall e,
    strncmp_eq e (env_name first) (strcspn_eq first) = true ->
    Ascii.eqb (byte_at (strcspn_eq first) e) "=" = true ->
    strchr e "=" = true.
Proof.
  assert (Base : forall e, Ascii.eqb (byte_at 0 e) "=" = true ->
                           strchr e "=" = true).
  { intros [|x e]; simpl; [discriminate|]. intros H.
    apply Ascii.eqb_eq in H. subst x. reflexivity. }
  unfold env_name. induction first as [|a first IH]; intros e; simpl.
  { intros _. apply Base. }
  destruct (Ascii.eqb a NUL) eqn:E1; [intros _; apply Base|].
  destruct (Ascii.eqb a "=") eqn:E2; [intros _; apply Base|].
  cbn [truncate]. intros H Hb.
  destruct (@strncmp_eq_head _ _ _ _ E1 H) as (e' & ->).
  simpl in H. rewrite Ascii.eqb_refl, E1 in H.
  simpl in Hb. simpl. rewrite E1, E2. now apply IH.
Qed.

Lemma is_variable_variableb (first e : string) :
  (strcspn_eq first =? 0)%nat = false ->
  is_variable (env_name first) e = true -> variableb e = true.
Proof.
  intros Hz H. unfold variableb.
  rewrite (is_variable_named first e Hz H). simpl.
  unfold is_variable in H. rewrite strlen_env_name in H.
  apply andb_prop in H. destruct H as [H1 H2].
  now apply (is_variable_has_eq first).
Qed.

(** [unsetenv] removes variables only, so the first entry that is none
    stays the first. *)
Lemma first_other_filter (first : string) (l : list string) :
  (strcspn_eq first =? 0)%nat = false ->
  first_other (filter (fun e => negb (is_variable (env_name first) e)) l)
  = first_other l.
Proof.
  intros Hz. induction l as [|e l IH]; simpl; [reflexivity|].
  destruct (is_variable (env_name first) e) eqn:E; simpl.
  - now rewrite (is_variable_variableb first e Hz E).
  - now rewrite IH.
Qed.

Lemma first_other_none (l : list string) :
  first_other l = None -> forallb variableb l = true.
Proof.
  induction l as [|e l IH]; simpl; [reflexivity|].
  destruct (variableb e); [auto | discriminate].
Qed.

Section Walk_of_the_environment.

Variable b : Build.

(** The loop comes to an entry that has a name and no [=]: it repeats
    the pass on that entry whatever the bound. *)
Lemma unsetenv_loop_caught (fuel : nat) :
  forall (s : State) (e : string),
    first_other (s_environ s) = Some e -> namedb e = true ->
    exists s',
      unsetenv_loop b fuel s = Halt OutOfFuel s' /\
      s_cred s' = s_cred s /\
      exists t, s_log s' = (s_log s ++ t)%list /\
                Forall (fun c => exists name, c = E_unsetenv name 0) t.
Proof.
  induction fuel as [|fuel IH]; intros s e Hf Hn.
  { exists s. split; [reflexivity|]. split; [reflexivity|].
    exists []. now rewrite app_nil_r. }
  destruct (s_environ s) as [|x rest] eqn:Henv; [discriminate Hf|].
  simpl in Hf.
  assert (Hz : (strcspn_eq x =? 0)%nat = false).
  { destruct (variableb x) eqn:Hv.
    - unfold variableb in Hv. apply andb_prop in Hv. destruct Hv as [Hv _].
      unfold namedb in Hv. now apply negb_true_iff in Hv.
    - injection Hf as ->. unfold namedb in Hn. now apply negb_true_iff in Hn. }
  rewrite (unsetenv_loop_step b fuel s Henv Hz).
  match goal with
  | |- context [unsetenv_loop b fuel ?s1] =>
      destruct (IH s1 e) as (s' & R & C & t & L & F); [|exact Hn|]
  end.
  { cbn [s_environ log with_environ].
    rewrite (first_other_filter x (x :: rest) Hz). simpl. exact Hf. }
  exists s'. split; [exact R|]. split; [exact C|].
  exists (E_unsetenv (env_name x) 0 :: t). split.
  - rewrite L. simpl. now rewrite <- app_assoc.
  - constructor; [eauto | exact F].
Qed.

(** The loop comes to an entry without a name: it exits. *)
Lemma unsetenv_loop_corrupted (fuel : nat) :
  forall (s : State) (e : string),
    (List.length (s_environ s) < fuel)%nat ->
    first_other (s_environ s) = Some e -> namedb e = false ->
    exists s' t,
      unsetenv_loop b fuel s = Halt (Exit (ERR_EXIT_CODE b)) s' /\
      s_cred s' = s_cred s /\
      s_log s' = (s_log s ++ t ++ [E_stderr D_corrupted_env])%list /\
      Forall (fun c => exists name, c = E_unsetenv name 0) t.
Proof.
  induction fuel as [|fuel IH]; intros s e Hlen Hf Hn; [lia|].
  destruct (s_environ s) as [|x rest] eqn:Henv; [discriminate Hf|].
  simpl in Hf. destruct (variableb x) eqn:Hv.
  - assert (Hz : (strcspn_eq x =? 0)%nat = false).
    { unfold variableb in Hv. apply andb_prop in Hv. destruct Hv as [Hv _].
      unfold namedb in Hv. now apply negb_true_iff in Hv. }
    assert (Hc : strchr x "=" = true).
    { unfold variableb in Hv. apply andb_prop in Hv. tauto. }
    rewrite (unsetenv_loop_step b fuel s Henv Hz).
    simpl filter. rewrite is_variable_env_name, Hc. simpl negb. cbv iota.
    pose proof (filter_length_le
                  (fun c => negb (is_variable (env_name x) c)) rest) as Hfl.
    match goal with
    | |- context [unsetenv_loop b fuel ?s1] =>
        destruct (IH s1 e) as (s' & t & R & C & L & F); [| |exact Hn|]
    end.
    { cbn [s_environ log with_environ]. simpl in Hlen. lia. }
    { cbn [s_environ log with_environ].
      now rewrite (first_other_filter x rest Hz). }
    exists s', (E_unsetenv (env_name x) 0 :: t).
    split; [exact R|]. split; [exact C|]. split.
    + rewrite L. simpl. now rewrite <- app_assoc.
    + constructor; [eauto | exact F].
  - injection Hf as ->. unfold namedb in Hn. apply negb_false_iff in Hn.
    exists (log (E_stderr D_corrupted_env) s), [].
    simpl. unfold bind at 1, environ. rewrite Henv, Hn.
    repeat split. constructor.
Qed.

(** The calls of a [portable_clearenv] that returns. *)
Lemma portable_clearenv_calls (s s1 : State) :
  portable_clearenv b s = Ok tt s1 ->
  exists t, s_log s1 = (s_log s ++ t)%list /\ Forall env_call t.
Proof.
  unfold portable_clearenv. destruct (HAVE_CLEARENV b).
  { unfold bind, clearenv. simpl. intros [= <-].
    exists [E_clearenv]. split; [reflexivity|].
    constructor; [now left | constructor]. }
  generalize (S (List.length (s_environ s))). intros fuel. revert s.
  induction fuel as [|fuel IH]; intros s R; [discriminate R|].
  destruct (s_environ s) as [|x rest] eqn:Henv.
  { simpl in R. unfold bind at 1, environ in R. rewrite Henv in R.
    injection R as <-. exists []. now rewrite app_nil_r. }
  destruct (strcspn_eq x =? 0)%nat eqn:Hz.
  { simpl in R. unfold bind at 1, environ in R. rewrite Henv, Hz in R.
    discriminate R. }
  rewrite (unsetenv_loop_step b fuel s Henv Hz) in R.
  destruct (IH _ R) as (t & L & F).
  exists (E_unsetenv (env_name x) 0 :: t). split.
  - rewrite L. simpl. now rewrite <- app_assoc.
  - constructor; [right; eauto | exact F].
Qed.

End Walk_of_the_environment.

(** X24.  What the build without [clearenv] does with an environment,
    read off its first entry that is no variable (a name that is not
    empty, then [=]).  When there is none, [portable_clearenv] returns
    with the environment empty.  When that entry has no name (it is
    empty or begins with [=]), the function exits with the error code
    after [Corrupted environment].  When it has a name and no [=],
    [unsetenv] of that name removes nothing, the entry stays the first
    one and the loop of lines 187-207 repeats the same pass: whatever
    the number of passes allowed, the function has neither returned nor
    exited, and has made no call but [unsetenv]. *)
Theorem unset_walk_never_ends (b : Build) (s : State) :
  HAVE_CLEARENV b = false ->
  match first_other (s_environ s) with
  | None =>
      exists s', portable_clearenv b s = Ok tt s' /\ s_environ s' = []
  | Some e =>
      if namedb e then
        strchr e "=" = false /\
        (forall fuel, exists s',
           unsetenv_loop b fuel s = Halt OutOfFuel s' /\
           s_cred s' = s_cred s /\
           exists t, s_log s' = (s_log s ++ t)%list /\
                     Forall (fun c => exists name, c = E_unsetenv name 0) t) /\
        exists s', portable_clearenv b s = Halt OutOfFuel s'
      else
        exists s' t,
          portable_clearenv b s = Halt (Exit (ERR_EXIT_CODE b)) s' /\
          s_log s' = (s_log s ++ t ++ [E_stderr D_corrupted_env])%list
  end.
Proof.
  intros Hb. destruct (first_other (s_environ s)) as [e|] eqn:Hf.
  - destruct (namedb e) eqn:Hn.
    + split.
      { clear Hb. revert Hf. generalize (s_environ s).
        induction l as [|x l IH]; simpl; [discriminate|].
        destruct (variableb x) eqn:Hv; [exact IH|].
        intros [= ->]. unfold variableb in Hv. rewrite Hn in Hv.
        exact Hv. }
      split.
      { intros fuel. apply unsetenv_loop_caught with (e := e); assumption. }
      unfold portable_clearenv. rewrite Hb.
      destruct (@unsetenv_loop_caught b (S (List.length (s_environ s))) s e
                  Hf Hn) as (s' & R & _).
      eauto.
    + unfold portable_clearenv. rewrite Hb.
      destruct (@unsetenv_loop_corrupted b (S (List.length (s_environ s))) s e
                  (Nat.lt_succ_diag_r _) Hf Hn) as (s' & t & R & _ & L & _).
      eauto.
  - apply first_other_none in Hf.
    destruct (@portable_clearenv_returns b s (or_intror Hf))
      as (s' & R & V & _).
    eauto.
Qed.

(** With [TERM] in front of the environment the build without
    [clearenv] never gets past its first statement, while the build
    with [clearenv] runs the command. *)
Lemma unset_walk_never_ends_witness :
  HAVE_CLEARENV Hosts.build_unsetenv = false /\
  first_other (s_environ (initial Hosts.stray_entry)) = Some "TERM" /\
  (exists s',
     portable_clearenv Hosts.build_unsetenv (initial Hosts.stray_entry)
     = Halt OutOfFuel s') /\
  outcome_of (run Hosts.build_unsetenv Hosts.stray_entry) = Some OutOfFuel /\
  s_log (state_of (run Hosts.build_unsetenv Hosts.stray_entry))
  = repeat (E_unsetenv "TERM" 0) 3 /\
  outcome_of (run Hosts.build Hosts.stray_entry)
  = Some (Replaced "/bin/sh" ["/bin/sh"] ["TERM"; "HOME=/home/alice"]).
Proof.
  split; [reflexivity|]. split; [reflexivity|].
  pose proof (@unset_walk_never_ends Hosts.build_unsetenv
                (initial Hosts.stray_entry) eq_refl) as H.
  simpl in H. destruct H as (_ & _ & H).
  split; [exact H|]. split; [vm_compute; reflexivity|].
  split; vm_compute; reflexivity.
Defined.

(* ===================================================================== *)
(** ** The environment that the command receives *)
(* ===================================================================== *)

Lemma frame_emits (b : Build) {A} (m : M A) :
  frame b m -> emits (fun _ => True) m.
Proof.
  intros F s. destruct (F s) as ((_ & _ & t & L & _) & _).
  exists t. split; [exact L|]. apply Forall_forall. auto.
Qed.

Lemma emits_open_config (b : Build) (w : World) :
  emits (fun _ => True) (open_config b w).
Proof.
  intros s. unfold open_config, bind, fopen.
  destruct (w_fopen w (CFG b)) as [f|]; simpl.
  - exists [E_fopen (CFG b)]. auto.
  - exists [E_fopen (CFG b); E_stderr D_cfg_open].
    rewrite <- app_assoc. auto.
Qed.

Lemma emits_authorize (b : Build) (w : World) (name base : string) :
  emits (fun _ => True) (authorize b w name base).
Proof.
  intros s.
  destruct (authorize_cases b w name base s)
    as [(s1 & E & (_ & _ & t & L & _) & _)|(s1 & E & (_ & _ & t & L & _))];
    rewrite E; exists t; (split; [exact L|]); apply Forall_forall; auto.
Qed.

(** Whatever a run does, it does after [portable_clearenv]: the calls
    of that function are the first of its log. *)
Lemma run_after_clearing (b : Build) (w : World) (s1 : State) :
  portable_clearenv b (initial w) = Ok tt s1 ->
  exists rest, s_log (state_of (run b w)) = (s_log s1 ++ rest)%list.
Proof.
  intros R. unfold run, main. unfold bind at 1. rewrite R.
  set (P := fun _ : Event => True).
  assert (Hs : forall d, P (E_stderr d)) by (intros; exact I).
  match goal with
  | |- context [state_of (?k s1)] =>
      assert (E : emits P k); [|destruct (E s1) as (t & L & _); eauto]
  end.
  apply emits_bind; [apply (frame_emits (@frame_check_privileges b))|].
  intros tu.
  apply emits_bind; [apply emits_open_config | intros f].
  apply emits_bind;
    [apply (frame_emits (@frame_check_config_file b w f)) | intros _].
  apply emits_bind;
    [apply (frame_emits (@frame_positional_path b (w_argv w))) | intros path].
  apply emits_bind;
    [apply (frame_emits (@frame_stat_target b w path)) | intros owner].
  apply emits_bind;
    [apply (frame_emits (@frame_split_target b path)) | intros [base leaf]].
  apply emits_bind;
    [apply (frame_emits (@frame_stat_base b w base leaf owner)) | intros sb].
  apply emits_bind;
    [apply (frame_emits (@frame_owner_name b w sb)) | intros name].
  apply emits_bind;
    [apply (frame_emits (@frame_check_base_path b w base)) | intros _].
  apply emits_bind; [apply emits_authorize | intros _].
  cbv zeta.
  apply emits_bind; [apply emits_when, emits_fatal, Hs | intros _].
  match goal with |- emits _ (if ?c then _ else _) => destruct c end.
  - eapply emits_weaken; [|apply emits_device_mode]. intros; exact I.
  - eapply emits_weaken; [|apply emits_exec_mode]. intros; exact I.
Qed.

(** X25.  The environment block of every [execve] of a run holds the
    strings that [envp] points to at the call: the entry environment in
    the build with [clearenv], which sets [environ] to NULL and leaves
    the array alone, and no string at all in the build without it, whose
    loop of [unsetenv] calls has emptied that very array.  In both
    builds the clearing comes first: the calls of [portable_clearenv],
    which returned with the environment of the helper empty, are the
    first of the log, the [execve] comes after them, it is the only one,
    and the environment of the helper is still empty at the end. *)
Theorem exec_receives_what_envp_points_to (b : Build) (w : World)
  (prog : string) (argv envp : list string) :
  In (E_execve prog argv envp) (s_log (state_of (run b w))) ->
  envp = (if HAVE_CLEARENV b then w_envp w else []) /\
  s_environ (initial w) = w_envp w /\
  (exists s1 rest,
     portable_clearenv b (initial w) = Ok tt s1 /\ s_environ s1 = [] /\
     Forall env_call (s_log s1) /\
     s_log (state_of (run b w)) = (s_log s1 ++ rest)%list /\
     In (E_execve prog argv envp) rest) /\
  s_environ (state_of (run b w)) = [] /\
  exists pre tail,
    s_log (state_of (run b w))
    = (pre ++ [E_execve prog argv envp] ++ tail)%list /\
    no_execve pre /\ no_execve tail.
Proof.
  intros Hin.
  assert (Hmode : Ascii.eqb (byte_at 0 (nth 2 (w_argv w) "")) "-" = false).
  { pose proof (@changes_of_run b w _ Hin eq_refl) as H.
    destruct (Ascii.eqb (byte_at 0 (nth 2 (w_argv w) "")) "-");
      [|reflexivity].
    destruct H as (d & _ & X). discriminate X. }
  destruct (exec_run_cases b w _ _ _ Hmode Hin)
    as (s0 & fp & c1 & tail & Q & _ & _ & Hp & Ha & He & _ & _ & _ & _ & Henv &
        Hlog & Htail).
  split; [exact He|]. split; [reflexivity|]. split.
  { destruct (portable_clearenv_clears b (initial w))
      as (s1 & _ & _ & _ & (t1 & L1 & B1) & [[R1 E1]|R1]).
    - destruct (@portable_clearenv_calls b _ _ R1) as (t & Lt & Ft).
      destruct (run_after_clearing b w R1) as (rest & Lr).
      exists s1, rest. split; [exact R1|]. split; [exact E1|].
      simpl in Lt. split; [rewrite Lt; exact Ft|]. split; [exact Lr|].
      rewrite Lr in Hin. apply in_app_or in Hin. destruct Hin as [Hin|Hin];
        [|exact Hin].
      exfalso. rewrite L1 in Hin. simpl in Hin.
      eapply no_execve_not_In; [apply benign_not_execve|]; eauto.
    - exfalso. unfold run, main, bind in Hin.
      destruct R1 as [R1|[R1 _]]; rewrite R1 in Hin;
        simpl in Hin; rewrite L1 in Hin; simpl in Hin;
        (eapply no_execve_not_In; [apply benign_not_execve|]; eauto). }
  split; [exact Henv|].
  exists (s_log s0 ++
          [E_chdir fp 0; E_chroot fp 0; E_setuid (ruid (w_cred w)) 0;
           E_setuid 0 (-1); E_seteuid 0 (-1); E_setgid 0 (-1);
           E_setegid 0 (-1); E_chdir "/" 0])%list, tail.
  split; [rewrite Hlog, <- app_assoc; reflexivity|].
  split; [|assumption].
  unfold no_execve. rewrite forallb_app.
  rewrite (quiet_no_execve Q). reflexivity.
Qed.

(** In scenario 1 the shell receives the caller's two variables from
    the build with [clearenv]. *)
Lemma exec_receives_what_envp_points_to_witness :
  In (E_execve "/bin/sh" ["/bin/sh"] ["HOME=/home/alice"; "PATH=/usr/bin"])
     (s_log (state_of (run Hosts.build Hosts.happy))) /\
  ["HOME=/home/alice"; "PATH=/usr/bin"] = w_envp Hosts.happy /\
  s_environ (state_of (run Hosts.build Hosts.happy)) = [].
Proof.
  assert (Hin : In (E_execve "/bin/sh" ["/bin/sh"]
                      ["HOME=/home/alice"; "PATH=/usr/bin"])
                   (s_log (state_of (run Hosts.build Hosts.happy))))
    by find_in.
  split; [exact Hin|].
  destruct (@exec_receives_what_envp_points_to Hosts.build Hosts.happy
              "/bin/sh" ["/bin/sh"] ["HOME=/home/alice"; "PATH=/usr/bin"] Hin)
    as (He & _ & _ & Hn & _).
  split; [exact He | exact Hn].
Defined.

(** C6 on scenario 1 in the build without [clearenv]: the loop of
    lines 187-207 unsets [HOME] and [PATH] in the array that [envp]
    points to, and line 471 hands that array, now empty, to [execve];
    the build with [clearenv] hands over the two variables. *)
Theorem exec_receives_emptied_environment :
  HAVE_CLEARENV Hosts.build_unsetenv = false /\
  w_envp Hosts.happy = ["HOME=/home/alice"; "PATH=/usr/bin"] /\
  outcome_of (run Hosts.build_unsetenv Hosts.happy)
  = Some (Replaced "/bin/sh" ["/bin/sh"] []) /\
  s_log (state_of (run Hosts.build_unsetenv Hosts.happy))
  = [E_unsetenv "HOME" 0; E_unsetenv "PATH" 0;
     E_fopen "/etc/userchroot.conf";
     E_lstat "/etc"; E_lstat "/etc"; E_lstat "/etc/userchroot.conf";
     E_fstat;
     E_lstat "/srv/jails/work"; E_lstat "/srv/jails"; E_getpwuid 1001;
     E_lstat "/srv"; E_lstat "/srv";
     E_fgets (config_line "bob" "/srv/jails");
     E_fgets (config_line "alice" "/srv/jails"); E_fclose 0;
     E_chdir "/srv/jails/work" 0; E_chroot "/srv/jails/work" 0;
     E_setuid 1001 0; E_setuid 0 (-1); E_seteuid 0 (-1);
     E_setgid 0 (-1); E_setegid 0 (-1); E_chdir "/" 0;
     E_execve "/bin/sh" ["/bin/sh"] []] /\
  outcome_of (run Hosts.build Hosts.happy)
  = Some (Replaced "/bin/sh" ["/bin/sh"]
            ["HOME=/home/alice"; "PATH=/usr/bin"]).
Proof.
  split; [reflexivity|]. split; [reflexivity|].
  split; [vm_compute; reflexivity|].
  split; vm_compute; reflexivity.
Qed.

(** The run of scenario 1 in the build without [clearenv] ends in the
    third way, with no variable for the shell. *)
Lemma run_ends_in_one_of_three_ways_witness :
  clearable Hosts.build_unsetenv (w_envp Hosts.happy) /\
  exists s,
    run Hosts.build_unsetenv Hosts.happy
    = Halt (Replaced "/bin/sh" ["/bin/sh"] []) s.
Proof.
  assert (Hc : clearable Hosts.build_unsetenv (w_envp Hosts.happy))
    by (right; repeat constructor).
  split; [exact Hc|].
  destruct (@run_ends_in_one_of_three_ways Hosts.build_unsetenv Hosts.happy Hc)
    as (o & s & R & [E|[[E _]|[E _]]]); subst o;
    try (exfalso; vm_compute in R; discriminate R).
  exists s. exact R.
Defined.
